(* ===== verification/_CoqProject ===== *)
-Q . S2P
Prelude.v
JsValue.v
Json.v
JsonFuel.v
Clock.v
EcmaDate.v
Browser.v
Keeps.v
Url.v
Widgets.v
Index.v
Login.v
DatePicker.v
System.v
Ordering.v
Footprint.v
Invariant.v
Controller.v
LoginSpec.v
DashboardSpec.v
