(* ===== verification/Prelude.v ===== *)
(** * A verification development of the checkin-system front end

    ** The program

    The repository ships three browser scripts that never call each
    other; they meet in the browser, through one [localStorage] slot,
    [user_data], through navigations, and through the server endpoint
    [GET /api/token-status?token=...]:
    - [src/static/script/loginScript.js], the login page: its
      DOMContentLoaded handler installs a click listener on each
      password-visibility icon and a submit listener on the form; the
      submit listener trims the typed token, alerts on an empty one,
      otherwise asks the endpoint and, on a [valid] answer, stores the
      answer with the token and today's UTC date as the session record
      and navigates to [/].
    - [src/static/script/indexScript.js], the protected dashboard: its
      DOMContentLoaded handler renders the clock widgets, reads the
      record, deletes it and goes to [/login] when the token is falsy or
      [saved_date] is not today's UTC date, otherwise asks the endpoint;
      on a [valid] answer it writes the answer back with the stored
      token and date, renders the three-way shift status and installs
      the check-in form's submit listener (banner, confetti, and
      [form.submit()] after 1200 ms) and, once checked out, a logout
      click handler; a failed request goes to [/login].
    - [src/app/static/script/dashboardScript.js]: a date picker whose
      change listener navigates to [/dashboard?date_str=<value>].

    ** The files

    - Prelude.v (this file): the notation scope [checkin_scope], the
      hint databases [checkin] and [checkin_rw], the tactics, decimal
      numerals ([show_N], [read_uint]), left padding and the finite range
      checks [all_range].
    - JsValue.v: JavaScript values ([val]), [ToBoolean] ([truthy]),
      property reads and writes ([get_prop], [set_prop]), [ToString]
      ([to_str]), [trim], [split(...)[0]], [slice(-n)].
    - Json.v: [JSON.stringify] ([stringify]) and [JSON.parse] ([parse], a
      recursive descent on fuel), with the round trip [parse_stringify]
      that the theorems about a stored record use; JsonFuel.v: the fuel
      of [parse] always suffices ([parse_fuel_enough]).  These two are
      facts of the models of the built-ins, which justify them; they
      are not claims about the scripts.
    - Clock.v: time values, [toISOString] ([iso_string], [today_str]),
      the proleptic Gregorian calendar ([civil_from_days] and its inverse
      [days_from_civil]) and the local-time getters; EcmaDate.v: the
      calendar functions of ECMA-262 ([DayFromYear], [InLeapYear], the
      month table), the equivalence of Clock.v's closed form with them
      ([civil_from_days_ecma]) and its bijection onto the valid dates
      ([civil_from_days_spec]), which justify the model of [Date], the
      range of [toISOString] and the type [date_text] of a stored date.
    - Browser.v: the browser state [St] (storage as a gmap, the DOM as a
      log of property writes, class lists as a gset, listeners, pending
      tasks, the effect log, the environment) and the handler monad [M]
      (state and exceptions, stdpp's [MRet]/[MBind]), with [localStorage],
      DOM, [fetch], [setTimeout], [alert], [console] and navigation.
    - Url.v: the URL standard's query parser, to read the token back out
      of the request URL.
    - Widgets.v, Index.v, Login.v, DatePicker.v: the scripts, one
      Definition per handler, named after the source ([index_load] is the
      DOMContentLoaded handler of indexScript.js lines 29-140,
      [index_check_record] its lines 43-58, [index_then] the
      [.then(freshData => ...)] body of lines 60-131, which writes the
      record back and calls [index_render] for lines 65-128, [login_submit] and
      [login_then] the login form, [toggle_click] the icon listener,
      [date_change] the picker).
    - Keeps.v: [keeps R m], "running [m] ends in a state related by the
      preorder [R] to the state it started from", with its composition
      rules along [≫=], [try_catch] and [if]; Ordering.v, Footprint.v
      and Invariant.v instantiate it.
    - System.v: the browser as a state machine: a [world] is the page on
      display and its state; [step] runs one [event] (a page load, a field
      edit, a listener fired, a pending request or timer settled), [run] a
      sequence, [reachable] the closure; the sessions across pages.
    - Ordering.v: the queue of pending requests: every handler only
      appends to it ([adds], a Section over the property of the new
      tasks), so at most one dashboard validation request is pending,
      while the login page can have several.
    - Footprint.v: what the scripts touch outside the page: no storage
      key but [user_data], no request but the token-status endpoint, no
      navigation but to the three pages.
    - Invariant.v: the invariant of the stored record over every
      reachable world.
    - Controller.v: the design's session cache controller as an abstract
      decision ([bootstrap]) and the refinement theorem for [index_load].
    - LoginSpec.v: the design's [login()] operation ([login_spec], on the
      server's answer as [classify] reads it) and the refinement theorem
      for the login page driven through the browser.
    - DashboardSpec.v: the design's [bootstrap()] with the answer of the
      validation request (steps 1-7, [dashboard_spec]) and the refinement
      theorem for the dashboard driven through the browser.

    ** The theorems (claim ids C1-C38)

    - The dashboard's checks (Index.v): a record without token (C2) or
      of another day (C1) is deleted with a redirect and no request; a
      fresh record is kept and sent (C3); a malformed record throws
      before any check (C13).  The answer: a valid one is written back
      with the stored token and date (C4), an invalid one changes
      nothing (C5), a failure redirects and keeps the record (C6); the
      status widgets follow the three-way branch (C7); in the
      checked-out state a submission that reaches the listener still
      posts the form (C36); the date widgets show one local date and
      the greeting follows the hour (C38).
    - The login (Login.v): blank tokens are refused locally (C8), others
      sent trimmed (C9); the answers (C10-C12); the toggle is an
      involution (C22).  The date picker (C14).
    - Dates and URLs: "today" ([toISOString().split('T')[0]]) is
      ECMA-262's date of the instant (C33), throws exactly outside the
      time range and has a year in [-271821 .. 275760] (C34), and
      compares UTC days (C18); the clock reads HH:MM (C21); the token
      survives the URL when unreserved (C27) and is changed whenever it
      holds [&], [#] or [+] (C28).
    - Sessions across pages (System.v): a login followed by the
      dashboard on the same UTC day keeps the session (C19), on another
      UTC day drops it, even within one local date (C20); after a
      confirmation the written-back record keeps the session for the
      day (C16); after a failed validation the page goes to the login
      but the record survives, so the dashboard resumes without a login
      (C15); a double submission of the check-in form posts it twice
      (C26).
    - Over every reachable world: at most one dashboard validation
      request is pending (C17, Ordering.v), while two submissions of the
      login form leave two in flight (C35); the scripts touch no other
      storage key and contact no other URL (C29, Footprint.v); the
      stored record is well formed (C23, Invariant.v), and on such
      states the dashboard's load never throws (C24).
    - Refinement: [index_load] refines the design's [bootstrap()] (C25),
      the login page its [login()] (C30); opening the dashboard and
      settling its request refines [bootstrap()] steps 1-7 (C31), except
      for an explicit rejection (C5) and a confirmation without a
      string [full_name], which stores the record and then leaves for
      the login (C32); the logout ends the session: the next dashboard
      load redirects without a request (C37).

    ** Bounds and fuel

    [parse] runs its recursive descent with fuel [2 * length s + 2].
    Each call that opens an array or an object, and each further member
    or element, consumes a character, and [p_elems] calls [p_value] once
    on the same text before a comma is consumed; so [p_value] needs at
    most [2 * length s + 1] and the list parsers [2 * length s + 2]
    (JsonFuel.v, [fuel_stable]): [parse] gives the result of the
    unbounded parser on every text ([parse_fuel_enough]).  The round trip also uses the
    size bound [jsize_le_length].
    Time values range over ECMAScript's [+/- 8.64e15] ms ([max_time]);
    [toISOString] throws a [RangeError] outside.  Two-digit padding is
    checked by evaluation on 0-99 ([all_range]).

    ** Not modelled

    The server is not code of the repository: its answers are inputs
    ([response]).  The HTML markup is an input too (the initial DOM), and
    CSS and the confetti library are presentation: only the call to
    [confetti] is an effect.  The weekday and month names of the default
    locale come from [Intl], which the scripts only call: they are a
    table of the environment, as the clock and the time-zone offset are.
    The request [form.submit()] sends goes to the server and is an
    effect.  A navigation is an effect and the next page load discards
    the pending tasks, so the delay before the old page unloads, and the
    elapsed time of timers, are left to the order of the events, which
    the theorems quantify over.  [localStorage] quota errors are not
    modelled: the limit is the browser's, no line of the scripts is
    written for them (a [QuotaExceededError] would reach the same
    [.catch] as any other exception), and a model would only add a
    hypothesis "the record fits" to every theorem that writes it.  JSON
    numbers are integers and strings 8-bit code units, so fractions,
    exponents and [\u] escapes above [0xFF] are outside the model:
    on an answer that holds one, the modelled [parse] fails where the
    browser's succeeds.  The theorems about a parsed answer (C4, C5,
    C10, C11, C16, C32) assume a text [parse] reads and are exact; the
    theorems about the failure path (C6, C12, C13, C15) and the
    refinements (C30, C31) also cover such a text, and for it they
    predict the failure path where the page takes the success path.
    The fields the scripts read are booleans and strings, and [vdash],
    which only goes to an input's [value]. *)

From Stdlib Require Import ZArith Lia Bool Ascii String DecimalN.
From stdpp Require Import base list.

Declare Scope checkin_scope.
Delimit Scope checkin_scope with ck.

(** [m @ st ⇓ st']: the handler [m], run on the browser state [st],
    returns normally and leaves the state [st']. *)
Notation "m @ st ⇓ st'" := (m st = (st', inl tt))
  (at level 70, st at next level, st' at next level) : checkin_scope.

Create HintDb checkin discriminated.
Create Rewrite HintDb checkin_rw.

(** ** Tactics shared by the development *)

Ltac invc H := inversion H; subst; clear H.

(** Case-split every [if] of the goal, keeping the equation. *)
Ltac case_ifs :=
  repeat match goal with
         | |- context [if ?b then _ else _] =>
             let E := fresh "E" in destruct b eqn:E
         end.

(** Turn the boolean tests on integers of the hypotheses into the
    arithmetic facts [lia] reads. *)
Ltac bool_facts :=
  rewrite ?Bool.orb_true_iff, ?Bool.andb_true_iff, ?Bool.negb_true_iff,
    ?Bool.orb_false_iff, ?Bool.andb_false_iff, ?Bool.negb_false_iff,
    ?Z.eqb_eq, ?Z.eqb_neq, ?Z.ltb_lt, ?Z.ltb_ge, ?Z.leb_le, ?Z.leb_gt in *.

(** Discharge a hypothesis of a theorem at a concrete input. *)
Ltac discharge := first [reflexivity | discriminate | vm_compute; reflexivity].

Local Open Scope string_scope.

(** ** Characters and decimal numerals

    JavaScript prints an integral Number in decimal without leading
    zeros, with a leading ["-"] when negative.  The model prints through
    the Standard Library's normalised decimal representation
    [N.to_uint]. *)

Definition char_code (c : ascii) : N := N_of_ascii c.

Definition is_digit (c : ascii) : bool :=
  (48 <=? char_code c)%N && (char_code c <=? 57)%N.

Fixpoint uint_str (u : Decimal.uint) : string :=
  match u with
  | Decimal.Nil => ""
  | Decimal.D0 u => String "0" (uint_str u)
  | Decimal.D1 u => String "1" (uint_str u)
  | Decimal.D2 u => String "2" (uint_str u)
  | Decimal.D3 u => String "3" (uint_str u)
  | Decimal.D4 u => String "4" (uint_str u)
  | Decimal.D5 u => String "5" (uint_str u)
  | Decimal.D6 u => String "6" (uint_str u)
  | Decimal.D7 u => String "7" (uint_str u)
  | Decimal.D8 u => String "8" (uint_str u)
  | Decimal.D9 u => String "9" (uint_str u)
  end.

(** Read the longest prefix of decimal digits. *)
Fixpoint read_uint (s : string) : Decimal.uint * string :=
  match s with
  | String c r =>
      let k (f : Decimal.uint -> Decimal.uint) :=
        let '(u, r') := read_uint r in (f u, r') in
      if Ascii.eqb c "0" then k Decimal.D0
      else if Ascii.eqb c "1" then k Decimal.D1
      else if Ascii.eqb c "2" then k Decimal.D2
      else if Ascii.eqb c "3" then k Decimal.D3
      else if Ascii.eqb c "4" then k Decimal.D4
      else if Ascii.eqb c "5" then k Decimal.D5
      else if Ascii.eqb c "6" then k Decimal.D6
      else if Ascii.eqb c "7" then k Decimal.D7
      else if Ascii.eqb c "8" then k Decimal.D8
      else if Ascii.eqb c "9" then k Decimal.D9
      else (Decimal.Nil, s)
  | EmptyString => (Decimal.Nil, EmptyString)
  end.

Definition show_N (n : N) : string := uint_str (N.to_uint n).

Definition show_Z (z : Z) : string :=
  match z with
  | Zneg p => "-" ++ show_N (Npos p)
  | _ => show_N (Z.to_N z)
  end.

(** [starts_digit s] holds when [s] begins with a decimal digit. *)
Definition starts_digit (s : string) : bool :=
  match s with String c _ => is_digit c | EmptyString => false end.

(** [rep k c] is [k] copies of the character [c]. *)
Fixpoint rep (k : nat) (c : ascii) : string :=
  match k with O => EmptyString | S k => String c (rep k c) end.

(** Left padding, as [String.prototype.padStart] and the [("0" + n)]
    idiom produce it. *)
Definition pad_left (w : nat) (c : ascii) (s : string) : string :=
  String.append (String.concat "" (List.repeat (String c "") (w - String.length s))) s.

(** [str_forall p s]: every character of [s] satisfies [p]. *)
Fixpoint str_forall (p : ascii -> bool) (s : string) : bool :=
  match s with EmptyString => true | String c r => p c && str_forall p r end.

(** ** Finite checks by evaluation

    A property of every integer of a finite range is proved by running a
    boolean test on each of them ([vm_compute]); [all_range_spec] turns
    the run into the universally quantified statement. *)

Fixpoint all_range (f : Z -> bool) (lo : Z) (n : nat) : bool :=
  match n with
  | O => true
  | S n' => if f lo then all_range f (lo + 1) n' else false
  end.

(** ** Lemmas on strings *)

Lemma str_app_assoc (a b c : string) : (a ++ b) ++ c = a ++ (b ++ c).
Proof. induction a as [|x a IH]; simpl; [reflexivity | now rewrite IH]. Qed.

Lemma str_app_nil_r (a : string) : a ++ "" = a.
Proof. induction a as [|x a IH]; simpl; [reflexivity | now rewrite IH]. Qed.

Lemma str_length_app (a b : string) :
  String.length (a ++ b) = (String.length a + String.length b)%nat.
Proof. induction a as [|x a IH]; simpl; [reflexivity | now rewrite IH]. Qed.

#[export] Hint Rewrite str_app_assoc str_app_nil_r : checkin_rw.

Lemma str_app_inv_l (a b c : string) : a ++ b = a ++ c -> b = c.
Proof. induction a as [|x a IH]; simpl; [auto | intros H; injection H; auto]. Qed.

Lemma str_forall_app (p : ascii -> bool) (a b : string) :
  str_forall p (a ++ b) = str_forall p a && str_forall p b.
Proof. induction a as [|x a IH]; simpl; [reflexivity | now rewrite IH, andb_assoc]. Qed.

Lemma str_forall_impl (p q : ascii -> bool) (s : string) :
  (forall c, p c = true -> q c = true) ->
  str_forall p s = true -> str_forall q s = true.
Proof.
  intros Hpq. induction s as [|c s IH]; simpl; [reflexivity|].
  rewrite !andb_true_iff. intros [Hc Hs]. auto.
Qed.

Lemma str_forall_rep (p : ascii -> bool) (k : nat) (c : ascii) :
  p c = true -> str_forall p (rep k c) = true.
Proof. intros Hc. induction k; simpl; [reflexivity | now rewrite Hc, IHk]. Qed.

#[export] Hint Rewrite str_forall_app : checkin_rw.
#[export] Hint Resolve str_forall_rep : checkin.

Lemma concat_repeat (k : nat) (c : ascii) :
  String.concat "" (List.repeat (String c "") k) = rep k c.
Proof. induction k as [|[|k] IH]; simpl in *; [reflexivity | reflexivity | now rewrite IH]. Qed.

Lemma pad_left_eq (w : nat) (c : ascii) (s : string) :
  pad_left w c s = rep (w - String.length s) c ++ s.
Proof. unfold pad_left. now rewrite concat_repeat. Qed.

(** ** Lemmas on decimal numerals *)

Lemma read_uint_str (u : Decimal.uint) (rest : string) :
  starts_digit rest = false -> read_uint (uint_str u ++ rest) = (u, rest).
Proof.
  intros Hr. induction u; simpl; try (rewrite IHu; reflexivity).
  destruct rest as [|c r]; [reflexivity|].
  simpl in Hr. unfold is_digit, char_code in Hr.
  destruct c as [[] [] [] [] [] [] [] []]; vm_compute in Hr |- *;
    congruence.
Qed.

Lemma show_N_read (n : N) (rest : string) :
  starts_digit rest = false ->
  read_uint (show_N n ++ rest) = (N.to_uint n, rest).
Proof. apply read_uint_str. Qed.

Lemma show_N_inj (n m : N) : show_N n = show_N m -> n = m.
Proof.
  intros H.
  assert (Hr := f_equal (fun s => fst (read_uint (s ++ ""))) H). simpl in Hr.
  rewrite !show_N_read in Hr by reflexivity. simpl in Hr.
  now apply Unsigned.to_uint_inj.
Qed.

Lemma uint_str_length_pos (u : Decimal.uint) :
  u <> Decimal.Nil -> (0 < String.length (uint_str u))%nat.
Proof. destruct u; simpl; congruence || lia. Qed.

Lemma to_uint_not_nil (n : N) : N.to_uint n <> Decimal.Nil.
Proof.
  destruct n as [|p]; [discriminate|].
  simpl. apply DecimalPos.Unsigned.to_uint_nonnil.
Qed.

Lemma show_N_nonempty (n : N) : (0 < String.length (show_N n))%nat.
Proof. apply uint_str_length_pos, to_uint_not_nil. Qed.

Lemma uint_str_digits (u : Decimal.uint) : str_forall is_digit (uint_str u) = true.
Proof. induction u; simpl; auto. Qed.

Lemma show_N_digits (n : N) : str_forall is_digit (show_N n) = true.
Proof. apply uint_str_digits. Qed.

(** Leading zeros are read as [D0] digits, which do not change the value. *)
Lemma read_uint_zeros (k : nat) (s : string) :
  read_uint (rep k "0" ++ s) =
  (Nat.iter k Decimal.D0 (fst (read_uint s)), snd (read_uint s)).
Proof.
  induction k as [|k IH]; simpl; [now destruct (read_uint s)|].
  now rewrite IH.
Qed.

Lemma of_uint_zeros (k : nat) (u : Decimal.uint) :
  N.of_uint (Nat.iter k Decimal.D0 u) = N.of_uint u.
Proof. induction k; simpl; auto. Qed.

(** A zero-padded numeral reads back as its value, whatever the width. *)
Lemma read_pad (w : nat) (n : N) (rest : string) :
  starts_digit rest = false ->
  N.of_uint (fst (read_uint (pad_left w "0" (show_N n) ++ rest))) = n /\
  snd (read_uint (pad_left w "0" (show_N n) ++ rest)) = rest.
Proof.
  intros Hr. rewrite pad_left_eq, str_app_assoc, read_uint_zeros, show_N_read by exact Hr.
  simpl. rewrite of_uint_zeros. split; [apply DecimalN.Unsigned.of_to | reflexivity].
Qed.

Lemma starts_digit_pad (w : nat) (n : N) (rest : string) :
  starts_digit (pad_left w "0" (show_N n) ++ rest) = true.
Proof.
  rewrite pad_left_eq. destruct (w - String.length (show_N n))%nat; [|reflexivity].
  unfold show_N. pose proof (to_uint_not_nil n).
  destruct (N.to_uint n); [congruence | reflexivity ..].
Qed.

Lemma all_range_spec (f : Z -> bool) (n : nat) :
  forall lo, all_range f lo n = true ->
  forall z, (lo <= z < lo + Z.of_nat n)%Z -> f z = true.
Proof.
  induction n as [|n IH]; intros lo H z Hz; simpl in *; [lia|].
  destruct (f lo) eqn:Hf; [|discriminate].
  destruct (Z.eq_dec z lo) as [->|Hne]; [exact Hf|].
  apply (IH (lo + 1)%Z H). lia.
Qed.
