(* ===== verification/JsValue.v ===== *)
(** * JavaScript values and the built-ins the scripts call

    The scripts manipulate JSON data through plain JavaScript: property
    reads such as [userData.token], property writes such as
    [freshData.token = userData.token], truthiness tests ([if (!token)],
    [if (freshData.valid)]), the strict comparison
    [userData.saved_date !== today], template literals (which convert a
    value with [ToString]) and the string methods [trim], [split] and
    [slice].  This file models those values and operations.

    - [val]: the values a JSON document can denote, plus [undefined].
      Numbers are the integral ones (the scripts only meet booleans and
      strings in practice; see the root header).  Strings are sequences of
      8-bit code units.
    - An object is the list of its own properties in insertion order, the
      order [JSON.stringify] follows.
    - [exn]: the exceptions the built-ins raise ([TypeError] on a property
      access of [null]/[undefined], [SyntaxError] from [JSON.parse],
      [RangeError] from [Date.prototype.toISOString]). *)

From Stdlib Require Import ZArith Lia Ascii String.
From stdpp Require Import base list.
From S2P Require Import Prelude.

Local Open Scope string_scope.
Set Warnings "-register-all".

Inductive val : Type :=
| VUndef
| VNull
| VBool (b : bool)
| VNum (n : Z)
| VStr (s : string)
| VArr (xs : list val)
| VObj (ps : list (string * val)).

(** Induction through the nested lists of arrays and objects. *)
Section val_rect_deep.
Variable P : val -> Prop.
Hypothesis HUndef : P VUndef.
Hypothesis HNull : P VNull.
Hypothesis HBool : forall b, P (VBool b).
Hypothesis HNum : forall n, P (VNum n).
Hypothesis HStr : forall s, P (VStr s).
Hypothesis HArr : forall xs, List.Forall P xs -> P (VArr xs).
Hypothesis HObj : forall ps, List.Forall (fun kv => P (snd kv)) ps -> P (VObj ps).

Fixpoint val_ind_deep (v : val) : P v :=
  match v with
  | VUndef => HUndef
  | VNull => HNull
  | VBool b => HBool b
  | VNum n => HNum n
  | VStr s => HStr s
  | VArr xs =>
      HArr xs ((fix go (l : list val) : List.Forall P l :=
                  match l with
                  | [] => List.Forall_nil _
                  | x :: l' => List.Forall_cons _ _ _ (val_ind_deep x) (go l')
                  end) xs)
  | VObj ps =>
      HObj ps ((fix go (l : list (string * val)) :
                  List.Forall (fun kv => P (snd kv)) l :=
                  match l with
                  | [] => List.Forall_nil _
                  | kv :: l' =>
                      List.Forall_cons _ _ _ (val_ind_deep (snd kv)) (go l')
                  end) ps)
  end.
End val_rect_deep.

Inductive exn : Type :=
| TypeError (msg : string)
| SyntaxError (msg : string)
| RangeError (msg : string).

(** ** Truthiness ([ToBoolean]) *)

Definition truthy (v : val) : bool :=
  match v with
  | VUndef | VNull => false
  | VBool b => b
  | VNum n => negb (Z.eqb n 0)
  | VStr s => negb (String.eqb s "")
  | VArr _ | VObj _ => true
  end.

(** ** Objects: own properties in insertion order *)

Fixpoint assoc_lookup (k : string) (ps : list (string * val)) : option val :=
  match ps with
  | [] => None
  | (k', v) :: ps' => if String.eqb k k' then Some v else assoc_lookup k ps'
  end.

(** Assignment to a property: an existing property keeps its position,
    a new one is appended ([[[Set]]] / [CreateDataProperty]). *)
Fixpoint assoc_set (k : string) (x : val) (ps : list (string * val))
  : list (string * val) :=
  match ps with
  | [] => [(k, x)]
  | (k', v) :: ps' =>
      if String.eqb k k' then (k', x) :: ps' else (k', v) :: assoc_set k x ps'
  end.

(** [o.k]: reading a property of [null] or [undefined] throws; the other
    primitives and arrays have none of the data properties the scripts
    read, apart from [length]. *)
Definition get_prop (v : val) (k : string) : val + exn :=
  match v with
  | VUndef | VNull => inr (TypeError ("Cannot read properties of null (reading '" ++ k ++ "')"))
  | VObj ps => inl (match assoc_lookup k ps with Some x => x | None => VUndef end)
  | VStr s => inl (if String.eqb k "length" then VNum (Z.of_nat (String.length s)) else VUndef)
  | VArr xs => inl (if String.eqb k "length" then VNum (Z.of_nat (length xs)) else VUndef)
  | VBool _ | VNum _ => inl VUndef
  end.

(** [o.k = x] in a classic (sloppy-mode) script: throws on [null] and
    [undefined], is silently dropped on the other primitives.  Arrays are
    left unchanged: a named property of an array is invisible to
    [JSON.stringify], and the scripts only assign on objects. *)
Definition set_prop (v : val) (k : string) (x : val) : val + exn :=
  match v with
  | VUndef | VNull => inr (TypeError ("Cannot set properties of null (setting '" ++ k ++ "')"))
  | VObj ps => inl (VObj (assoc_set k x ps))
  | _ => inl v
  end.

(** ** [ToString], as a template literal applies it *)

Fixpoint join (sep : string) (l : list string) : string :=
  match l with
  | [] => ""
  | [s] => s
  | s :: l' => s ++ sep ++ join sep l'
  end.

Fixpoint to_str (v : val) : string :=
  match v with
  | VUndef => "undefined"
  | VNull => "null"
  | VBool true => "true"
  | VBool false => "false"
  | VNum n => show_Z n
  | VStr s => s
  | VArr xs =>
      join "," (List.map (fun x => match x with
                                  | VUndef | VNull => ""
                                  | _ => to_str x
                                  end) xs)
  | VObj _ => "[object Object]"
  end.

(** [v === s] for a string [s]: only a string with the same code units
    is strictly equal to it. *)
Definition strict_eq_str (v : val) (s : string) : bool :=
  match v with VStr s' => String.eqb s' s | _ => false end.

(** ** String methods *)

(** WhiteSpace and LineTerminator code units of the 8-bit range:
    TAB, LF, VT, FF, CR, SPACE and NO-BREAK SPACE. *)
Definition is_js_space (c : ascii) : bool :=
  match char_code c with
  | 9 | 10 | 11 | 12 | 13 | 32 | 160 => true
  | _ => false
  end%N.

Fixpoint trim_start (s : string) : string :=
  match s with
  | String c r => if is_js_space c then trim_start r else s
  | EmptyString => EmptyString
  end.

Fixpoint str_rev (s : string) : string :=
  match s with
  | String c r => str_rev r ++ String c EmptyString
  | EmptyString => EmptyString
  end.

Definition trim_end (s : string) : string := str_rev (trim_start (str_rev s)).

(** [String.prototype.trim]. *)
Definition trim (s : string) : string := trim_end (trim_start s).

(** [s.split(sep)[0]] for a one-character separator: the text before
    the first separator, or all of [s]. *)
Fixpoint split_first (sep : ascii) (s : string) : string :=
  match s with
  | String c r => if Ascii.eqb c sep then EmptyString else String c (split_first sep r)
  | EmptyString => EmptyString
  end.

(** [s.slice(-n)]: the last [n] code units (all of [s] when shorter). *)
Definition slice_last (n : nat) (s : string) : string :=
  substring (String.length s - n) n s.

(** The value [o.k] of an object: [undefined] when [k] is absent. *)
Definition field (ps : list (string * val)) (k : string) : val :=
  match assoc_lookup k ps with Some x => x | None => VUndef end.

Fixpoint all_space (s : string) : bool :=
  match s with
  | String c r => is_js_space c && all_space r
  | EmptyString => true
  end.

(** ** Lemmas *)

Lemma assoc_lookup_set_eq (k : string) (x : val) (ps : list (string * val)) :
  assoc_lookup k (assoc_set k x ps) = Some x.
Proof.
  induction ps as [|[k' v] ps IH]; simpl; [now rewrite String.eqb_refl|].
  destruct (String.eqb_spec k k') as [->|Hne]; simpl.
  - now rewrite String.eqb_refl.
  - apply String.eqb_neq in Hne. now rewrite Hne.
Qed.

Lemma assoc_lookup_set_ne (k k' : string) (x : val) (ps : list (string * val)) :
  k' <> k -> assoc_lookup k' (assoc_set k x ps) = assoc_lookup k' ps.
Proof.
  intros Hne. induction ps as [|[k0 v] ps IH]; simpl.
  - apply String.eqb_neq in Hne. now rewrite Hne.
  - destruct (String.eqb_spec k k0) as [->|Hk0]; simpl.
    + apply String.eqb_neq in Hne. now rewrite Hne.
    + now rewrite IH.
Qed.

#[export] Hint Rewrite assoc_lookup_set_eq : checkin_rw.

Lemma get_prop_set_eq (ps : list (string * val)) (k : string) (x : val) :
  get_prop (VObj (assoc_set k x ps)) k = inl x.
Proof. simpl. now rewrite assoc_lookup_set_eq. Qed.

Lemma get_prop_set_ne (ps : list (string * val)) (k k' : string) (x : val) :
  k' <> k -> get_prop (VObj (assoc_set k x ps)) k' = get_prop (VObj ps) k'.
Proof. intros Hne. simpl. now rewrite assoc_lookup_set_ne. Qed.

Lemma truthy_str (s : string) : truthy (VStr s) = false <-> s = "".
Proof.
  simpl. destruct (String.eqb_spec s "") as [->|Hne]; simpl; split; congruence.
Qed.

(** *** Whitespace trimming *)

Lemma all_space_app (a b : string) : all_space (a ++ b) = all_space a && all_space b.
Proof. induction a as [|c a IH]; simpl; [reflexivity|]. now rewrite IH, andb_assoc. Qed.

Lemma all_space_rev (s : string) : all_space (str_rev s) = all_space s.
Proof.
  induction s as [|c s IH]; simpl; [reflexivity|].
  rewrite all_space_app, IH. simpl. now rewrite andb_true_r, andb_comm.
Qed.

Lemma trim_start_empty (s : string) : trim_start s = "" <-> all_space s = true.
Proof.
  induction s as [|c s IH]; simpl; [tauto|].
  destruct (is_js_space c); simpl; [exact IH | split; discriminate].
Qed.

(** What [trim_start] leaves is empty or starts with a non-space. *)
Lemma trim_start_head (s : string) :
  trim_start s = "" \/ exists c r, trim_start s = String c r /\ is_js_space c = false.
Proof.
  induction s as [|c s IH]; simpl; [now left|].
  destruct (is_js_space c) eqn:Hc; [exact IH|]. right. eauto.
Qed.

Lemma str_rev_empty (s : string) : str_rev s = "" -> s = "".
Proof.
  destruct s as [|c s]; simpl; [reflexivity|]. intros H.
  apply (f_equal String.length) in H. rewrite str_length_app in H. simpl in H. lia.
Qed.

(** [trim s] is empty exactly when [s] is made only of white space. *)
Lemma trim_empty_iff (s : string) : trim s = "" <-> all_space s = true.
Proof.
  unfold trim, trim_end. split.
  - intros H. apply str_rev_empty, trim_start_empty in H.
    rewrite all_space_rev in H.
    destruct (trim_start_head s) as [He|(c & r & He & Hc)].
    + now apply trim_start_empty.
    + rewrite He in H. simpl in H. now rewrite Hc in H.
  - intros H. apply trim_start_empty in H. now rewrite H.
Qed.

Lemma set_prop_obj (ps : list (string * val)) (k : string) (x : val) :
  set_prop (VObj ps) k x = inl (VObj (assoc_set k x ps)).
Proof. reflexivity. Qed.

Lemma get_prop_obj (ps : list (string * val)) (k : string) :
  get_prop (VObj ps) k = inl (field ps k).
Proof. reflexivity. Qed.

#[export] Hint Rewrite set_prop_obj : checkin_rw.

Lemma field_set_eq (ps : list (string * val)) (k : string) (x : val) :
  field (assoc_set k x ps) k = x.
Proof. unfold field. now rewrite assoc_lookup_set_eq. Qed.

Lemma field_set_ne (ps : list (string * val)) (k k' : string) (x : val) :
  k' <> k -> field (assoc_set k x ps) k' = field ps k'.
Proof. intros Hne. unfold field. now rewrite assoc_lookup_set_ne. Qed.

(** [s.split(sep)[0]] stops at the first separator. *)
Lemma split_first_app (sep : ascii) (a b : string) :
  str_forall (fun c => negb (Ascii.eqb c sep)) a = true ->
  split_first sep (a ++ String sep b) = a.
Proof.
  induction a as [|c a IH]; simpl; [now rewrite Ascii.eqb_refl|].
  rewrite andb_true_iff. intros [Hc Ha].
  destruct (Ascii.eqb c sep); [discriminate | now rewrite IH].
Qed.

(** Only an object has a truthy [valid]. *)
Lemma valid_obj (v x : val) :
  get_prop v "valid" = inl x -> truthy x = true -> exists ps, v = VObj ps.
Proof. destruct v; cbn; intros [= <-]; eauto; discriminate. Qed.
