(* ===== verification/Json.v ===== *)
(** * [JSON.stringify] and [JSON.parse]

    The session record travels through [localStorage] as text:
    [localStorage.setItem('user_data', JSON.stringify(data))] in the two
    writers and [JSON.parse(userDataString)] in the dashboard, and every
    server response goes through [response.json()], which is
    [JSON.parse] of the body.  This file models both built-ins on [val]
    (ECMA-262 [SerializeJSONProperty] / [QuoteJSONString] and the JSON
    grammar of RFC 8259), and proves that parsing what was printed gives
    the value back.

    Modelling limits (see the root header): numbers are integral, so a
    numeral with a fraction or an exponent is rejected; a [\uXXXX]
    escape is accepted for code units below 256 only. *)

From Stdlib Require Import ZArith Lia Ascii String DecimalN.
From stdpp Require Import base list.
From S2P Require Import Prelude JsValue.

Local Open Scope string_scope.

(** The double-quote character. *)
Definition dq : ascii := "034"%char.
Definition bslash : ascii := "092"%char.

(** ** [JSON.stringify] *)

Definition hex_digit (n : N) : ascii :=
  if (n <? 10)%N then ascii_of_N (48 + n) else ascii_of_N (87 + n).

(** One code unit of a string literal, as [QuoteJSONString] writes it. *)
Definition escape_char (c : ascii) : string :=
  match char_code c with
  | 8%N => "\b"
  | 9%N => "\t"
  | 10%N => "\n"
  | 12%N => "\f"
  | 13%N => "\r"
  | 34%N => String bslash (String dq "")
  | 92%N => "\\"
  | n => if (n <? 32)%N
         then "\u00" ++ String (hex_digit (n / 16)) (String (hex_digit (n mod 16)) "")
         else String c ""
  end.

Fixpoint escape (s : string) : string :=
  match s with
  | String c r => escape_char c ++ escape r
  | EmptyString => ""
  end.

Definition quote (s : string) : string := String dq (escape s ++ String dq "").

(** [JSON.stringify(v)]: [None] is the [undefined] it returns for
    [undefined]; inside an array [undefined] prints as [null], inside an
    object the property is left out. *)
Fixpoint stringify (v : val) : option string :=
  match v with
  | VUndef => None
  | VNull => Some "null"
  | VBool b => Some (if b then "true" else "false")
  | VNum n => Some (show_Z n)
  | VStr s => Some (quote s)
  | VArr xs =>
      Some ("[" ++ join "," (List.map (fun x => match stringify x with
                                                 | Some t => t
                                                 | None => "null"
                                                 end) xs) ++ "]")
  | VObj ps =>
      Some ("{" ++ join "," (List.flat_map (fun kv => match stringify (snd kv) with
                                                       | Some t => [quote (fst kv) ++ ":" ++ t]
                                                       | None => []
                                                       end) ps) ++ "}")
  end.

(** [JSON.stringify(x)] passed to [setItem], which converts its argument
    to a string. *)
Definition stringify_text (v : val) : string :=
  match stringify v with Some s => s | None => "undefined" end.

(** ** [JSON.parse] *)

Definition is_json_ws (c : ascii) : bool :=
  match char_code c with 9 | 10 | 13 | 32 => true | _ => false end%N.

Fixpoint skip_ws (s : string) : string :=
  match s with
  | String c r => if is_json_ws c then skip_ws r else s
  | EmptyString => EmptyString
  end.

Definition hex_val (c : ascii) : option N :=
  let n := char_code c in
  if (48 <=? n)%N && (n <=? 57)%N then Some (n - 48)%N
  else if (65 <=? n)%N && (n <=? 70)%N then Some (n - 55)%N
  else if (97 <=? n)%N && (n <=? 102)%N then Some (n - 87)%N
  else None.

(** The character a one-letter escape stands for. *)
Definition unescape (e : ascii) : option ascii :=
  match char_code e with
  | 34 => Some dq
  | 92 => Some bslash
  | 47 => Some "/"%char
  | 98 => Some "008"%char
  | 102 => Some "012"%char
  | 110 => Some "010"%char
  | 114 => Some "013"%char
  | 116 => Some "009"%char
  | _ => None
  end%N.

(** The body of a string literal after its opening quote: the decoded
    text and what follows the closing quote. *)
Fixpoint p_string (s : string) : option (string * string) :=
  match s with
  | EmptyString => None
  | String c r =>
      if Ascii.eqb c dq then Some ("", r)
      else if Ascii.eqb c bslash then
        match r with
        | String e r1 =>
            match unescape e with
            | Some c' =>
                match p_string r1 with
                | Some (t, r') => Some (String c' t, r')
                | None => None
                end
            | None =>
                if Ascii.eqb e "u" then
                  match r1 with
                  | String h1 (String h2 (String h3 (String h4 r2))) =>
                      match hex_val h1, hex_val h2, hex_val h3, hex_val h4 with
                      | Some a, Some b, Some c3, Some d =>
                          let n := (((a * 16 + b) * 16 + c3) * 16 + d)%N in
                          if (n <? 256)%N then
                            match p_string r2 with
                            | Some (t, r') => Some (String (ascii_of_N n) t, r')
                            | None => None
                            end
                          else None
                      | _, _, _, _ => None
                      end
                  | _ => None
                  end
                else None
            end
        | EmptyString => None
        end
      else if (char_code c <? 32)%N then None
      else match p_string r with
           | Some (t, r') => Some (String c t, r')
           | None => None
           end
  end.

Fixpoint strip_prefix (p s : string) : option string :=
  match p, s with
  | EmptyString, _ => Some s
  | String a p', String b s' => if Ascii.eqb a b then strip_prefix p' s' else None
  | String _ _, EmptyString => None
  end.

(** A numeral continuing with a fraction or an exponent. *)
Definition starts_frac_exp (s : string) : bool :=
  match s with
  | String c _ => Ascii.eqb c "." || Ascii.eqb c "e" || Ascii.eqb c "E"
  | EmptyString => false
  end.

(** After the optional minus sign: 0, or a digit 1-9 followed by digits. *)
Definition p_digits (neg : bool) (s1 : string) : option (val * string) :=
  match s1 with
  | String c r =>
      if Ascii.eqb c "0" then
        if starts_frac_exp r then None else Some (VNum 0, r)
      else if is_digit c then
        let '(u, r') := read_uint s1 in
        if starts_frac_exp r' then None
        else let n := Z.of_N (N.of_uint u) in
             Some (VNum (if neg then Z.opp n else n), r')
      else None
  | EmptyString => None
  end.

(** An optional minus sign, then the digits. *)
Definition p_number (s : string) : option (val * string) :=
  match s with
  | String c r => if Ascii.eqb c "-" then p_digits true r else p_digits false s
  | EmptyString => p_digits false s
  end.

Definition p_scalar (s : string) : option (val * string) :=
  match strip_prefix "true" s with
  | Some r => Some (VBool true, r)
  | None =>
  match strip_prefix "false" s with
  | Some r => Some (VBool false, r)
  | None =>
  match strip_prefix "null" s with
  | Some r => Some (VNull, r)
  | None => p_number s
  end end end.

(** The recursive descent, bounded by [fuel]; [parse] gives it twice the
    length of the text, more than the number of calls the text allows. *)
Fixpoint p_value (fuel : nat) (s : string) {struct fuel} : option (val * string) :=
  match fuel with
  | O => None
  | S f =>
      match skip_ws s with
      | String c r =>
          if Ascii.eqb c "{" then
            match skip_ws r with
            | String c' r' => if Ascii.eqb c' "}" then Some (VObj [], r') else p_members f [] r
            | EmptyString => None
            end
          else if Ascii.eqb c "[" then
            match skip_ws r with
            | String c' r' => if Ascii.eqb c' "]" then Some (VArr [], r') else p_elems f [] r
            | EmptyString => None
            end
          else if Ascii.eqb c dq then
            match p_string r with
            | Some (t, r') => Some (VStr t, r')
            | None => None
            end
          else p_scalar (String c r)
      | EmptyString => None
      end
  end
with p_members (fuel : nat) (acc : list (string * val)) (s : string) {struct fuel}
  : option (val * string) :=
  match fuel with
  | O => None
  | S f =>
      match skip_ws s with
      | String c r =>
          if Ascii.eqb c dq then
            match p_string r with
            | Some (k, r1) =>
                match skip_ws r1 with
                | String c1 r2 =>
                    if Ascii.eqb c1 ":" then
                      match p_value f r2 with
                      | Some (v, r3) =>
                          let acc' := assoc_set k v acc in
                          match skip_ws r3 with
                          | String c3 r4 =>
                              if Ascii.eqb c3 "," then p_members f acc' r4
                              else if Ascii.eqb c3 "}" then Some (VObj acc', r4)
                              else None
                          | EmptyString => None
                          end
                      | None => None
                      end
                    else None
                | EmptyString => None
                end
            | None => None
            end
          else None
      | EmptyString => None
      end
  end
with p_elems (fuel : nat) (acc : list val) (s : string) {struct fuel}
  : option (val * string) :=
  match fuel with
  | O => None
  | S f =>
      match p_value f s with
      | Some (v, r3) =>
          match skip_ws r3 with
          | String c3 r4 =>
              if Ascii.eqb c3 "," then p_elems f (acc ++ [v]) r4
              else if Ascii.eqb c3 "]" then Some (VArr (acc ++ [v]), r4)
              else None
          | EmptyString => None
          end
      | None => None
      end
  end.

(** [JSON.parse(text)]: a value, then only white space. *)
Definition parse (text : string) : val + exn :=
  match p_value (2 * String.length text + 2) text with
  | Some (v, r) =>
      match skip_ws r with
      | EmptyString => inl v
      | _ => inr (SyntaxError "Unexpected non-whitespace character after JSON")
      end
  | None => inr (SyntaxError "Unexpected token in JSON")
  end.

(** ** Values [JSON.parse] returns

    [wf v]: no [undefined] anywhere and no key twice in an object, which
    is what a parsed document satisfies and what a round trip needs. *)

Fixpoint keys_unique (ps : list (string * val)) : bool :=
  match ps with
  | [] => true
  | (k, _) :: ps' => negb (existsb (String.eqb k) (List.map fst ps')) && keys_unique ps'
  end.

Fixpoint wf (v : val) : bool :=
  match v with
  | VUndef => false
  | VNull | VBool _ | VNum _ | VStr _ => true
  | VArr xs => forallb wf xs
  | VObj ps => keys_unique ps && forallb (fun kv => wf (snd kv)) ps
  end.

(** The number of parser calls a printed value needs. *)
Fixpoint jsize (v : val) : nat :=
  match v with
  | VArr xs => S (fold_right (fun x acc => S (jsize x) + acc) 0 xs)
  | VObj ps => S (fold_right (fun kv acc => S (jsize (snd kv)) + acc) 0 ps)
  | _ => 1
  end.

(** The text of a value inside an array. *)
Definition str_of (v : val) : string :=
  match stringify v with Some t => t | None => "null" end.

(** What may follow a value inside a document. *)
Definition ends_value (r : string) : bool :=
  match r with
  | EmptyString => true
  | String c _ => Ascii.eqb c "," || Ascii.eqb c "]" || Ascii.eqb c "}"
  end.

(** A numeral starts with a digit or a minus sign. *)
Definition num_start (c : ascii) : bool := is_digit c || Ascii.eqb c "-".

(** Fuel for the elements of an array and the members of an object. *)
Definition elems_fuel (xs : list val) : nat := fold_right (fun x acc => S (jsize x) + acc) 0 xs.
Definition members_fuel (ps : list (string * val)) : nat :=
  fold_right (fun kv acc => S (jsize (snd kv)) + acc) 0 ps.
Definition member_text (kv : string * val) : string := quote (fst kv) ++ ":" ++ str_of (snd kv).

(** The round-trip property of one value: its text, followed by what
    may follow a value, parses back to it with any fuel above its size. *)
Definition roundtrips (v : val) : Prop :=
  wf v = true -> forall f rest, jsize v <= f -> ends_value rest = true ->
  p_value f (str_of v ++ rest) = Some (v, rest).

(** A document with every kind of value, for the witnesses. *)
Definition w_doc : val :=
  VObj [("valid", VBool true); ("full_name", VStr "Ada Lovelace");
        ("note", VStr (String dq (String bslash "x"))); ("n", VNum (-42));
        ("list", VArr [VNull; VNum 7; VObj []])].

(** ** Printing then parsing *)

Lemma p_string_escape_char (c : ascii) (t : string) :
  p_string (escape_char c ++ t) =
  match p_string t with Some (u, r) => Some (String c u, r) | None => None end.
Proof. destruct c as [[] [] [] [] [] [] [] []]; reflexivity. Qed.

(** The body of a printed string literal reads back as the string. *)
Lemma p_string_escape (s rest : string) :
  p_string (escape s ++ String dq rest) = Some (s, rest).
Proof.
  induction s as [|c s IH]; [reflexivity|].
  simpl. rewrite str_app_assoc, p_string_escape_char, IH. reflexivity.
Qed.

Lemma nzhead_not_D0 (u : Decimal.uint) :
  match Decimal.nzhead u with Decimal.D0 _ => False | _ => True end.
Proof. induction u; simpl; auto. Qed.

(** Only zero prints with a leading [0]. *)
Lemma to_uint_head (n : N) (u : Decimal.uint) : N.to_uint n = Decimal.D0 u -> n = 0%N.
Proof.
  intros H.
  assert (Hn : Decimal.unorm (N.to_uint n) = N.to_uint n).
  { rewrite <- Unsigned.to_of, Unsigned.of_to. reflexivity. }
  rewrite H in Hn. unfold Decimal.unorm in Hn. simpl in Hn.
  pose proof (nzhead_not_D0 u) as Hz.
  destruct (Decimal.nzhead u) eqn:E; try discriminate; try contradiction.
  rewrite <- (Unsigned.of_to n), H. injection Hn as <-. reflexivity.
Qed.

Lemma p_number_pos (neg : bool) (p : positive) (rest : string) :
  starts_digit rest = false -> starts_frac_exp rest = false ->
  p_number ((if neg then "-" else "") ++ show_N (Npos p) ++ rest) =
  Some (VNum (if neg then Zneg p else Zpos p), rest).
Proof.
  intros Hd Hf. unfold show_N.
  assert (Hu : N.to_uint (Npos p) <> Decimal.Nil) by apply to_uint_not_nil.
  assert (Hh : forall u, N.to_uint (Npos p) <> Decimal.D0 u)
    by (intros u Hu0; apply to_uint_head in Hu0; discriminate).
  assert (Hr := read_uint_str (N.to_uint (Npos p)) rest Hd).
  assert (Hv : N.of_uint (N.to_uint (Npos p)) = Npos p) by apply Unsigned.of_to.
  destruct (N.to_uint (Npos p)) as [|u|u|u|u|u|u|u|u|u|u] eqn:E;
    [congruence | now destruct (Hh u) | ..];
    destruct neg; unfold p_number, p_digits; simpl in Hr |- *; rewrite Hr, Hf, Hv; reflexivity.
Qed.

(** A printed integer reads back as itself. *)
Lemma p_number_show (z : Z) (rest : string) :
  starts_digit rest = false -> starts_frac_exp rest = false ->
  p_number (show_Z z ++ rest) = Some (VNum z, rest).
Proof.
  intros Hd Hf. destruct z as [|p|p].
  - unfold p_number, p_digits. simpl. now rewrite Hf.
  - exact (p_number_pos false p rest Hd Hf).
  - exact (p_number_pos true p rest Hd Hf).
Qed.

Lemma show_Z_start (z : Z) : exists c r, show_Z z = String c r /\ num_start c = true.
Proof.
  destruct z as [|p|p]; [now exists "0"%char, ""| |now eexists _, _].
  unfold show_Z, show_N. change (Z.to_N (Zpos p)) with (Npos p). assert (Hh : forall u, N.to_uint (Npos p) <> Decimal.D0 u)
    by (intros u Hu0; apply to_uint_head in Hu0; discriminate).
  pose proof (to_uint_not_nil (Npos p)) as Hn.
  destruct (N.to_uint (Npos p)) as [|u|u|u|u|u|u|u|u|u|u];
    [congruence | now destruct (Hh u) | ..]; cbn [uint_str]; eexists _, _; split; reflexivity.
Qed.

(** A value text starting like a numeral goes to [p_number]. *)
Lemma p_value_num_start (f : nat) (c : ascii) (r : string) :
  num_start c = true -> p_value (S f) (String c r) = p_number (String c r).
Proof. destruct c as [[] [] [] [] [] [] [] []]; (discriminate || reflexivity). Qed.

Lemma ends_value_num (r : string) :
  ends_value r = true -> starts_digit r = false /\ starts_frac_exp r = false.
Proof.
  destruct r as [|c r]; [auto|]. simpl.
  destruct c as [[] [] [] [] [] [] [] []]; (discriminate || auto).
Qed.

Lemma num_start_plain (c : ascii) :
  num_start c = true -> is_json_ws c = false /\ Ascii.eqb c "]" = false.
Proof. destruct c as [[] [] [] [] [] [] [] []]; (discriminate || auto). Qed.

Lemma str_of_head (v : val) : wf v = true ->
  exists c t, str_of v = String c t /\ is_json_ws c = false /\ Ascii.eqb c "]" = false.
Proof.
  destruct v as [| |[]|n|s|xs|ps]; intros Hw; try discriminate;
    try (eexists _, _; split; [reflexivity | auto]).
  destruct (show_Z_start n) as (c & t & Hs & Hc). exists c, t. split.
  - unfold str_of. simpl. now rewrite Hs.
  - now apply num_start_plain.
Qed.

Lemma p_elems_join (xs acc : list val) (f : nat) (rest : string) :
  List.Forall roundtrips xs -> forallb wf xs = true -> xs <> [] -> elems_fuel xs <= f ->
  p_elems f acc (join "," (List.map str_of xs) ++ String "]" rest) = Some (VArr (acc ++ xs), rest).
Proof.
  revert acc f. induction xs as [|x xs IH]; intros acc f Hrt Hw Hne Hf; [congruence|].
  inversion Hrt as [|? ? Hx Hxs]; subst. simpl in Hw. apply andb_prop in Hw as [Hwx Hwxs].
  simpl in Hf. destruct f as [|f]; [lia|].
  destruct xs as [|y xs].
  - simpl. rewrite Hx by (auto; lia). reflexivity.
  - change (join "," (List.map str_of (x :: y :: xs))) with
      (str_of x ++ "," ++ join "," (List.map str_of (y :: xs))).
    simpl p_elems. rewrite !str_app_assoc, Hx by (auto; lia). simpl.
    rewrite IH by (auto; discriminate || lia). now rewrite <- app_assoc.
Qed.

Lemma assoc_set_fresh (k : string) (v : val) (acc : list (string * val)) :
  existsb (String.eqb k) (List.map fst acc) = false -> assoc_set k v acc = (acc ++ [(k, v)])%list.
Proof.
  induction acc as [|[k' v'] acc IH]; simpl; [reflexivity|].
  intros H. apply orb_false_iff in H as [H1 H2]. rewrite H1, IH by exact H2. reflexivity.
Qed.

Lemma keys_unique_fresh (acc : list (string * val)) (k : string) (v : val) ps :
  keys_unique (acc ++ (k, v) :: ps)%list = true -> existsb (String.eqb k) (List.map fst acc) = false.
Proof.
  induction acc as [|[k' v'] acc IH]; simpl; [reflexivity|].
  intros H. apply andb_prop in H as [H1 H2]. rewrite IH by exact H2.
  destruct (String.eqb_spec k k') as [->|]; [|reflexivity].
  rewrite List.map_app, existsb_app in H1. simpl in H1. rewrite String.eqb_refl in H1.
  now rewrite orb_true_r in H1.
Qed.

Lemma p_members_join (ps acc : list (string * val)) (f : nat) (rest : string) :
  List.Forall (fun kv => roundtrips (snd kv)) ps -> forallb (fun kv => wf (snd kv)) ps = true ->
  keys_unique (acc ++ ps)%list = true -> ps <> [] -> members_fuel ps <= f ->
  p_members f acc (join "," (List.map member_text ps) ++ String "}" rest) =
  Some (VObj (acc ++ ps), rest).
Proof.
  revert acc f. induction ps as [|[k v] ps IH]; intros acc f Hrt Hw Hu Hne Hf; [congruence|].
  inversion Hrt as [|? ? Hx Hxs]; subst. simpl in Hw, Hx. apply andb_prop in Hw as [Hwx Hwxs].
  unfold members_fuel in Hf. simpl in Hf. destruct f as [|f]; [lia|].
  assert (Ha := assoc_set_fresh k v acc (keys_unique_fresh _ _ _ _ Hu)).
  destruct ps as [|[k2 v2] ps].
  - simpl. unfold member_text, quote. simpl. rewrite !str_app_assoc. simpl.
    rewrite p_string_escape. simpl. rewrite Hx by (auto; lia). simpl. now rewrite Ha.
  - change (join "," (List.map member_text ((k, v) :: (k2, v2) :: ps))) with
      (member_text (k, v) ++ "," ++ join "," (List.map member_text ((k2, v2) :: ps))).
    remember (join "," (List.map member_text ((k2, v2) :: ps))) as J eqn:HJ.
    simpl p_members. unfold member_text, quote. simpl. rewrite !str_app_assoc. simpl.
    rewrite p_string_escape. simpl. rewrite Hx by (auto; lia). simpl. rewrite Ha.
    rewrite IH by (rewrite <- ?app_assoc; auto; try discriminate; unfold members_fuel in *; simpl in *; lia).
    now rewrite <- app_assoc.
Qed.

Lemma stringify_wf (v : val) : wf v = true -> stringify v = Some (str_of v).
Proof. destruct v; (discriminate || reflexivity). Qed.

Lemma flat_map_members (ps : list (string * val)) :
  forallb (fun kv => wf (snd kv)) ps = true ->
  List.flat_map (fun kv => match stringify (snd kv) with
                           | Some t => [quote (fst kv) ++ ":" ++ t]
                           | None => []
                           end) ps = List.map member_text ps.
Proof.
  induction ps as [|[k v] ps IH]; cbn [List.flat_map List.map fst snd forallb]; [reflexivity|].
  intros H. apply andb_prop in H as [H1 H2]. rewrite (stringify_wf v H1), IH by exact H2.
  reflexivity.
Qed.

Lemma join_head {A} (g : A -> string) (a : A) (l : list A) (c : ascii) (t : string) :
  g a = String c t -> exists t', join "," (List.map g (a :: l)) = String c t'.
Proof. intros H. destruct l; simpl; rewrite H; eauto. Qed.

Lemma p_value_array (f : nat) (c : ascii) (r : string) :
  is_json_ws c = false -> Ascii.eqb c "]" = false ->
  p_value (S f) (String "[" (String c r)) = p_elems f [] (String c r).
Proof. intros Hw Hb. simpl. now rewrite Hw, Hb. Qed.

Lemma p_value_object (f : nat) (r : string) :
  p_value (S f) (String "{" (String dq r)) = p_members f [] (String dq r).
Proof. reflexivity. Qed.

Lemma roundtrips_all (v : val) : roundtrips v.
Proof.
  induction v as [| |b|n|s|xs IH|ps IH] using val_ind_deep;
    intros Hw f rest Hf He; destruct f as [|f]; try (simpl in Hf; lia);
    try discriminate.
  - reflexivity.
  - destruct b; reflexivity.
  - destruct (show_Z_start n) as (c & t & Hs & Hc).
    destruct (ends_value_num rest He) as [Hd Hfe].
    unfold str_of. simpl stringify. cbv iota. rewrite Hs. cbn [String.append].
    rewrite p_value_num_start by exact Hc.
    change (String c (t ++ rest)) with (String c t ++ rest). rewrite <- Hs.
    now rewrite p_number_show.
  - unfold str_of, quote. simpl. rewrite str_app_assoc. simpl.
    now rewrite p_string_escape.
  - simpl in Hw. unfold str_of. simpl stringify. cbv iota.
    change (fun x => match stringify x with Some t => t | None => "null" end) with str_of.
    destruct xs as [|x xs]; [reflexivity|].
    destruct (str_of_head x) as (c & t & Hs & Hws & Hb); [now apply andb_prop in Hw as []|].
    destruct (join_head str_of x xs c t Hs) as (t' & Hj).
    cbn [String.append]. rewrite str_app_assoc. cbn [String.append]. rewrite Hj.
    cbn [String.append]. rewrite p_value_array by assumption.
    change (String c (t' ++ String "]" rest)) with (String c t' ++ String "]" rest).
    rewrite <- Hj. apply p_elems_join; try exact IH; try exact Hw; try discriminate.
    change (S (elems_fuel (x :: xs)) <= S f) in Hf. lia.
  - simpl in Hw. apply andb_prop in Hw as [Hu Hw].
    unfold str_of. simpl stringify. cbv iota. rewrite flat_map_members by exact Hw.
    destruct ps as [|[k v] ps]; [reflexivity|].
    destruct (join_head member_text (k, v) ps dq (escape k ++ String dq (":" ++ str_of v)))
      as (t' & Hj).
    { unfold member_text, quote. simpl. now rewrite str_app_assoc. }
    cbn [String.append]. rewrite str_app_assoc. cbn [String.append]. rewrite Hj.
    cbn [String.append]. rewrite p_value_object.
    change (String dq (t' ++ String "}" rest)) with (String dq t' ++ String "}" rest).
    rewrite <- Hj. apply p_members_join; try exact IH; try exact Hw; try exact Hu; try discriminate.
    change (S (members_fuel ((k, v) :: ps)) <= S f) in Hf. lia.
Qed.

Lemma fold_join_le {A} (h : A -> nat) (g : A -> string) (l : list A) :
  (forall a, List.In a l -> h a <= S (String.length (g a))) ->
  fold_right (fun a acc => h a + acc) 0 l <= S (String.length (join "," (List.map g l))).
Proof.
  induction l as [|a l IH]; intros H; [simpl; lia|].
  assert (Ha := H a (or_introl eq_refl)).
  assert (IH' := IH (fun x Hx => H x (or_intror Hx))).
  destruct l as [|b l]; [simpl; lia|].
  change (h a + fold_right (fun a acc => h a + acc) 0 (b :: l) <=
          S (String.length (g a ++ "," ++ join "," (List.map g (b :: l))))).
  rewrite !str_length_app. cbn [String.length]. lia.
Qed.

Lemma jsize_le_length (v : val) : wf v = true -> jsize v <= String.length (str_of v).
Proof.
  induction v as [| |b|n|s|xs IH|ps IH] using val_ind_deep; intros Hw; try discriminate.
  - simpl. lia.
  - destruct b; simpl; lia.
  - destruct (show_Z_start n) as (c & t & Hs & _). unfold str_of. simpl. rewrite Hs. simpl. lia.
  - unfold str_of, quote. simpl. lia.
  - unfold str_of. simpl stringify. cbv iota.
    change (fun x => match stringify x with Some t => t | None => "null" end) with str_of.
    simpl in Hw. cbn [String.length]. rewrite str_length_app. cbn [String.length].
    change (S (elems_fuel xs) <= S (String.length (join "," (List.map str_of xs)) + 1)).
    enough (elems_fuel xs <= S (String.length (join "," (List.map str_of xs)))) by lia.
    apply fold_join_le. intros x Hx. rewrite List.Forall_forall in IH.
    rewrite forallb_forall in Hw. specialize (IH x Hx (Hw x Hx)). lia.
  - simpl in Hw. apply andb_prop in Hw as [_ Hw].
    unfold str_of. simpl stringify. cbv iota. rewrite flat_map_members by exact Hw.
    cbn [String.length]. rewrite str_length_app. cbn [String.length].
    change (S (members_fuel ps) <= S (String.length (join "," (List.map member_text ps)) + 1)).
    enough (members_fuel ps <= S (String.length (join "," (List.map member_text ps)))) by lia.
    apply fold_join_le. intros [k x] Hx. rewrite List.Forall_forall in IH.
    rewrite forallb_forall in Hw. specialize (IH _ Hx (Hw _ Hx)). simpl in IH.
    unfold member_text, quote. simpl. rewrite !str_length_app. simpl. lia.
Qed.

Lemma parse_str_of (v : val) : wf v = true -> parse (str_of v) = inl v.
Proof.
  intros Hw. pose proof (jsize_le_length v Hw) as Hl.
  assert (H := roundtrips_all v Hw (2 * String.length (str_of v) + 2) "" ltac:(lia) eq_refl).
  rewrite str_app_nil_r in H. unfold parse. now rewrite H.
Qed.

Lemma stringify_text_wf (v : val) : wf v = true -> stringify_text v = str_of v.
Proof. intros Hw. unfold stringify_text. now rewrite stringify_wf. Qed.

(** What [localStorage.setItem(k, JSON.stringify(v))] stores reads back as [v]. *)
Lemma parse_stringify_text (v : val) : wf v = true -> parse (stringify_text v) = inl v.
Proof. intros Hw. rewrite stringify_text_wf by exact Hw. now apply parse_str_of. Qed.

(** [JSON.parse(JSON.stringify(v))] gives back [v] for every value
    without [undefined] and with distinct keys, which includes every
    value [JSON.parse] returns. *)
Theorem parse_stringify (v : val) (s : string) :
  wf v = true -> stringify v = Some s -> parse s = inl v.
Proof.
  intros Hw Hs. rewrite stringify_wf in Hs by exact Hw. injection Hs as <-.
  now apply parse_str_of.
Qed.

(** ** What [JSON.parse] returns is well formed *)

Lemma keys_assoc_set (j k : string) (x : val) (ps : list (string * val)) :
  existsb (String.eqb j) (List.map fst (assoc_set k x ps)) =
  existsb (String.eqb j) (List.map fst ps) || String.eqb j k.
Proof.
  induction ps as [|[k' v] ps IH]; simpl; [now rewrite orb_false_r|].
  destruct (String.eqb_spec k k') as [->|Hne]; simpl.
  - destruct (String.eqb j k'); simpl; [reflexivity|now rewrite orb_false_r].
  - rewrite IH. now rewrite orb_assoc.
Qed.

Lemma keys_unique_assoc_set (k : string) (x : val) (ps : list (string * val)) :
  keys_unique (assoc_set k x ps) = keys_unique ps.
Proof.
  induction ps as [|[k' v] ps IH]; simpl; [reflexivity|].
  destruct (String.eqb_spec k k') as [->|Hne]; simpl; [reflexivity|].
  rewrite IH, keys_assoc_set. apply String.eqb_neq in Hne.
  rewrite String.eqb_sym, Hne, orb_false_r. reflexivity.
Qed.

Lemma values_wf_assoc_set (k : string) (x : val) (ps : list (string * val)) :
  wf x = true -> forallb (fun kv => wf (snd kv)) ps = true ->
  forallb (fun kv => wf (snd kv)) (assoc_set k x ps) = true.
Proof.
  intros Hx. induction ps as [|[k' v] ps IH]; simpl; [now rewrite Hx|].
  intros H. apply andb_prop in H as [H1 H2].
  destruct (String.eqb k k'); simpl; rewrite ?Hx, ?H1, ?H2, ?IH by exact H2; reflexivity.
Qed.

(** Setting a well-formed property keeps an object well formed. *)
Lemma wf_assoc_set (k : string) (x : val) (ps : list (string * val)) :
  wf (VObj ps) = true -> wf x = true -> wf (VObj (assoc_set k x ps)) = true.
Proof.
  simpl. intros H Hx. apply andb_prop in H as [H1 H2].
  rewrite keys_unique_assoc_set, H1. simpl. now apply values_wf_assoc_set.
Qed.

Lemma p_value_wf (fuel : nat) :
  (forall s v r, p_value fuel s = Some (v, r) -> wf v = true) /\
  (forall acc s v r, wf (VObj acc) = true -> p_members fuel acc s = Some (v, r) -> wf v = true) /\
  (forall acc s v r, wf (VArr acc) = true -> p_elems fuel acc s = Some (v, r) -> wf v = true).
Proof.
  induction fuel as [|f (IHv & IHm & IHe)]; [repeat split; discriminate|].
  repeat split.
  - intros s v r. simpl. destruct (skip_ws s) as [|c s1]; [discriminate|].
    destruct (Ascii.eqb c "{").
    { destruct (skip_ws s1) as [|c' r']; [discriminate|].
      destruct (Ascii.eqb c' "}"); [intros [=<- <-]; reflexivity|].
      apply IHm. reflexivity. }
    destruct (Ascii.eqb c "[").
    { destruct (skip_ws s1) as [|c' r']; [discriminate|].
      destruct (Ascii.eqb c' "]"); [intros [=<- <-]; reflexivity|].
      apply IHe. reflexivity. }
    destruct (Ascii.eqb c dq).
    { destruct (p_string s1) as [[t r']|]; [intros [=<- <-]; reflexivity|discriminate]. }
    unfold p_scalar. repeat match goal with
      | |- context [strip_prefix ?p ?x] => destruct (strip_prefix p x)
      end; try (intros [=<- <-]; reflexivity).
    unfold p_number, p_digits. repeat (case_match; try discriminate); intros; simplify_eq; reflexivity.
  - intros acc s v r Hacc. simpl. repeat (case_match; try discriminate); intros; simplify_eq.
    all: try (eapply IHm; [|eassumption]); try (simpl; reflexivity).
    all: apply wf_assoc_set; [exact Hacc | eapply IHv; eassumption].
  - intros acc s v r Hacc. simpl. repeat (case_match; try discriminate); intros; simplify_eq.
    all: first [eapply IHe; [|eassumption] | idtac].
    all: simpl in *; rewrite forallb_app, Hacc; simpl; erewrite IHv by eassumption; reflexivity.
Qed.

(** Every value [JSON.parse] returns is well formed. *)
Lemma parse_wf (s : string) (v : val) : parse s = inl v -> wf v = true.
Proof.
  unfold parse. destruct (p_value _ s) as [[v' r]|] eqn:E; [|discriminate].
  destruct (skip_ws r); [|discriminate]. intros [= <-].
  exact (proj1 (p_value_wf _) _ _ _ E).
Qed.

(** ** Witness *)

Lemma parse_stringify_example : parse (str_of w_doc) = inl w_doc.
Proof. apply parse_stringify; reflexivity. Defined.
