(* ===== verification/JsonFuel.v ===== *)
(** * [JSON.parse] never runs out of fuel

    [parse] runs the recursive descent [p_value] of Json.v with fuel
    [2 * length text + 2].  Every call of [p_value] that opens an array
    or an object, and every further member or element, consumes at least
    one character, and [p_elems] calls [p_value] on the same text at most
    once before a comma is consumed; so [p_value] never needs more than
    [2 * length s + 1] and [p_members], [p_elems] more than
    [2 * length s + 2].  [fuel_stable] shows that above these bounds the
    result no longer depends on the fuel, hence [parse_fuel_enough]: the
    fuel of [parse] is never what makes it fail, and [parse] is the
    unbounded parser. *)

From stdpp Require Import base tactics.
From Stdlib Require Import ZArith Lia Ascii String.
From S2P Require Import Prelude JsValue Json.

Local Open Scope string_scope.

(** ** Every parser consumes text *)

Lemma skip_ws_length (s : string) : String.length (skip_ws s) <= String.length s.
Proof. induction s as [|c r IH]; simpl; [lia|]. destruct (is_json_ws c); simpl; lia. Qed.

Lemma skip_ws_cons (s r : string) (c : ascii) :
  skip_ws s = String c r -> String.length r < String.length s.
Proof. intros E. pose proof (skip_ws_length s) as H. rewrite E in H. simpl in H. lia. Qed.

Lemma p_string_length (s t r : string) :
  p_string s = Some (t, r) -> String.length r < String.length s.
Proof.
  revert t r. induction s as [s IH] using (induction_ltof1 _ String.length).
  unfold ltof in IH. intros t r. destruct s as [|c s1]; simpl; [discriminate|].
  destruct (Ascii.eqb c dq); [intros [= _ <-]; lia|].
  destruct (Ascii.eqb c bslash).
  - destruct s1 as [|e r1]; [discriminate|]. destruct (unescape e).
    + destruct (p_string r1) as [[t' r']|] eqn:E; [|discriminate]. intros [= _ <-].
      apply IH in E; simpl; lia.
    + destruct (Ascii.eqb e "u"); [|discriminate].
      destruct r1 as [|h1 [|h2 [|h3 [|h4 r2]]]]; try discriminate.
      destruct (hex_val h1), (hex_val h2), (hex_val h3), (hex_val h4); try discriminate.
      destruct (_ <? 256)%N; [|discriminate].
      destruct (p_string r2) as [[t' r']|] eqn:E; [|discriminate]. intros [= _ <-].
      apply IH in E; simpl; lia.
  - destruct (char_code c <? 32)%N; [discriminate|].
    destruct (p_string s1) as [[t' r']|] eqn:E; [|discriminate]. intros [= _ <-].
    apply IH in E; simpl; lia.
Qed.

Lemma strip_prefix_length (p s r : string) :
  strip_prefix p s = Some r -> String.length r + String.length p = String.length s.
Proof.
  revert s. induction p as [|a p IH]; intros [|b s]; simpl; try discriminate.
  - intros [= <-]. simpl. lia.
  - intros [= <-]. simpl. lia.
  - destruct (Ascii.eqb a b); [intros H; apply IH in H; lia | discriminate].
Qed.

Lemma read_uint_length (s : string) : String.length (snd (read_uint s)) <= String.length s.
Proof.
  induction s as [|c r IH]; simpl; [lia|].
  destruct (read_uint r) as [u r']; simpl in IH.
  repeat match goal with |- context [if ?b then _ else _] => destruct b end; simpl; lia.
Qed.

Lemma read_uint_digit (c : ascii) (r : string) :
  is_digit c = true -> String.length (snd (read_uint (String c r))) <= String.length r.
Proof.
  intros H. pose proof (read_uint_length r). unfold is_digit, char_code in H.
  destruct c as [[] [] [] [] [] [] [] []]; vm_compute in H; try discriminate;
    simpl; destruct (read_uint r); simpl in *; lia.
Qed.

Lemma p_digits_length (neg : bool) (s1 r : string) (v : val) :
  p_digits neg s1 = Some (v, r) -> String.length r < String.length s1.
Proof.
  unfold p_digits. destruct s1 as [|c r1]; [discriminate|].
  destruct (Ascii.eqb c "0").
  { destruct (starts_frac_exp r1); [discriminate|]. intros [= _ <-]. simpl. lia. }
  destruct (is_digit c) eqn:Hd; [|discriminate].
  pose proof (read_uint_digit c r1 Hd).
  destruct (read_uint (String c r1)) as [u r'] eqn:Er. simpl in *.
  destruct (starts_frac_exp r'); [discriminate|]. intros [= _ <-]. lia.
Qed.

Lemma p_number_length (s r : string) (v : val) :
  p_number s = Some (v, r) -> String.length r < String.length s.
Proof.
  unfold p_number. destruct s as [|c0 s0]; [discriminate|].
  destruct (Ascii.eqb c0 "-"); intros H; apply p_digits_length in H; simpl in *; lia.
Qed.

Lemma p_scalar_length (s r : string) (v : val) :
  p_scalar s = Some (v, r) -> String.length r < String.length s.
Proof.
  unfold p_scalar.
  destruct (strip_prefix "true" s) eqn:E1;
    [intros [= _ <-]; apply strip_prefix_length in E1; simpl in E1; lia|].
  destruct (strip_prefix "false" s) eqn:E2;
    [intros [= _ <-]; apply strip_prefix_length in E2; simpl in E2; lia|].
  destruct (strip_prefix "null" s) eqn:E3;
    [intros [= _ <-]; apply strip_prefix_length in E3; simpl in E3; lia|].
  apply p_number_length.
Qed.

(** ** Progress of the recursive descent *)

Ltac len_facts :=
  repeat match goal with
  | H : skip_ws ?x = String ?c ?y |- _ => apply skip_ws_cons in H
  | H : p_string ?x = Some (?t, ?y) |- _ => apply p_string_length in H
  | H : p_scalar ?x = Some (?v, ?y) |- _ => apply p_scalar_length in H
  end.

Lemma p_progress (f : nat) :
  (forall s v r, p_value f s = Some (v, r) -> String.length r < String.length s) /\
  (forall acc s v r, p_members f acc s = Some (v, r) -> String.length r < String.length s) /\
  (forall acc s v r, p_elems f acc s = Some (v, r) -> String.length r < String.length s).
Proof.
  induction f as [|f (IHv & IHm & IHe)]; [repeat split; discriminate|].
  repeat split.
  - intros s v r. simpl. repeat (case_match; try discriminate); intros; simplify_eq;
      repeat match goal with
             | H : p_members f _ _ = Some _ |- _ => apply IHm in H
             | H : p_elems f _ _ = Some _ |- _ => apply IHe in H
             | H : p_scalar _ = Some _ |- _ => apply p_scalar_length in H
             end; len_facts; simpl in *; lia.
  - intros acc s v r. simpl. repeat (case_match; try discriminate); intros; simplify_eq;
      repeat match goal with
             | H : p_value f _ = Some _ |- _ => apply IHv in H
             | H : p_members f _ _ = Some _ |- _ => apply IHm in H
             end; len_facts; simpl in *; lia.
  - intros acc s v r. simpl. repeat (case_match; try discriminate); intros; simplify_eq;
      repeat match goal with
             | H : p_value f _ = Some _ |- _ => apply IHv in H
             | H : p_elems f _ _ = Some _ |- _ => apply IHe in H
             end; len_facts; simpl in *; lia.
Qed.

(** ** Enough fuel *)

Lemma fuel_stable (f : nat) :
  (forall s k, 2 * String.length s + 1 <= f -> p_value (f + k) s = p_value f s) /\
  (forall acc s k, 2 * String.length s + 2 <= f -> p_members (f + k) acc s = p_members f acc s) /\
  (forall acc s k, 2 * String.length s + 2 <= f -> p_elems (f + k) acc s = p_elems f acc s).
Proof.
  induction f as [|f (IHv & IHm & IHe)]; [repeat split; intros; lia|].
  destruct (p_progress f) as (Pv & _ & _).
  repeat split; intros; simpl;
    repeat first
      [ match goal with |- context [p_value (f + ?k) ?x] =>
          rewrite (IHv x k) by (len_facts; simpl in *; lia) end
      | match goal with |- context [p_members (f + ?k) ?a ?x] =>
          rewrite (IHm a x k) by (len_facts; simpl in *; lia) end
      | match goal with |- context [p_elems (f + ?k) ?a ?x] =>
          rewrite (IHe a x k) by (len_facts; simpl in *; lia) end
      | match goal with H : p_value f ?x = Some (?v, ?y) |- _ =>
          apply Pv in H end
      | case_match ];
    reflexivity.
Qed.

(** More fuel never undoes a success. *)
Lemma fuel_mono (f : nat) :
  (forall s k x, p_value f s = Some x -> p_value (f + k) s = Some x) /\
  (forall acc s k x, p_members f acc s = Some x -> p_members (f + k) acc s = Some x) /\
  (forall acc s k x, p_elems f acc s = Some x -> p_elems (f + k) acc s = Some x).
Proof.
  induction f as [|f (IHv & IHm & IHe)]; [repeat split; discriminate|].
  repeat split; intros until x; intros Hx; simpl in Hx |- *;
    repeat first
      [ match goal with H : p_value f ?y = Some ?z |- context [p_value (f + ?k) ?y] =>
          rewrite (IHv y k z H) end
      | match goal with H : p_members f ?a ?y = Some ?z |- context [p_members (f + ?k) ?a ?y] =>
          rewrite (IHm a y k z H) end
      | match goal with H : p_elems f ?a ?y = Some ?z |- context [p_elems (f + ?k) ?a ?y] =>
          rewrite (IHe a y k z H) end
      | match goal with Hx : context [match ?e with _ => _ end] |- _ => destruct e eqn:? end ];
    congruence.
Qed.

(** [JSON.parse] is the unbounded recursive descent: a text parses
    to [v] exactly when [p_value] reads [v] from it with some fuel,
    followed by white space only.  The fuel [2 * length text + 2] of
    [parse] is never the reason it fails. *)
Theorem parse_fuel_enough (text : string) (v : val) :
  parse text = inl v <-> exists f r, p_value f text = Some (v, r) /\ skip_ws r = "".
Proof.
  unfold parse. split.
  - destruct (p_value _ text) as [[v' r]|] eqn:E; [|discriminate].
    destruct (skip_ws r) eqn:Er; [|discriminate]. intros [= <-]. eauto.
  - intros (f & r & Hf & Hr).
    assert (Hb : p_value (2 * String.length text + 2) text = Some (v, r)).
    { destruct (Nat.le_ge_cases f (2 * String.length text + 2)) as [Hle|Hge].
      - replace (2 * String.length text + 2) with (f + (2 * String.length text + 2 - f)) by lia.
        now apply fuel_mono.
      - replace f with (2 * String.length text + 2 + (f - (2 * String.length text + 2))) in Hf
          by lia.
        rewrite (proj1 (fuel_stable _) text) in Hf by lia. exact Hf. }
    now rewrite Hb, Hr.
Qed.
