(* ===== verification/Clock.v ===== *)
(** * The clock: [new Date()], [toISOString] and the local-time getters

    Both pages compute "today" as
    [new Date().toISOString().split('T')[0]] (indexScript.js line 49,
    loginScript.js line 39): the UTC calendar date of the current instant,
    written [YYYY-MM-DD].  The dashboard widgets use the local-time getters
    [getHours], [getMinutes], [getDate] and the weekday and month of
    [toLocaleString].

    A time value is a [Z] count of milliseconds since 1970-01-01T00:00Z,
    as in ECMA-262.  Day numbers are converted to civil dates with the
    proleptic Gregorian algorithm of ECMA-262's [YearFromTime] /
    [MonthFromTime] / [DateFromTime], written here in the closed form of
    H. Hinnant's [civil_from_days]; [days_from_civil] is its inverse.
    Local time is UTC shifted by the time-zone offset
    [getTimezoneOffset()] (minutes, UTC minus local), held fixed. *)

From Stdlib Require Import ZArith Lia Bool Ascii String DecimalN.
From S2P Require Import Prelude JsValue.

Local Open Scope bool_scope.
Local Open Scope string_scope.
Local Open Scope Z_scope.

Definition ms_per_day : Z := 86400000.

(** ECMA-262 time values range over +/- 8.64e15 ms. *)
Definition max_time : Z := 8640000000000000.

(** ** Calendar arithmetic *)

Definition doe_yoe (doe : Z) : Z :=
  (doe - doe / 1460 + doe / 36524 - doe / 146096) / 365.

Definition yoe_doy (doe yoe : Z) : Z := doe - (365 * yoe + yoe / 4 - yoe / 100).

Definition doy_mp (doy : Z) : Z := (5 * doy + 2) / 153.

(** Day number (days since 1970-01-01) to (year, month 1-12, day 1-31). *)
Definition civil_from_days (z : Z) : Z * Z * Z :=
  let z' := z + 719468 in
  let era := z' / 146097 in
  let doe := z' mod 146097 in
  let yoe := doe_yoe doe in
  let doy := yoe_doy doe yoe in
  let mp := doy_mp doy in
  let d := doy - (153 * mp + 2) / 5 + 1 in
  let m := if mp <? 10 then mp + 3 else mp - 9 in
  let y := yoe + era * 400 in
  (if m <=? 2 then y + 1 else y, m, d).

Definition days_from_civil (y m d : Z) : Z :=
  let y1 := if m <=? 2 then y - 1 else y in
  let era := y1 / 400 in
  let yoe := y1 - era * 400 in
  let mp := if 2 <? m then m - 3 else m + 9 in
  let doy := (153 * mp + 2) / 5 + d - 1 in
  let doe := yoe * 365 + yoe / 4 - yoe / 100 + doy in
  era * 146097 + doe - 719468.

(** The Gregorian leap-year rule and month lengths (ECMA-262
    [DaysInYear], [MonthFromTime]). *)
Definition leap (y : Z) : bool :=
  (y mod 4 =? 0) && negb (y mod 100 =? 0) || (y mod 400 =? 0).

Definition days_in_month (y m : Z) : Z :=
  if m =? 2 then (if leap y then 29 else 28)
  else if (m =? 4) || (m =? 6) || (m =? 9) || (m =? 11) then 30
  else 31.

(** ** [Date.prototype.toISOString] *)

Definition pad2 (n : Z) : string := pad_left 2 "0" (show_N (Z.to_N n)).
Definition pad3 (n : Z) : string := pad_left 3 "0" (show_N (Z.to_N n)).

(** Years 0-9999 take four digits; the others six, with a sign. *)
Definition year_str (y : Z) : string :=
  if (0 <=? y) && (y <=? 9999) then pad_left 4 "0" (show_N (Z.to_N y))
  else (if y <? 0 then "-" else "+") ++ pad_left 6 "0" (show_N (Z.to_N (Z.abs y))).

Definition date_str (ymd : Z * Z * Z) : string :=
  let '(y, m, d) := ymd in year_str y ++ "-" ++ pad2 m ++ "-" ++ pad2 d.

Definition iso_string (t : Z) : string + exn :=
  if max_time <? Z.abs t then inr (RangeError "Invalid time value")
  else
    let ms := t mod ms_per_day in
    inl (date_str (civil_from_days (t / ms_per_day)) ++ "T" ++
         pad2 (ms / 3600000) ++ ":" ++ pad2 (ms / 60000 mod 60) ++ ":" ++
         pad2 (ms / 1000 mod 60) ++ "." ++ pad3 (ms mod 1000) ++ "Z").

(** [new Date().toISOString().split('T')[0]]. *)
Definition today_str (t : Z) : string + exn :=
  match iso_string t with
  | inl s => inl (split_first "T" s)
  | inr e => inr e
  end.

(** ** Local-time getters *)

Definition local_ms (t tzoff : Z) : Z := t - tzoff * 60000.

Definition get_hours (t tzoff : Z) : Z := local_ms t tzoff / 3600000 mod 24.
Definition get_minutes (t tzoff : Z) : Z := local_ms t tzoff / 60000 mod 60.

Definition get_date (t tzoff : Z) : Z :=
  let '(_, _, d) := civil_from_days (local_ms t tzoff / ms_per_day) in d.

(** 0 = January. *)
Definition get_month (t tzoff : Z) : Z :=
  let '(_, m, _) := civil_from_days (local_ms t tzoff / ms_per_day) in m - 1.

(** 0 = Sunday; day 0 of the epoch was a Thursday. *)
Definition get_day (t tzoff : Z) : Z := (local_ms t tzoff / ms_per_day + 4) mod 7.

(** ** Reading a date back

    [read_date] is not part of the program: it reads the [YYYY-MM-DD]
    (or [+YYYYYY-MM-DD]) text that [toISOString] starts with back into its
    three numbers, and so shows that the text determines the date. *)

Definition iso_date_char (c : ascii) : bool :=
  is_digit c || Ascii.eqb c "-" || Ascii.eqb c "+".

Definition read_field (s : string) : Z * string :=
  let '(u, r) := read_uint s in (Z.of_N (N.of_uint u), r).

Definition sign_of (s : string) : Z * string :=
  if starts_digit s then (1, s)
  else match s with
       | String c r => (if Ascii.eqb c "-" then -1 else 1, r)
       | EmptyString => (1, s)
       end.

Definition after_dash (s : string) : option string :=
  match s with
  | String c r => if Ascii.eqb c "-" then Some r else None
  | EmptyString => None
  end.

Definition read_date (s : string) : option (Z * Z * Z) :=
  let '(sg, s1) := sign_of s in
  let '(y, r1) := read_field s1 in
  match after_dash r1 with
  | None => None
  | Some r1' =>
      let '(m, r2) := read_field r1' in
      match after_dash r2 with
      | None => None
      | Some r2' => let '(d, _) := read_field r2' in Some (sg * y, m, d)
      end
  end.

(** ** Calendar lemmas *)

Lemma yoe_bounds (doe : Z) : 0 <= doe < 146097 -> 0 <= doe_yoe doe <= 399.
Proof. intros. unfold doe_yoe. Z.div_mod_to_equations. lia. Qed.

Lemma doy_bounds (doe : Z) :
  0 <= doe < 146097 -> 0 <= yoe_doy doe (doe_yoe doe) <= 365.
Proof. intros. unfold yoe_doy, doe_yoe. Z.div_mod_to_equations. lia. Qed.

Lemma mp_bounds (doy : Z) :
  0 <= doy <= 365 ->
  0 <= doy_mp doy <= 11 /\ 1 <= doy - (153 * doy_mp doy + 2) / 5 + 1 <= 31.
Proof. intros. unfold doy_mp. Z.div_mod_to_equations. lia. Qed.

(** Every day number is sent to a date with a month in 1-12 and a day
    in 1-31 from which [days_from_civil] recovers it. *)
Lemma civil_from_days_days (z : Z) :
  let '(y, m, d) := civil_from_days z in
  1 <= m <= 12 /\ 1 <= d <= 31 /\ days_from_civil y m d = z.
Proof.
  unfold civil_from_days, days_from_civil.
  pose proof (Z.mod_pos_bound (z + 719468) 146097 ltac:(lia)) as Hdoe.
  pose proof (Z.div_mod (z + 719468) 146097 ltac:(lia)) as Hz.
  pose proof (yoe_bounds _ Hdoe) as Hyoe.
  pose proof (doy_bounds _ Hdoe) as Hdoy.
  pose proof (mp_bounds _ Hdoy) as [Hmp Hd].
  revert Hz Hyoe Hdoy Hmp Hd. unfold yoe_doy.
  generalize ((z + 719468) / 146097) ((z + 719468) mod 146097).
  intros era doe Hz Hyoe Hdoy Hmp Hd.
  generalize dependent (doe_yoe doe). intros yoe Hyoe Hdoy Hmp Hd.
  generalize dependent (doy_mp (doe - (365 * yoe + yoe / 4 - yoe / 100))).
  intros mp Hmp Hd.
  destruct (mp <? 10) eqn:E1; rewrite ?Z.ltb_lt, ?Z.ltb_ge in E1;
  case_ifs; rewrite ?Z.leb_le, ?Z.leb_gt, ?Z.ltb_lt, ?Z.ltb_ge in *;
  Z.div_mod_to_equations; lia.
Qed.

(** Day 365 of a year of the era (29 February) exists only in leap years. *)
Lemma leap_day (doe : Z) :
  0 <= doe < 146097 -> yoe_doy doe (doe_yoe doe) = 365 ->
  (doe_yoe doe + 1) mod 4 = 0 /\ ((doe_yoe doe + 1) mod 100 <> 0 \/ (doe_yoe doe + 1) mod 400 = 0).
Proof. intros. unfold yoe_doy, doe_yoe in *. Z.div_mod_to_equations. lia. Qed.

Lemma civil_from_days_valid (z : Z) :
  let '(y, m, d) := civil_from_days z in d <= days_in_month y m.
Proof.
  unfold civil_from_days, days_in_month, leap. cbv zeta.
  pose proof (Z.mod_pos_bound (z + 719468) 146097 ltac:(lia)) as Hdoe.
  pose proof (yoe_bounds _ Hdoe) as Hyoe.
  pose proof (doy_bounds _ Hdoe) as Hdoy.
  pose proof (leap_day _ Hdoe) as Hleap.
  revert Hyoe Hdoy Hleap.
  generalize ((z + 719468) / 146097) ((z + 719468) mod 146097). intros era doe.
  set (doy := yoe_doy doe (doe_yoe doe)). set (yoe := doe_yoe doe). clearbody doy yoe.
  intros Hyoe Hdoy Hleap. unfold doy_mp. generalize (Z.div_mod (5 * doy + 2) 153 ltac:(lia)).
  generalize (Z.mod_pos_bound (5 * doy + 2) 153 ltac:(lia)).
  generalize ((5 * doy + 2) / 153) ((5 * doy + 2) mod 153). intros mp r Hr Hmp.
  destruct (mp <? 10) eqn:E1;
    [destruct (mp + 3 <=? 2) eqn:E2 | destruct (mp - 9 <=? 2) eqn:E2]; case_ifs; bool_facts;
    Z.div_mod_to_equations; lia.
Qed.

Lemma civil_from_days_inj (z1 z2 : Z) :
  civil_from_days z1 = civil_from_days z2 -> z1 = z2.
Proof.
  intros H. pose proof (civil_from_days_days z1) as H1.
  pose proof (civil_from_days_days z2) as H2.
  rewrite H in H1. destruct (civil_from_days z2) as [[y m] d].
  destruct H1 as (_ & _ & <-), H2 as (_ & _ & <-). reflexivity.
Qed.

Lemma civil_from_days_month_day (z : Z) :
  0 <= snd (fst (civil_from_days z)) /\ 0 <= snd (civil_from_days z).
Proof.
  pose proof (civil_from_days_days z).
  destruct (civil_from_days z) as [[y m] d]. simpl. lia.
Qed.

Lemma read_field_pad (w : nat) (n : N) (rest : string) :
  starts_digit rest = false ->
  read_field (pad_left w "0" (show_N n) ++ rest) = (Z.of_N n, rest).
Proof.
  intros Hr. destruct (read_pad w n rest Hr) as [Hn Hs]. unfold read_field.
  destruct (read_uint (pad_left w "0" (show_N n) ++ rest)). simpl in *. now subst.
Qed.

Lemma sign_of_digit (s : string) : starts_digit s = true -> sign_of s = (1, s).
Proof. intros H. unfold sign_of. now rewrite H. Qed.

Lemma read_date_str (y m d : Z) :
  0 <= m -> 0 <= d -> read_date (date_str (y, m, d)) = Some (y, m, d).
Proof.
  intros Hm Hd. unfold read_date, date_str, year_str, pad2.
  destruct ((0 <=? y) && (y <=? 9999)) eqn:Hy.
  - rewrite sign_of_digit by apply starts_digit_pad.
    rewrite read_field_pad by reflexivity. simpl.
    rewrite read_field_pad by reflexivity. simpl.
    rewrite <- (str_app_nil_r (pad_left 2 "0" (show_N (Z.to_N d)))).
    rewrite read_field_pad by reflexivity.
    apply andb_true_iff in Hy as [Hy _]. apply Z.leb_le in Hy.
    rewrite !Z2N.id by lia. f_equal. f_equal. f_equal. lia.
  - destruct (y <? 0) eqn:Hneg; simpl;
    rewrite read_field_pad by reflexivity; simpl;
    rewrite read_field_pad by reflexivity; simpl;
    rewrite <- (str_app_nil_r (pad_left 2 "0" (show_N (Z.to_N d))));
    rewrite read_field_pad by reflexivity;
    rewrite !Z2N.id by lia; rewrite ?Z.ltb_lt, ?Z.ltb_ge in Hneg;
    do 3 f_equal; lia.
Qed.

Lemma pad_date_chars (w : nat) (n : N) :
  str_forall iso_date_char (pad_left w "0" (show_N n)) = true.
Proof.
  rewrite pad_left_eq, str_forall_app, str_forall_rep by reflexivity. simpl.
  eapply str_forall_impl; [|apply show_N_digits].
  intros c Hc. unfold iso_date_char. now rewrite Hc.
Qed.

Lemma date_str_chars (ymd : Z * Z * Z) : str_forall iso_date_char (date_str ymd) = true.
Proof.
  destruct ymd as [[y m] d]. unfold date_str, year_str, pad2.
  destruct (_ && _); [|destruct (y <? 0)];
    rewrite ?str_forall_app; simpl; rewrite ?pad_date_chars; reflexivity.
Qed.

(** Inside the time range, "today" is the date of the UTC day number. *)
Lemma today_str_date (t : Z) :
  Z.abs t <= max_time ->
  today_str t = inl (date_str (civil_from_days (t / ms_per_day))).
Proof.
  intros H. unfold today_str, iso_string.
  replace (max_time <? Z.abs t) with false by (symmetry; apply Z.ltb_ge; lia).
  f_equal. apply split_first_app.
  eapply str_forall_impl; [|apply date_str_chars].
  intros c Hc. destruct (Ascii.eqb_spec c "T") as [->|]; [discriminate | reflexivity].
Qed.

(** The text of a day determines the day. *)
Lemma date_str_civil_inj (z1 z2 : Z) :
  date_str (civil_from_days z1) = date_str (civil_from_days z2) -> z1 = z2.
Proof.
  intros Heq. apply civil_from_days_inj.
  pose proof (civil_from_days_month_day z1) as [Hm1 Hd1].
  pose proof (civil_from_days_month_day z2) as [Hm2 Hd2].
  apply (f_equal read_date) in Heq.
  destruct (civil_from_days z1) as [[y1 m1] d1], (civil_from_days z2) as [[y2 m2] d2].
  cbn [fst snd] in *. rewrite !read_date_str in Heq by assumption. congruence.
Qed.

Lemma today_str_day (t1 t2 : Z) :
  Z.abs t1 <= max_time -> Z.abs t2 <= max_time ->
  today_str t1 = today_str t2 -> t1 / ms_per_day = t2 / ms_per_day.
Proof.
  intros H1 H2. rewrite (today_str_date t1 H1), (today_str_date t2 H2).
  intros Heq. injection Heq. apply date_str_civil_inj.
Qed.

(** C18: two instants of the time range give the same "today" string
    ([toISOString().split('T')[0]]) exactly when they fall on the same
    UTC day; the dashboard's same-day check compares UTC days. *)
Theorem today_str_same_day (t1 t2 : Z) :
  Z.abs t1 <= max_time -> Z.abs t2 <= max_time ->
  today_str t1 = today_str t2 <-> t1 / ms_per_day = t2 / ms_per_day.
Proof.
  intros H1 H2. split; [now apply today_str_day|].
  intros Hd. now rewrite (today_str_date t1 H1), (today_str_date t2 H2), Hd.
Qed.

(** At 2024-03-05T12:00Z and 2024-03-05T23:59:59.999Z "today" is the same;
    one millisecond later it is not. *)
Lemma today_str_same_day_witness :
  (Z.abs 1709640000000 <= max_time /\ Z.abs 1709683199999 <= max_time) /\
  today_str 1709640000000 = today_str 1709683199999 /\
  today_str 1709640000000 <> today_str 1709683200000.
Proof.
  split; [split; vm_compute; discriminate|]. split.
  - apply (today_str_same_day 1709640000000 1709683199999); vm_compute; try discriminate; reflexivity.
  - intros H. apply (today_str_same_day 1709640000000 1709683200000) in H;
      [vm_compute in H; discriminate | vm_compute; discriminate ..].
Defined.
