(* ===== verification/EcmaDate.v ===== *)
(** * The calendar of ECMA-262, and the closed form of Clock.v

    ECMA-262 (section 21.4.1) defines the civil date of a day number by
    three functions: [DayFromYear(y)], the day number of January 1st of
    [y]; [YearFromTime], the year [y] with
    [DayFromYear(y) <= Day(t) < DayFromYear(y + 1)]; and [MonthFromTime] /
    [DateFromTime], read off [DayWithinYear(t) = Day(t) - DayFromYear(y)]
    against the table of month starts, shifted by one day after February
    in a leap year ([InLeapYear]).  This file writes those definitions
    ([day_from_year], [in_leap_year], [month_start]) and shows that
    [civil_from_days], the closed form Clock.v uses for [toISOString]
    and the local getters, computes exactly the year, month and date they
    define ([civil_from_days_ecma]), and that with [days_from_civil] it
    is a bijection between day numbers and the valid dates
    ([civil_from_days_spec]): the windows of the years and of the months
    do not overlap, so [days_from_civil] is one-to-one on valid dates.
    These facts justify the model of the built-in [Date].

    [today_str_ecma]: "today" as the scripts compute it is the date
    ECMA-262 assigns to the instant.  [today_str_bounds] is the range
    behaviour of
    [new Date().toISOString()]: it throws a [RangeError] exactly outside
    ECMAScript's time range, and inside it gives a valid date whose year
    lies in [-271821 .. 275760], the bounds the six-digit expanded year
    of the ISO format is made for.

    [get_day_weekday]: [getDay] (ECMA-262's [WeekDay]) agrees with an
    independent reference, Sakamoto's method on the local civil date;
    Index.v uses it to show that the dashboard's widgets agree. *)

From Stdlib Require Import ZArith Lia Bool Ascii String.
From S2P Require Import Prelude JsValue Clock.

Local Open Scope Z_scope.

#[local] Ltac Zify.zify_post_hook ::= Z.div_mod_to_equations.

(** [DayFromYear(y)]. *)
Definition day_from_year (y : Z) : Z :=
  365 * (y - 1970) + (y - 1969) / 4 - (y - 1901) / 100 + (y - 1601) / 400.

(** [InLeapYear], as 0 or 1. *)
Definition in_leap_year (y : Z) : Z := if leap y then 1 else 0.

(** The day within the year on which month [m] (1-12) starts, in a year
    with [lp] leap days: the bounds of [MonthFromTime]. *)
Definition month_start (lp m : Z) : Z :=
  match m with
  | 1 => 0 | 2 => 31 | 3 => 59 + lp | 4 => 90 + lp | 5 => 120 + lp | 6 => 151 + lp
  | 7 => 181 + lp | 8 => 212 + lp | 9 => 243 + lp | 10 => 273 + lp | 11 => 304 + lp
  | _ => 334 + lp
  end.

(** The text of a valid date of the time range, as [toISOString] writes
    it: the type of the [saved_date] field of a session record. *)
Definition date_text (s : string) : Prop :=
  exists y m d, s = date_str (y, m, d) /\ -271821 <= y <= 275760 /\
                1 <= m <= 12 /\ 1 <= d <= days_in_month y m.

(** The day of the week (0 = Sunday) of a civil date, by T. Sakamoto's
    method: an independent reference for [getDay]. *)
Definition sakamoto_offset (m : Z) : Z :=
  match m with
  | 1 => 0 | 2 => 3 | 3 => 2 | 4 => 5 | 5 => 0 | 6 => 3
  | 7 => 5 | 8 => 1 | 9 => 4 | 10 => 6 | 11 => 2 | _ => 4
  end.

Definition weekday_of (y m d : Z) : Z :=
  let y' := if m <? 3 then y - 1 else y in
  (y' + y' / 4 - y' / 100 + y' / 400 + sakamoto_offset m + d) mod 7.

(** ** Arithmetic of the two forms *)

Lemma month_cases (m : Z) :
  1 <= m <= 12 -> m = 1 \/ m = 2 \/ m = 3 \/ m = 4 \/ m = 5 \/ m = 6 \/ m = 7 \/ m = 8 \/
                  m = 9 \/ m = 10 \/ m = 11 \/ m = 12.
Proof. lia. Qed.

(** One goal per month. *)
Ltac month_split m Hm :=
  let Hc := fresh "Hc" in
  pose proof (month_cases m Hm) as Hc; repeat destruct Hc as [-> | Hc]; subst.

(** A year has 365 days, 366 in a leap year. *)
Lemma day_from_year_succ (y : Z) :
  day_from_year (y + 1) = day_from_year y + 365 + in_leap_year y.
Proof.
  unfold day_from_year, in_leap_year, leap.
  destruct (_ || _) eqn:E; bool_facts; lia.
Qed.

(** The inverse of Clock.v is [DayFromYear] plus the day within the year. *)
Lemma days_from_civil_ecma (y m d : Z) :
  1 <= m <= 12 ->
  days_from_civil y m d = day_from_year y + month_start (in_leap_year y) m + d - 1.
Proof.
  intros Hm. unfold days_from_civil, day_from_year, in_leap_year, leap.
  destruct (_ || _) eqn:E; bool_facts;
    month_split m Hm; simpl; lia.
Qed.

(** The months tile the year. *)
Lemma month_end_le (y m : Z) :
  1 <= m <= 12 ->
  month_start (in_leap_year y) m + days_in_month y m <= 365 + in_leap_year y.
Proof.
  intros Hm. unfold in_leap_year, days_in_month.
  destruct (leap y); month_split m Hm; simpl; lia.
Qed.

Lemma month_start_nonneg (y m : Z) : 1 <= m <= 12 -> 0 <= month_start (in_leap_year y) m.
Proof.
  intros Hm. unfold in_leap_year. destruct (leap y);
    month_split m Hm; simpl; lia.
Qed.

(** [YearFromTime]: the day lies in the year [civil_from_days] names. *)
Lemma civil_year_window (z : Z) :
  let '(y, m, d) := civil_from_days z in day_from_year y <= z < day_from_year (y + 1).
Proof.
  pose proof (civil_from_days_days z) as H. pose proof (civil_from_days_valid z) as Hv.
  destruct (civil_from_days z) as [[y m] d]. destruct H as (Hm & Hd & Hz).
  rewrite days_from_civil_ecma in Hz by exact Hm. rewrite day_from_year_succ.
  pose proof (month_end_le y m Hm). pose proof (month_start_nonneg y m Hm). lia.
Qed.

(** Years do not overlap: [DayFromYear] grows by at least a year's
    worth of days. *)
Lemma day_from_year_mono (y1 y2 : Z) : y1 < y2 -> day_from_year (y1 + 1) <= day_from_year y2.
Proof. intros H. unfold day_from_year. lia. Qed.

(** Months do not overlap: a month starts after the end of every
    earlier month. *)
Lemma month_start_mono (y m1 m2 : Z) :
  1 <= m1 <= 12 -> 1 <= m2 <= 12 -> m1 < m2 ->
  month_start (in_leap_year y) m1 + days_in_month y m1 <= month_start (in_leap_year y) m2.
Proof.
  intros H1 H2 H. unfold in_leap_year, days_in_month.
  destruct (leap y); month_split m1 H1; month_split m2 H2; simpl; lia.
Qed.

(** The position of a valid date in the day numbering: its year and its
    day within that year. *)
Lemma days_from_civil_window (y m d : Z) :
  1 <= m <= 12 -> 1 <= d <= days_in_month y m ->
  day_from_year y <= days_from_civil y m d < day_from_year (y + 1).
Proof.
  intros Hm Hd. rewrite days_from_civil_ecma, day_from_year_succ by exact Hm.
  pose proof (month_end_le y m Hm). pose proof (month_start_nonneg y m Hm). lia.
Qed.

(** [days_from_civil] is one-to-one on valid dates. *)
Lemma days_from_civil_inj (y m d y' m' d' : Z) :
  1 <= m <= 12 -> 1 <= d <= days_in_month y m ->
  1 <= m' <= 12 -> 1 <= d' <= days_in_month y' m' ->
  days_from_civil y m d = days_from_civil y' m' d' -> (y, m, d) = (y', m', d').
Proof.
  intros Hm Hd Hm' Hd' E.
  pose proof (days_from_civil_window y m d Hm Hd) as W.
  pose proof (days_from_civil_window y' m' d' Hm' Hd') as W'.
  assert (y = y') as <-.
  { destruct (Z.lt_trichotomy y y') as [Hl|[Hl|Hl]]; [|exact Hl|];
      [pose proof (day_from_year_mono y y' Hl) | pose proof (day_from_year_mono y' y Hl)]; lia. }
  rewrite !days_from_civil_ecma in E by assumption.
  assert (m = m') as <-.
  { destruct (Z.lt_trichotomy m m') as [Hl|[Hl|Hl]]; [|exact Hl|];
      [pose proof (month_start_mono y m m' Hm Hm' Hl) | pose proof (month_start_mono y m' m Hm' Hm Hl)];
      lia. }
  f_equal. lia.
Qed.

(** ** Equivalence *)

(** [civil_from_days] and [days_from_civil] are inverse bijections
    between day numbers and valid Gregorian dates: every day number is
    sent to a valid date (a month in 1-12, a day between 1 and the length
    of that month, 29 February only in leap years) from which
    [days_from_civil] recovers it, and every valid date is the image of
    its own day number.  The calendar conversion behind [toISOString]
    and the local getters loses nothing and misses no date. *)
Theorem civil_from_days_spec :
  (forall z, let '(y, m, d) := civil_from_days z in
     1 <= m <= 12 /\ 1 <= d <= days_in_month y m /\ days_from_civil y m d = z) /\
  (forall y m d, 1 <= m <= 12 -> 1 <= d <= days_in_month y m ->
     civil_from_days (days_from_civil y m d) = (y, m, d)).
Proof.
  split.
  - intros z. pose proof (civil_from_days_days z) as H. pose proof (civil_from_days_valid z) as Hv.
    destruct (civil_from_days z) as [[y m] d]. lia.
  - intros y m d Hm Hd. pose proof (civil_from_days_days (days_from_civil y m d)) as H.
    pose proof (civil_from_days_valid (days_from_civil y m d)) as Hv.
    destruct (civil_from_days _) as [[y' m'] d']. destruct H as (Hm' & Hd' & E).
    symmetry. apply days_from_civil_inj; lia.
Qed.

(** [civil_from_days] is ECMA-262's calendar: for every day number
    [z] it returns the year [y] of [YearFromTime] ([DayFromYear(y) <= z <
    DayFromYear(y + 1)]), the month [m] of [MonthFromTime] (the day
    within the year lies between the start of [m] and the start of the
    next month, with the leap day after February), and the date of
    [DateFromTime]. *)
Theorem civil_from_days_ecma (z : Z) :
  let '(y, m, d) := civil_from_days z in
  day_from_year y <= z < day_from_year (y + 1) /\
  month_start (in_leap_year y) m <= z - day_from_year y
    < month_start (in_leap_year y) m + days_in_month y m /\
  d = z - day_from_year y - month_start (in_leap_year y) m + 1.
Proof.
  pose proof (civil_year_window z) as Hw.
  pose proof (civil_from_days_days z) as H. pose proof (civil_from_days_valid z) as Hv.
  destruct (civil_from_days z) as [[y m] d]. destruct H as (Hm & Hd & Hz).
  rewrite days_from_civil_ecma in Hz by exact Hm. lia.
Qed.

(** C33: "today" as the scripts compute it,
    [new Date().toISOString().split('T')[0]], is the date ECMA-262
    assigns to the current instant: inside the time range it is the text
    [date_str (y, m, d)] where [y] is [YearFromTime] ([DayFromYear(y) <=
    Day(t) < DayFromYear(y + 1)]), [m] is [MonthFromTime] (the day within
    the year lies in month [m], with the leap day after February) and [d]
    is [DateFromTime]. *)
Theorem today_str_ecma (t : Z) :
  Z.abs t <= max_time ->
  exists y m d, today_str t = inl (date_str (y, m, d)) /\
    day_from_year y <= t / ms_per_day < day_from_year (y + 1) /\
    month_start (in_leap_year y) m <= t / ms_per_day - day_from_year y
      < month_start (in_leap_year y) m + days_in_month y m /\
    d = t / ms_per_day - day_from_year y - month_start (in_leap_year y) m + 1.
Proof.
  intros H. rewrite (today_str_date t H). pose proof (civil_from_days_ecma (t / ms_per_day)) as He.
  destruct (civil_from_days _) as [[y m] d]. exists y, m, d. split; [reflexivity | exact He].
Qed.

(** ** The time range *)

Lemma time_day_bounds (t : Z) :
  Z.abs t <= max_time -> -100000000 <= t / ms_per_day <= 100000000.
Proof. unfold max_time, ms_per_day. lia. Qed.

(** The years of the days of the time range. *)
Lemma year_bounds (z : Z) :
  -100000000 <= z <= 100000000 ->
  let '(y, _, _) := civil_from_days z in -271821 <= y <= 275760.
Proof.
  intros Hz. pose proof (civil_year_window z) as Hw.
  destruct (civil_from_days z) as [[y m] d]. unfold day_from_year in Hw. lia.
Qed.

(** What [today_str] returns is a date of the range. *)
Lemma today_str_date_text (t : Z) (s : string) :
  today_str t = inl s -> Z.abs t <= max_time /\ date_text s.
Proof.
  destruct (Z.le_gt_cases (Z.abs t) max_time) as [H|H].
  - rewrite (today_str_date t H). intros E.
    replace s with (date_str (civil_from_days (t / ms_per_day))) by congruence.
    split; [exact H|].
    pose proof (year_bounds _ (time_day_bounds t H)) as Hy.
    pose proof (civil_from_days_days (t / ms_per_day)) as Hc.
    pose proof (civil_from_days_valid (t / ms_per_day)) as Hv.
    destruct (civil_from_days (t / ms_per_day)) as [[y m] d].
    unfold date_text. exists y, m, d. split; [reflexivity | lia].
  - unfold today_str, iso_string.
    replace (max_time <? Z.abs t) with true by (symmetry; apply Z.ltb_lt; lia). discriminate.
Qed.

(** C34: [new Date().toISOString().split('T')[0]] throws a [RangeError]
    exactly when the time value is outside ECMAScript's range
    [+/- 8.64e15] ms; inside it, it is the text of a valid date whose year
    lies in [-271821 .. 275760], so the expanded year (a sign and six
    digits) always suffices. *)
Theorem today_str_bounds (t : Z) :
  match today_str t with
  | inl s => Z.abs t <= max_time /\ date_text s
  | inr e => max_time < Z.abs t /\ e = RangeError "Invalid time value"%string
  end.
Proof.
  destruct (today_str t) as [s|e] eqn:E; [now apply today_str_date_text|].
  destruct (Z.le_gt_cases (Z.abs t) max_time) as [H|H].
  - rewrite (today_str_date t H) in E. discriminate.
  - unfold today_str, iso_string in E.
    replace (max_time <? Z.abs t) with true in E by (symmetry; apply Z.ltb_lt; lia).
    injection E as <-. auto.
Qed.

(** The bounds are reached at the two ends of the range. *)
Lemma today_str_extremes :
  today_str max_time = inl "+275760-09-13"%string /\
  today_str (- max_time) = inl "-271821-04-20"%string /\
  today_str (max_time + 1) = inr (RangeError "Invalid time value"%string).
Proof. vm_compute. auto. Qed.

(** ** The day of the week *)

(** The weekday of a day number is Sakamoto's weekday of its date. *)
Lemma days_from_civil_weekday (y m d : Z) :
  1 <= m <= 12 -> (days_from_civil y m d + 4) mod 7 = weekday_of y m d.
Proof.
  intros Hm. unfold days_from_civil, weekday_of. month_split m Hm; simpl; lia.
Qed.

(** The weekday the dashboard shows ([getDay], the index into the
    locale's weekday names of [displayDayWeek]) is the weekday of the
    local date whose day of the month [displayTodayDate] shows, as an
    independent reference (Sakamoto's method on the civil date)
    computes it: the two widgets never disagree. *)
Theorem get_day_weekday (t tz : Z) :
  let '(y, m, d) := civil_from_days (local_ms t tz / ms_per_day) in
  get_day t tz = weekday_of y m d /\ get_date t tz = d.
Proof.
  unfold get_day, get_date. pose proof (civil_from_days_days (local_ms t tz / ms_per_day)) as H.
  destruct (civil_from_days _) as [[y m] d]. destruct H as (Hm & _ & Hz).
  split; [|reflexivity]. rewrite <- Hz. now apply days_from_civil_weekday.
Qed.

(** 29 February 2024 is the image of its day number, and day 0 is
    1970-01-01. *)
Lemma civil_from_days_spec_examples :
  (1 <= 2 <= 12 /\ 1 <= 29 <= days_in_month 2024 2) /\
  civil_from_days (days_from_civil 2024 2 29) = (2024, 2, 29) /\ civil_from_days 0 = (1970, 1, 1).
Proof.
  split; [split; vm_compute; split; discriminate|]. split.
  - apply (proj2 civil_from_days_spec); vm_compute; split; discriminate.
  - reflexivity.
Defined.

(** The theorem at 2024-03-05T12:00Z. *)
Lemma today_str_ecma_witness :
  Z.abs 1709640000000 <= max_time /\
  exists y m d, today_str 1709640000000 = inl (date_str (y, m, d)) /\
    day_from_year y <= 1709640000000 / ms_per_day < day_from_year (y + 1) /\
    month_start (in_leap_year y) m <= 1709640000000 / ms_per_day - day_from_year y
      < month_start (in_leap_year y) m + days_in_month y m /\
    d = 1709640000000 / ms_per_day - day_from_year y - month_start (in_leap_year y) m + 1.
Proof. split; [vm_compute; discriminate | apply today_str_ecma; vm_compute; discriminate]. Defined.

(** The reference on two known days: 1970-01-01 was a Thursday,
    2024-03-05 a Tuesday. *)
Lemma weekday_of_examples : weekday_of 1970 1 1 = 4 /\ weekday_of 2024 3 5 = 2.
Proof. split; reflexivity. Qed.
