(* ===== verification/Browser.v ===== *)
(** * The browser a page script runs in

    The scripts act on the browser through a handful of globals:
    [localStorage] ([getItem], [setItem], [removeItem]), the document
    ([querySelector(sel).textContent = ...], [.value], [.style.color],
    [classList.add/remove], [addEventListener], [onclick]),
    [window.location.href = url], [fetch(url)], [setTimeout],
    [setInterval], [alert], [console], and the [confetti] library.

    The browser state [St] holds:
    - [st_store]: [localStorage], a map from keys to strings;
    - [st_dom]: the writes of the scripts to element properties, newest
      first, each with the selector of the element and the property name
      ([".greeting"], ["textContent"]); a property reads as its latest
      write ([dom_get]);
    - [st_classes]: the (selector, class) pairs present in class lists;
    - [st_listeners]: the event handlers a script installed;
    - [st_tasks]: the pending asynchronous continuations (a [fetch]
      awaiting its response, a [setTimeout] callback);
    - [st_trace]: the observable effects, oldest first (requests sent,
      navigations, alerts, console lines, confetti, form submissions);
    - [st_env]: what the page reads from its environment: the clock, the
      time-zone offset and the names the default locale gives weekdays
      and months.

    A handler is a computation of the monad [M]: it threads the state
    and may end with a JavaScript exception; effects performed before an
    exception stay, as in the browser.  [try_catch] is a
    [try]/[.catch] block.  The monad is an instance of stdpp's
    [MRet]/[MBind], so handlers are written with [x ← m ; k]. *)

From stdpp Require Import base gmap strings list.
From Stdlib Require Import ZArith String.
From S2P Require Import Prelude JsValue Json Clock.

Local Open Scope string_scope.

(** The server's answer to a [fetch]: a network failure (the promise
    rejects) or a body with whatever status (the code never looks at
    [response.ok]). *)
Inductive response : Type :=
| RNetError
| RBody (body : string).

(** Installed event handlers, with the data their closures capture. *)
Inductive listener : Type :=
| LSubmitCard (fresh : val)     (** submit listener of [.card-container] *)
| LLogoutClick                  (** [button.onclick] of the checked-out state *)
| LHourTick                     (** [setInterval(displayHour, 1000)] *)
| LToggle                       (** click listener of each [.toggle-password] *)
| LLoginSubmit                  (** submit listener of [.login-form] *)
| LDateChange.                  (** change listener of [#datePicker] *)

(** Pending asynchronous continuations. *)
Inductive task : Type :=
| TIndexFetch (userData : val)  (** the token-status request of the dashboard *)
| TLoginFetch (token : string)  (** the token-status request of the login form *)
| TBannerTimeout.               (** the 1200 ms timer of the submit listener *)

(** Observable effects. *)
Inductive effect : Type :=
| EffFetch (url : string)
| EffNavigate (url : string)
| EffAlert (msg : string)
| EffConsole (msg : string)
| EffConfetti
| EffFormSubmit.

Record env : Type := mkEnv {
  env_now : Z;                  (** [Date.now()], ms since the epoch *)
  env_tzoff : Z;                (** [getTimezoneOffset()], minutes *)
  env_weekdays : list string;   (** long weekday names, Sunday first *)
  env_months : list string      (** long month names, January first *)
}.

Record St : Type := mkSt {
  st_store : gmap string string;
  st_dom : list (string * string * string);
  st_classes : gset (string * string);
  st_listeners : list listener;
  st_tasks : list task;
  st_trace : list effect;
  st_env : env
}.

(** ** The handler monad *)

Definition M (A : Type) : Type := St -> St * (A + exn).

#[export] Instance M_ret : MRet M := fun A x st => (st, inl x).
#[export] Instance M_bind : MBind M := fun A B f m st =>
  match m st with
  | (st', inl x) => f x st'
  | (st', inr e) => (st', inr e)
  end.

Definition throw {A} (e : exn) : M A := fun st => (st, inr e).

(** [try { m } catch (e) { h(e) }]: the effects of [m] up to the throw
    are kept. *)
Definition try_catch {A} (m : M A) (h : exn -> M A) : M A := fun st =>
  match m st with
  | (st', inl x) => (st', inl x)
  | (st', inr e) => h e st'
  end.

(** A built-in that returns a value or throws. *)
Definition lift {A} (r : A + exn) : M A := fun st =>
  match r with inl x => (st, inl x) | inr e => (st, inr e) end.

Definition modify (f : St -> St) : M unit := fun st => (f st, inl tt).
Definition gets {A} (f : St -> A) : M A := fun st => (st, inl (f st)).

(** ** Primitive operations *)

Definition with_store (m : gmap string string) (st : St) : St :=
  mkSt m (st_dom st) (st_classes st) (st_listeners st) (st_tasks st)
       (st_trace st) (st_env st).

Definition with_dom (d : list (string * string * string)) (st : St) : St :=
  mkSt (st_store st) d (st_classes st) (st_listeners st) (st_tasks st)
       (st_trace st) (st_env st).

Definition with_classes (c : gset (string * string)) (st : St) : St :=
  mkSt (st_store st) (st_dom st) c (st_listeners st) (st_tasks st)
       (st_trace st) (st_env st).

Definition with_listeners (l : list listener) (st : St) : St :=
  mkSt (st_store st) (st_dom st) (st_classes st) l (st_tasks st)
       (st_trace st) (st_env st).

Definition with_tasks (t : list task) (st : St) : St :=
  mkSt (st_store st) (st_dom st) (st_classes st) (st_listeners st) t
       (st_trace st) (st_env st).

Definition with_trace (tr : list effect) (st : St) : St :=
  mkSt (st_store st) (st_dom st) (st_classes st) (st_listeners st) (st_tasks st)
       tr (st_env st).

(** [localStorage.getItem(k)]: [None] is [null]. *)
Definition get_item (k : string) : M (option string) := gets (fun st => st_store st !! k).

Definition set_item (k v : string) : M unit :=
  modify (fun st => with_store (<[k := v]> (st_store st)) st).

Definition remove_item (k : string) : M unit :=
  modify (fun st => with_store (delete k (st_store st)) st).

Definition emit (e : effect) : M unit :=
  modify (fun st => with_trace (st_trace st ++ [e]) st).

(** [window.location.href = url]. *)
Definition navigate (url : string) : M unit := emit (EffNavigate url).

(** [fetch(url).then(...)]: the request goes out, the continuation
    waits in the task queue. *)
Definition fetch (url : string) (k : task) : M unit :=
  modify (fun st => with_tasks (st_tasks st ++ [k]) (with_trace (st_trace st ++ [EffFetch url]) st)).

Definition set_timeout (k : task) : M unit :=
  modify (fun st => with_tasks (st_tasks st ++ [k]) st).

Definition add_listener (l : listener) : M unit :=
  modify (fun st => with_listeners (st_listeners st ++ [l]) st).

(** [el.prop = s] for a string-valued DOM property. *)
Definition dom_set (sel prop s : string) : M unit :=
  modify (fun st => with_dom ((sel, prop, s) :: st_dom st) st).

(** The current value of a property: its latest write. *)
Fixpoint dom_get (d : list (string * string * string)) (sel prop : string) : option string :=
  match d with
  | [] => None
  | (sel', prop', s) :: d' =>
      if String.eqb sel sel' && String.eqb prop prop' then Some s else dom_get d' sel prop
  end.

(** [el.textContent = v]: a nullable DOMString, so [null] and
    [undefined] give the empty text. *)
Definition text_of (v : val) : string :=
  match v with VUndef | VNull => "" | _ => to_str v end.

Definition set_text (sel : string) (v : val) : M unit := dom_set sel "textContent" (text_of v).

(** [input.value = v]: [null] gives the empty string, [undefined] the
    string ["undefined"]. *)
Definition value_of (v : val) : string :=
  match v with VNull => "" | _ => to_str v end.

Definition class_add (sel cls : string) : M unit :=
  modify (fun st => with_classes ({[(sel, cls)]} ∪ st_classes st) st).

Definition class_remove (sel cls : string) : M unit :=
  modify (fun st => with_classes (st_classes st ∖ {[(sel, cls)]}) st).

(** [classList.toggle(cls)]. *)
Definition class_toggle (sel cls : string) : M unit :=
  st ← gets id ;
  if decide ((sel, cls) ∈ st_classes st) then class_remove sel cls else class_add sel cls.

(** ** What the two pages share *)

(** The [localStorage] key of the session record. *)
Definition user_data_key : string := "user_data".
Definition login_path : string := "/login".
Definition token_status_url (token : string) : string := "/api/token-status?token=" ++ token.

(** [response.json()]: the body parsed, or a rejection. *)
Definition response_json (r : response) : M val :=
  match r with
  | RNetError => throw (TypeError "Failed to fetch")
  | RBody b => lift (parse b)
  end.

(** [console.log(v)] / [console.error(msg, v)]: a line of the console. *)
Definition console (v : val) : M unit := emit (EffConsole (to_str v)).

Definition alert (msg : string) : M unit := emit (EffAlert msg).

(** The current value of a string property of the page; the values
    the markup gives are the oldest entries of [st_dom]. *)
Definition dom_read (sel prop : string) : M string :=
  gets (fun st => match dom_get (st_dom st) sel prop with Some s => s | None => "" end).

Definition now_ms : M Z := gets (fun st => env_now (st_env st)).
Definition tz_offset : M Z := gets (fun st => env_tzoff (st_env st)).
Definition locale_names : M (list string * list string) :=
  gets (fun st => (env_weekdays (st_env st), env_months (st_env st))).

(** ** Handlers that only touch the page

    [page_only m]: [m] always succeeds and leaves storage, pending tasks,
    effects and environment as they were; it may change the DOM, the class
    lists and the installed listeners. *)
Definition io_same (st st' : St) : Prop :=
  st_store st' = st_store st /\ st_tasks st' = st_tasks st /\
  st_trace st' = st_trace st /\ st_env st' = st_env st.

Definition page_only (m : M unit) : Prop :=
  forall st, exists st', m st = (st', inl tt) /\ io_same st st'.

(** ** Running handlers symbolically

    [run_m] unfolds the monad and the primitives, leaving the built-ins
    ([parse], [get_prop], ...) for the hypotheses of a theorem to
    rewrite. *)
Ltac simp_m :=
  cbn -[parse today_str get_prop set_prop stringify truthy strict_eq_str
        get_hours get_minutes get_day get_month get_date text_of value_of to_str] in *.

Ltac run_m_cbv :=
  cbv [mbind M_bind mret M_ret gets modify lift throw try_catch get_item set_item
       remove_item emit navigate fetch set_timeout add_listener dom_set set_text
       class_add class_remove class_toggle now_ms tz_offset locale_names
       alert console dom_read response_json
       with_store with_dom with_classes with_listeners with_tasks with_trace].

(** A property read after a sequence of writes with literal keys. *)
Ltac solve_lookup := cbn [dom_get]; reflexivity.

Ltac run_m :=
  cbv [mbind M_bind mret M_ret gets modify lift throw try_catch get_item set_item
       remove_item emit navigate fetch set_timeout add_listener dom_set set_text
       class_add class_remove class_toggle now_ms tz_offset locale_names
       alert console dom_read response_json
       with_store with_dom with_classes with_listeners with_tasks with_trace] in *;
  simp_m.

(** The monad laws, used when handlers are composed. *)
Lemma M_bind_ret_l {A B} (x : A) (f : A -> M B) (st : St) :
  (mret x ≫= f) st = f x st.
Proof. reflexivity. Qed.

Lemma M_bind_ret_r {A} (m : M A) (st : St) : (m ≫= mret) st = m st.
Proof. cbv [mbind M_bind mret M_ret]. now destruct (m st) as [? [|]]. Qed.

Lemma M_bind_assoc {A B C} (m : M A) (f : A -> M B) (g : B -> M C) (st : St) :
  ((m ≫= f) ≫= g) st = (m ≫= (fun x => f x ≫= g)) st.
Proof. cbv [mbind M_bind]. now destruct (m st) as [? [|]]. Qed.

(** Running [m] then [k] when [m] is known to succeed. *)
Lemma M_bind_run {A B} (m : M A) (k : A -> M B) (st st' : St) (x : A) :
  m st = (st', inl x) -> (m ≫= k) st = k x st'.
Proof. intros H. cbv [mbind M_bind]. now rewrite H. Qed.

Lemma bind_gets {A B} (f : St -> A) (k : A -> M B) (st : St) : (gets f ≫= k) st = k (f st) st.
Proof. reflexivity. Qed.

Lemma bind_lift_inl {A B} (x : A) (k : A -> M B) (st : St) : (lift (inl x) ≫= k) st = k x st.
Proof. reflexivity. Qed.

Lemma io_same_trans (st1 st2 st3 : St) : io_same st1 st2 -> io_same st2 st3 -> io_same st1 st3.
Proof. intros (? & ? & ? & ?) (? & ? & ? & ?). repeat split; congruence. Qed.

Lemma page_only_seq (m k : M unit) : page_only m -> page_only k -> page_only (m ;; k).
Proof.
  intros Hm Hk st. destruct (Hm st) as (st1 & H1 & Hio1).
  destruct (Hk st1) as (st2 & H2 & Hio2). exists st2.
  cbv [mbind M_bind]. rewrite H1. split; [exact H2 | eapply io_same_trans; eauto].
Qed.

Lemma page_only_gets {A} (f : St -> A) (k : A -> M unit) :
  (forall x, page_only (k x)) -> page_only (gets f ≫= k).
Proof. intros Hk st. exact (Hk (f st) st). Qed.

Lemma page_only_modify (f : St -> St) :
  (forall st, io_same st (f st)) -> page_only (modify f).
Proof. intros Hf st. exists (f st). split; [reflexivity | apply Hf]. Qed.

Lemma page_only_dom_set (sel prop s : string) : page_only (dom_set sel prop s).
Proof. apply page_only_modify. intros []. repeat split. Qed.

Lemma page_only_set_text (sel : string) (v : val) : page_only (set_text sel v).
Proof. apply page_only_dom_set. Qed.

Lemma page_only_add_listener (l : listener) : page_only (add_listener l).
Proof. apply page_only_modify. intros []. repeat split. Qed.

Lemma page_only_class_add (sel cls : string) : page_only (class_add sel cls).
Proof. apply page_only_modify. intros []. repeat split. Qed.

Lemma page_only_class_remove (sel cls : string) : page_only (class_remove sel cls).
Proof. apply page_only_modify. intros []. repeat split. Qed.

Lemma page_only_now_ms (k : Z -> M unit) : (forall x, page_only (k x)) -> page_only (now_ms ≫= k).
Proof. apply page_only_gets. Qed.

Lemma page_only_tz_offset (k : Z -> M unit) : (forall x, page_only (k x)) -> page_only (tz_offset ≫= k).
Proof. apply page_only_gets. Qed.

Lemma page_only_locale (k : list string * list string -> M unit) :
  (forall x, page_only (k x)) -> page_only (locale_names ≫= k).
Proof. apply page_only_gets. Qed.

#[export] Hint Resolve page_only_seq page_only_dom_set page_only_set_text
  page_only_add_listener page_only_class_add page_only_class_remove
  page_only_now_ms page_only_tz_offset page_only_locale : checkin.

(** A property read of an object never throws. *)
Lemma page_only_read_obj (ps : list (string * val)) (k : string) (f : val -> M unit) :
  (forall x, page_only (f x)) -> page_only (lift (get_prop (VObj ps) k) ≫= f).
Proof. intros Hf st. exact (Hf _ st). Qed.

Lemma page_only_ret : page_only (mret tt).
Proof. intros st. exists st. split; [reflexivity | repeat split]. Qed.

#[export] Hint Resolve page_only_read_obj page_only_ret : checkin.
