(* ===== verification/Keeps.v ===== *)
(** * Relations every handler keeps

    Several theorems of the development have the same shape: a relation
    [R] between the state before and the state after a handler, that
    every primitive establishes and that survives [≫=], [try_catch] and
    [if].  When [R] is a preorder (reflexive for the steps that change
    nothing, transitive for the composition), [keeps R m] says that
    running [m] from any state [st] ends, whether [m] returns or throws,
    in a state related to [st].  This file proves the composition rules
    once; Ordering.v (the growth of the pending tasks), Footprint.v (what
    the scripts touch in storage and outside the page) and Invariant.v
    (the session record) instantiate them. *)

From stdpp Require Import base.
From Stdlib Require Import RelationClasses.
From S2P Require Import Prelude JsValue Browser.

Section Keeps.
Context (R : St -> St -> Prop) `{!PreOrder R}.

Definition keeps {A} (m : M A) : Prop := forall st, R st (fst (m st)).

(** A step that leaves the state as it is. *)
Lemma keeps_same {A} (m : M A) : (forall st, fst (m st) = st) -> keeps m.
Proof. intros H st. rewrite H. reflexivity. Qed.

Lemma keeps_bind {A B} (m : M A) (k : A -> M B) :
  keeps m -> (forall x, keeps (k x)) -> keeps (m ≫= k).
Proof.
  intros Hm Hk st. specialize (Hm st). cbv [mbind M_bind].
  destruct (m st) as [st1 [x|e]]; [|exact Hm]. etransitivity; [exact Hm | apply Hk].
Qed.

Lemma keeps_try_catch {A} (m : M A) (h : exn -> M A) :
  keeps m -> (forall e, keeps (h e)) -> keeps (try_catch m h).
Proof.
  intros Hm Hh st. specialize (Hm st). unfold try_catch.
  destruct (m st) as [st1 [x|e]]; [exact Hm|]. etransitivity; [exact Hm | apply Hh].
Qed.

Lemma keeps_if {A} (b : bool) (m1 m2 : M A) : keeps m1 -> keeps m2 -> keeps (if b then m1 else m2).
Proof. now destruct b. Qed.

Lemma keeps_ret {A} (x : A) : keeps (mret x).
Proof. now apply keeps_same. Qed.

Lemma keeps_gets {A} (f : St -> A) : keeps (gets f).
Proof. now apply keeps_same. Qed.

Lemma keeps_lift {A} (r : A + exn) : keeps (lift r).
Proof. apply keeps_same. now destruct r. Qed.

Lemma keeps_throw {A} (e : exn) : keeps (throw (A := A) e).
Proof. now apply keeps_same. Qed.

End Keeps.

(** The steps of a handler that leave the state alone, whatever [R]. *)
Ltac keeps_pure :=
  first [ apply keeps_ret | apply keeps_gets | apply keeps_lift | apply keeps_throw ];
  typeclasses eauto.
