(* ===== verification/Url.v ===== *)
(** * The token in the request URL

    Both pages build the token-status request as a template literal,
    [`/api/token-status?token=${token}`] (indexScript.js line 58,
    loginScript.js line 31), without [encodeURIComponent].  The server
    reads the parameter back with the [application/x-www-form-urlencoded]
    parser of the URL standard, which this file models: the query is the
    text after the first [?] up to a [#]; it is split on [&]; each part is
    split at its first [=]; [+] becomes a space and [%XX] the byte [XX].

    [token_url_roundtrip]: a token of unreserved characters (letters,
    digits, [-._~]) arrives intact.  [token_url_not_encoded]: every token
    holding [&], [#] or [+] arrives changed, since they are not escaped
    ([url_param_token]: the value read is the decoded text before the
    first [&] or [#]).  A [%] changes the token only when two hex digits
    follow it. *)

From stdpp Require Import base list.
From Stdlib Require Import ZArith Ascii String Bool Lia.
From S2P Require Import Prelude JsValue Json Browser.

Local Open Scope string_scope.

(** The characters [encodeURIComponent] leaves as they are, less the
    sub-delimiters [!'()*]: letters, digits and [-._~]. *)
Definition unreserved (c : ascii) : bool :=
  let n := char_code c in
  ((65 <=? n) && (n <=? 90) || (97 <=? n) && (n <=? 122) || (48 <=? n) && (n <=? 57) ||
   (n =? 45) || (n =? 46) || (n =? 95) || (n =? 126))%N.

(** The text after the first [c], if [c] occurs. *)
Fixpoint after_char (c : ascii) (s : string) : option string :=
  match s with
  | EmptyString => None
  | String x r => if Ascii.eqb x c then Some r else after_char c r
  end.

(** Split at every [c]. *)
Fixpoint split_on (c : ascii) (s : string) : list string :=
  match s with
  | EmptyString => [""]
  | String x r =>
      if Ascii.eqb x c then "" :: split_on c r
      else match split_on c r with
           | w :: ws => String x w :: ws
           | [] => [String x ""]
           end
  end.

(** Split at the first [=]: name and value. *)
Definition name_value (s : string) : string * string :=
  match after_char "=" s with
  | Some v => (split_first "=" s, v)
  | None => (s, "")
  end.

(** [+] to space, then percent-decoding. *)
Fixpoint form_decode (s : string) : string :=
  match s with
  | EmptyString => EmptyString
  | String c r =>
      if Ascii.eqb c "+" then String " " (form_decode r)
      else if Ascii.eqb c "%" then
        match r with
        | String h1 (String h2 r') =>
            match hex_val h1, hex_val h2 with
            | Some a, Some b => String (ascii_of_N (16 * a + b)) (form_decode r')
            | _, _ => String c (form_decode r)
            end
        | _ => String c (form_decode r)
        end
      else String c (form_decode r)
  end.

(** [new URL(url).searchParams.get(name)]. *)
Definition url_param (name url : string) : option string :=
  match after_char "?" url with
  | None => None
  | Some q =>
      let q := split_first "#" q in
      let pairs := map (fun p => let '(n, v) := name_value p in (form_decode n, form_decode v))
                       (filter (fun p => negb (String.eqb p "")) (split_on "&" q)) in
      match find (fun nv => String.eqb (fst nv) name) pairs with
      | Some (_, v) => Some v
      | None => None
      end
  end.

(** The characters at which the parser stops reading the value: [&]
    ends the pair, [#] the query. *)
Definition delim (c : ascii) : bool := Ascii.eqb c "&" || Ascii.eqb c "#".

(** ** Lemmas *)

Lemma str_forall_avoid (p : ascii -> bool) (c : ascii) (s : string) :
  p c = false -> str_forall p s = true -> str_forall (fun x => negb (Ascii.eqb x c)) s = true.
Proof.
  intros Hc. apply str_forall_impl. intros x Hx.
  destruct (Ascii.eqb_spec x c) as [->|]; [congruence | reflexivity].
Qed.

Lemma after_char_none (c : ascii) (s : string) :
  str_forall (fun x => negb (Ascii.eqb x c)) s = true -> after_char c s = None.
Proof.
  induction s as [|x s IH]; simpl; [reflexivity|].
  rewrite andb_true_iff. intros [Hx Hs]. destruct (Ascii.eqb x c); [discriminate | auto].
Qed.

Lemma split_first_none (c : ascii) (s : string) :
  str_forall (fun x => negb (Ascii.eqb x c)) s = true -> split_first c s = s.
Proof.
  induction s as [|x s IH]; simpl; [reflexivity|].
  rewrite andb_true_iff. intros [Hx Hs]. destruct (Ascii.eqb x c); [discriminate | now rewrite IH].
Qed.

Lemma split_on_none (c : ascii) (s : string) :
  str_forall (fun x => negb (Ascii.eqb x c)) s = true -> split_on c s = [s].
Proof.
  induction s as [|x s IH]; simpl; [reflexivity|].
  rewrite andb_true_iff. intros [Hx Hs]. destruct (Ascii.eqb x c); [discriminate|].
  now rewrite IH.
Qed.

Lemma form_decode_id (s : string) :
  str_forall (fun x => negb (Ascii.eqb x "+")) s = true ->
  str_forall (fun x => negb (Ascii.eqb x "%")) s = true -> form_decode s = s.
Proof.
  induction s as [|x s IH]; simpl; [reflexivity|].
  rewrite !andb_true_iff. intros [Hx Hs] [Hx' Hs'].
  destruct (Ascii.eqb x "+"); [discriminate|]. destruct (Ascii.eqb x "%"); [discriminate|].
  now rewrite IH.
Qed.

(** C27: a token of unreserved characters reaches the server intact:
    the [token] parameter of the request URL reads back as the token. *)
Theorem token_url_roundtrip (tok : string) :
  str_forall unreserved tok = true -> url_param "token" (token_status_url tok) = Some tok.
Proof.
  intros Hu.
  assert (Hh := str_forall_avoid _ "#" tok eq_refl Hu).
  assert (Ha := str_forall_avoid _ "&" tok eq_refl Hu).
  assert (Hp := str_forall_avoid _ "+" tok eq_refl Hu).
  assert (Hc := str_forall_avoid _ "%" tok eq_refl Hu).
  unfold url_param. replace (after_char "?" (token_status_url tok)) with (Some ("token=" ++ tok))
    by reflexivity. cbv zeta.
  rewrite (split_first_none "#" ("token=" ++ tok)) by (rewrite str_forall_app, Hh; reflexivity).
  rewrite (split_on_none "&" ("token=" ++ tok)) by (rewrite str_forall_app, Ha; reflexivity).
  simpl. rewrite form_decode_id by assumption. reflexivity.
Qed.

Lemma token_url_roundtrip_witness :
  str_forall unreserved "Ab3-x_y.z~9" = true /\
  url_param "token" (token_status_url "Ab3-x_y.z~9") = Some "Ab3-x_y.z~9".
Proof. split; [reflexivity | apply token_url_roundtrip; reflexivity]. Defined.

(** What the parser does to a value: decoding never lengthens it, and
    leaves it unchanged only when it holds no [+]. *)
Lemma form_decode_length (s : string) : String.length (form_decode s) <= String.length s.
Proof.
  remember (String.length s) as n eqn:E. revert s E.
  induction n as [n IH] using lt_wf_ind. intros [|c r] E; simpl; [lia|]. simpl in E.
  destruct (Ascii.eqb c "+"); [simpl; specialize (IH (String.length r) ltac:(lia) r eq_refl); lia|].
  destruct (Ascii.eqb c "%"); [|simpl; specialize (IH (String.length r) ltac:(lia) r eq_refl); lia].
  pose proof (IH (String.length r) ltac:(lia) r eq_refl) as Hr.
  destruct r as [|h1 [|h2 r']]; cbn -[form_decode] in *; try lia.
  pose proof (IH (String.length r') ltac:(lia) r' eq_refl).
  destruct (hex_val h1), (hex_val h2); cbn -[form_decode] in *; lia.
Qed.

Lemma form_decode_fixed (s : string) :
  form_decode s = s -> str_forall (fun x => negb (Ascii.eqb x "+")) s = true.
Proof.
  induction s as [|c r IH]; [reflexivity|]. cbn [form_decode str_forall].
  destruct (Ascii.eqb_spec c "+") as [->|Hp]; [discriminate|]. cbn [negb andb].
  destruct (Ascii.eqb c "%"); [|intros E; apply IH; congruence].
  destruct r as [|h1 [|h2 r']]; [reflexivity | intros E; apply IH; congruence|].
  destruct (hex_val h1), (hex_val h2); try (intros E; apply IH; congruence).
  intros E. apply (f_equal String.length) in E. cbn [String.length] in E.
  pose proof (form_decode_length r'). lia.
Qed.

Lemma split_first_prefix (sep : ascii) (a b : string) :
  str_forall (fun c => negb (Ascii.eqb c sep)) a = true ->
  split_first sep (a ++ b) = a ++ split_first sep b.
Proof.
  induction a as [|c a IH]; simpl; [reflexivity|].
  rewrite andb_true_iff. intros [Hc Ha]. destruct (Ascii.eqb c sep); [discriminate|].
  now rewrite IH.
Qed.

Lemma split_on_prefix (sep : ascii) (a b : string) :
  str_forall (fun c => negb (Ascii.eqb c sep)) a = true ->
  split_on sep (a ++ String sep b) = a :: split_on sep b.
Proof.
  induction a as [|c a IH]; simpl; [now rewrite Ascii.eqb_refl|].
  rewrite andb_true_iff. intros [Hc Ha]. destruct (Ascii.eqb c sep); [discriminate|].
  now rewrite IH.
Qed.

(** A text has no delimiter, or splits at its first one. *)
Lemma first_delim (s : string) :
  str_forall (fun x => negb (delim x)) s = true \/
  exists pre c post, s = pre ++ String c post /\
    str_forall (fun x => negb (delim x)) pre = true /\ delim c = true.
Proof.
  induction s as [|c r IH]; simpl; [now left|].
  destruct (delim c) eqn:Hc; simpl.
  - right. exists "", c, r. auto.
  - destruct IH as [IH | (pre & c' & post & -> & Hpre & Hc')]; [now left|].
    right. exists (String c pre), c', post. simpl. now rewrite Hc, Hpre.
Qed.

Lemma no_delim_avoid (c : ascii) (s : string) :
  delim c = true -> str_forall (fun x => negb (delim x)) s = true ->
  str_forall (fun x => negb (Ascii.eqb x c)) s = true.
Proof.
  intros Hc. apply str_forall_impl. intros x Hx.
  destruct (Ascii.eqb_spec x c) as [->|]; [now rewrite Hc in Hx | reflexivity].
Qed.

(** The server reads the [token] parameter as the decoded text before
    the first [&] or [#] of the token. *)
Lemma url_param_token (pre rest : string) :
  str_forall (fun x => negb (delim x)) pre = true ->
  (rest = "" \/ exists c post, rest = String c post /\ delim c = true) ->
  url_param "token" (token_status_url (pre ++ rest)) = Some (form_decode pre).
Proof.
  intros Hpre Hrest.
  assert (Hh := no_delim_avoid "#" pre eq_refl Hpre).
  assert (Ha := no_delim_avoid "&" pre eq_refl Hpre).
  unfold url_param. replace (after_char "?" (token_status_url (pre ++ rest)))
    with (Some ("token=" ++ pre ++ rest)) by reflexivity. cbv zeta.
  destruct Hrest as [-> | (c & post & -> & Hc)].
  { rewrite str_app_nil_r, (split_first_none "#" ("token=" ++ pre)), (split_on_none "&" ("token=" ++ pre))
      by (rewrite str_forall_app; simpl; assumption). reflexivity. }
  assert (Hh' : str_forall (fun x => negb (Ascii.eqb x "#")) ("token=" ++ pre) = true)
    by (rewrite str_forall_app; simpl; assumption).
  assert (Ha' : str_forall (fun x => negb (Ascii.eqb x "&")) ("token=" ++ pre) = true)
    by (rewrite str_forall_app; simpl; assumption).
  unfold delim in Hc. destruct (Ascii.eqb_spec c "&") as [->|_]; simpl in Hc.
  - assert (E1 : split_first "#" ("token=" ++ pre ++ String "&" post) =
                 "token=" ++ pre ++ String "&" (split_first "#" post))
      by exact (split_first_prefix "#" ("token=" ++ pre) (String "&" post) Hh').
    assert (E2 : split_on "&" ("token=" ++ pre ++ String "&" (split_first "#" post)) =
                 ("token=" ++ pre) :: split_on "&" (split_first "#" post))
      by exact (split_on_prefix "&" ("token=" ++ pre) _ Ha').
    rewrite E1, E2. reflexivity.
  - apply Ascii.eqb_eq in Hc as ->.
    assert (E1 : split_first "#" ("token=" ++ pre ++ String "#" post) = "token=" ++ pre)
      by exact (split_first_app "#" ("token=" ++ pre) post Hh').
    rewrite E1, (split_on_none "&" ("token=" ++ pre) Ha'). reflexivity.
Qed.

(** C28: every token that holds [&], [#] or [+] reaches the server
    changed, because the scripts put the token in the URL without
    [encodeURIComponent]: the value is cut at the first [&] or [#], and
    [+] is read as a space.  The login form accepts such tokens (it only
    trims them and refuses blank ones). *)
Theorem token_url_not_encoded (tok : string) :
  (exists pre c post, tok = pre ++ String c post /\ (c = "&" \/ c = "#" \/ c = "+")%char) ->
  url_param "token" (token_status_url tok) <> Some tok.
Proof.
  intros (pre & c & post & Etok & Hc).
  destruct (first_delim tok) as [Hn | (pre' & c' & post' & E' & Hpre' & Hc')].
  - rewrite <- (str_app_nil_r tok) at 1. rewrite url_param_token by auto.
    intros [= Hf]. apply form_decode_fixed in Hf. subst tok.
    rewrite str_forall_app in Hn, Hf. apply andb_prop in Hn as [_ Hn], Hf as [_ Hf].
    destruct Hc as [-> | [-> | ->]]; discriminate.
  - rewrite E', url_param_token by eauto. intros [= Hf].
    apply (f_equal String.length) in Hf. rewrite str_length_app in Hf. simpl in Hf.
    pose proof (form_decode_length pre'). lia.
Qed.

(** The token ["ab&c"], which the login form accepts, is read as ["ab"]. *)
Lemma token_url_not_encoded_witness :
  trim "ab&c" = "ab&c" /\ all_space "ab&c" = false /\
  url_param "token" (token_status_url "ab&c") = Some "ab" /\
  url_param "token" (token_status_url "ab&c") <> Some "ab&c".
Proof.
  split; [reflexivity|]. split; [reflexivity|]. split; [vm_compute; reflexivity|].
  apply token_url_not_encoded. exists "ab", "&"%char, "c". auto.
Defined.
