(* ===== verification/Widgets.v ===== *)
(** * The clock widgets of the dashboard (indexScript.js lines 1-25)

    [displayGreeting], [displayDayWeek], [displayHour], [displayMonth] and
    [displayTodayDate] each read [new Date()] and write one text node.
    [displayHour] pads with the idiom [("0" + n).slice(-2)]; the theorems
    show it is two-digit zero padding for every hour and minute, so the
    clock always reads [HH:MM]. *)

From stdpp Require Import base list.
From Stdlib Require Import ZArith String Lia.
From S2P Require Import Prelude JsValue Clock Browser.

Local Open Scope string_scope.

(** [time.getHours() < 12 ? ... : time.getHours() < 18 ? ... : ...]. *)
Definition greeting_of (h : Z) : string :=
  if (h <? 12)%Z then "Good Morning,"
  else if (h <? 18)%Z then "Good Afternoon,"
  else "Good Evening,".

Definition displayGreeting : M unit :=
  t ← now_ms ; tz ← tz_offset ;
  set_text ".greeting" (VStr (greeting_of (get_hours t tz))).

(** [toLocaleString('default', { weekday: 'long' })]. *)
Definition displayDayWeek : M unit :=
  t ← now_ms ; tz ← tz_offset ; names ← locale_names ;
  set_text "#day-week" (VStr (nth (Z.to_nat (get_day t tz)) names.1 "")).

(** [("0" + n).slice(-2)]. *)
Definition two_digits (n : Z) : string := slice_last 2 ("0" ++ to_str (VNum n)).

Definition hour_text (t tz : Z) : string :=
  two_digits (get_hours t tz) ++ ":" ++ two_digits (get_minutes t tz).

Definition displayHour : M unit :=
  t ← now_ms ; tz ← tz_offset ;
  set_text ".current-time" (VStr (hour_text t tz)).

(** [toLocaleString('default', { month: 'long' })]. *)
Definition displayMonth : M unit :=
  t ← now_ms ; tz ← tz_offset ; names ← locale_names ;
  set_text ".month" (VStr (nth (Z.to_nat (get_month t tz)) names.2 "")).

(** [textContent = time.getDate()]: the number converted to text. *)
Definition displayTodayDate : M unit :=
  t ← now_ms ; tz ← tz_offset ;
  set_text ".date-month" (VNum (get_date t tz)).

(** ** The clock reads [HH:MM] *)

Lemma two_digits_pad2 (n : Z) : (0 <= n <= 99)%Z -> two_digits n = pad2 n.
Proof.
  intros Hn.
  assert (H : all_range (fun k => String.eqb (two_digits k) (pad2 k)) 0 100 = true)
    by (vm_compute; reflexivity).
  apply String.eqb_eq, (all_range_spec _ _ 0 H). lia.
Qed.

Lemma get_hours_range (t tz : Z) : (0 <= get_hours t tz <= 23)%Z.
Proof. unfold get_hours. pose proof (Z.mod_pos_bound (local_ms t tz / 3600000) 24). lia. Qed.

Lemma get_minutes_range (t tz : Z) : (0 <= get_minutes t tz <= 59)%Z.
Proof. unfold get_minutes. pose proof (Z.mod_pos_bound (local_ms t tz / 60000) 60). lia. Qed.

(** C21: every second the clock shows the local hour and minute, each
    zero-padded to two digits: the idiom [("0" + n).slice(-2)] is
    two-digit padding for every value [getHours] and [getMinutes] take. *)
Theorem displayHour_text (st : St) :
  let t := env_now (st_env st) in
  let tz := env_tzoff (st_env st) in
  exists st', displayHour st = (st', inl tt) /\
    dom_get (st_dom st') ".current-time" "textContent" =
      Some (pad2 (get_hours t tz) ++ ":" ++ pad2 (get_minutes t tz)) /\
    (0 <= get_hours t tz <= 23)%Z /\ (0 <= get_minutes t tz <= 59)%Z /\
    st_store st' = st_store st /\ st_trace st' = st_trace st.
Proof.
  cbv zeta. pose proof (get_hours_range (env_now (st_env st)) (env_tzoff (st_env st))).
  pose proof (get_minutes_range (env_now (st_env st)) (env_tzoff (st_env st))).
  unfold displayHour. cbv [mbind M_bind now_ms tz_offset gets set_text dom_set modify].
  eexists; split; [reflexivity|]. cbn [st_dom with_dom st_store st_trace dom_get].
  cbv [text_of hour_text]. rewrite !two_digits_pad2 by lia. auto.
Qed.
