(* ===== verification/Index.v ===== *)
(** * The dashboard page: session bootstrap and shift status
    (src/static/script/indexScript.js lines 29-140)

    - [index_load] is the DOMContentLoaded handler: widgets, then the
      synchronous checks of the stored session record, then the
      token-status request; [index_widgets_calendar] shows that the
      widgets display one consistent local date.
    - [index_fetch_done] is the promise chain that runs when the request
      settles: [.then(response => response.json())], the
      [.then(freshData => ...)] body [index_then] (the write-back, then
      [index_render]), and the [.catch].
    - [render_status] is the three-way branch on [has_checked_in] /
      [has_checked_out]; [shift_status] is its decision as a value.
    - [submit_card], [banner_timeout] and [logout_click] are the handlers
      the continuation installs. *)

From stdpp Require Import base gmap strings list.
From Stdlib Require Import ZArith Ascii String.
From S2P Require Import Prelude JsValue Json Clock EcmaDate Browser Widgets.

Local Open Scope string_scope.

(** [document.querySelector('button[type="submit"]')]. *)
Definition sel_button : string := "button[type=" ++ String dq "submit" ++ String dq "]".

(** [x.split(' ')[0]]: only strings have a [split] method. *)
Definition js_split_first (sep : ascii) (v : val) : string + exn :=
  match v with
  | VStr s => inl (split_first sep s)
  | _ => inr (TypeError "split is not a function")
  end.

(** The tail of the two banner messages: the source holds the UTF-8 text
    [ðŸŽ‰], kept here as its bytes. *)
Definition party : string := "ðŸŽ‰".

(** ** The shift status *)

Inductive shift_status : Type := NotCheckedIn | CheckedIn | CheckedOut.

(** [if (!has_checked_in) ... else if (!has_checked_out) ... else ...]. *)
Definition status_of (ci co : val) : shift_status :=
  if negb (truthy ci) then NotCheckedIn
  else if negb (truthy co) then CheckedIn
  else CheckedOut.

Definition violet : string := "hsla(246, 80%, 60%, 1)".
Definition orange : string := "#FF7518".

(** Lines 73-100. *)
Definition render_status (fresh : val) : M unit :=
  ci ← lift (get_prop fresh "has_checked_in") ;
  if negb (truthy ci) then
    set_text sel_button (VStr "Check In") ;;
    dom_set ".vdash-span" "style.color" violet ;;
    set_text ".shift-label" (VStr "READY TO CHECK IN?") ;;
    set_text ".label-active" (VStr "Inactive") ;;
    class_remove ".dot" "active"
  else
    co ← lift (get_prop fresh "has_checked_out") ;
    if negb (truthy co) then
      set_text sel_button (VStr "Check Out") ;;
      dom_set sel_button "style.backgroundColor" orange ;;
      dom_set ".vdash-span" "style.color" orange ;;
      set_text ".shift-label" (VStr "CHECKED AT") ;;
      cin ← lift (get_prop fresh "checkin_time") ;
      set_text ".shift-time" cin ;;
      set_text ".label-active" (VStr "Active") ;;
      class_add ".dot" "active"
    else
      cout ← lift (get_prop fresh "checkout_time") ;
      set_text ".shift-time" cout ;;
      set_text ".shift-label" (VStr "CHECKED OUT AT") ;;
      set_text ".label-active" (VStr "Inactive") ;;
      set_text sel_button (VStr "Logout") ;;
      class_remove ".dot" "active" ;;
      dom_set ".vdash-span" "style.color" violet ;;
      add_listener LLogoutClick.

(** Lines 95-99: the logout click handler. *)
Definition logout_click : M unit :=
  remove_item user_data_key ;; navigate login_path.

(** Lines 103-128: the submit listener of the check-in form. *)
Definition submit_card (fresh : val) : M unit :=
  ci ← lift (get_prop fresh "has_checked_in") ;
  (if negb (truthy ci) then
     set_text ".show-banner" (VStr ("Check-in successful! " ++ party)) ;;
     class_add ".show-banner" "show"
   else
     co ← lift (get_prop fresh "has_checked_out") ;
     if negb (truthy co) then
       set_text ".show-banner" (VStr ("Check-Out successful! " ++ party)) ;;
       class_add ".show-banner" "show"
     else mret tt) ;;
  emit EffConfetti ;;
  set_timeout TBannerTimeout.

(** Lines 123-126: the timer callback. *)
Definition banner_timeout : M unit :=
  class_remove ".show-banner" "show" ;; emit EffFormSubmit.

(** Lines 65-128: what the [.then] body does once the record is written
    back: the name widgets, the status widgets and the submit listener. *)
Definition index_render (fresh2 : val) : M unit :=
  vd ← lift (get_prop fresh2 "vdash") ;
  dom_set ".vdash-input" "value" (value_of vd) ;;
  fn ← lift (get_prop fresh2 "full_name") ;
  first ← lift (js_split_first " " fn) ;
  set_text ".vdash-span" (VStr (first ++ ".")) ;;
  render_status fresh2 ;;
  add_listener (LSubmitCard fresh2).

(** Lines 60-131: the [.then(freshData => ...)] body. *)
Definition index_then (userData fresh : val) : M unit :=
  valid ← lift (get_prop fresh "valid") ;
  if truthy valid then
    tok ← lift (get_prop userData "token") ;
    fresh1 ← lift (set_prop fresh "token" tok) ;
    sd ← lift (get_prop userData "saved_date") ;
    fresh2 ← lift (set_prop fresh1 "saved_date" sd) ;
    set_item user_data_key (stringify_text fresh2) ;;
    index_render fresh2
  else mret tt.

(** Lines 133-136. *)
Definition index_catch : M unit :=
  emit (EffConsole "Error fetching token status:") ;; navigate login_path.

(** Lines 58-136 once the request settles. *)
Definition index_fetch_done (userData : val) (r : response) : M unit :=
  try_catch (fresh ← response_json r ; index_then userData fresh)
            (fun _ => index_catch).

(** Lines 31-36. *)
Definition index_widgets : M unit :=
  displayGreeting ;; displayDayWeek ;; displayHour ;;
  add_listener LHourTick ;; displayMonth ;; displayTodayDate.

(** Lines 43-58: the checks of the parsed record and the request. *)
Definition index_check_record (userData : val) : M unit :=
  tok ← lift (get_prop userData "token") ;
  if negb (truthy tok) then
    remove_item user_data_key ;; navigate login_path
  else
    t ← now_ms ;
    today ← lift (today_str t) ;
    sd ← lift (get_prop userData "saved_date") ;
    if negb (strict_eq_str sd today) then
      remove_item user_data_key ;; navigate login_path
    else
      tok' ← lift (get_prop userData "token") ;
      fetch (token_status_url (to_str tok')) (TIndexFetch userData).

(** Lines 38-41 and 139: read and parse the stored record. *)
Definition index_session : M unit :=
  uds ← get_item user_data_key ;
  match uds with
  | Some s =>
      if truthy (VStr s) then
        userData ← lift (parse s) ;
        index_check_record userData
      else navigate login_path
  | None => navigate login_path
  end.

(** Lines 29-140: the DOMContentLoaded handler. *)
Definition index_load : M unit := index_widgets ;; index_session.

(** The labels [render_status] writes for each status. *)
Definition button_label (s : shift_status) : string :=
  match s with NotCheckedIn => "Check In" | CheckedIn => "Check Out" | CheckedOut => "Logout" end.

Definition shift_label (s : shift_status) : string :=
  match s with
  | NotCheckedIn => "READY TO CHECK IN?"
  | CheckedIn => "CHECKED AT"
  | CheckedOut => "CHECKED OUT AT"
  end.

Definition active_label (s : shift_status) : string :=
  match s with CheckedIn => "Active" | _ => "Inactive" end.

(** The record the dashboard writes back: the server's answer [ps], with
    the token and the date of the stored record. *)
Definition refreshed (ps : list (string * val)) (tok sd : val) : val :=
  VObj (assoc_set "saved_date" sd (assoc_set "token" tok ps)).

(** ** Sample pages for the witnesses

    A dashboard opened at 2024-03-05T12:00Z (UTC offset 0) with a record
    of the day before, a record without token, and a record of the
    day. *)

Definition w_env : env := mkEnv 1709640000000 0 [] [].

Definition w_state (store : gmap string string) : St := mkSt store [] ∅ [] [] [] w_env.

Definition w_record (saved : string) : val :=
  VObj [("token", VStr "abc"); ("saved_date", VStr saved)].

Definition w_stored (v : val) : St := w_state {[user_data_key := stringify_text v]}.

Definition w_answer (valid : bool) : val :=
  VObj [("valid", VBool valid); ("full_name", VStr "Ada Lovelace"); ("vdash", VStr "V-7");
        ("has_checked_in", VBool true); ("has_checked_out", VBool false);
        ("checkin_time", VStr "08:58")].

(** ** The widgets touch only the page *)

Lemma index_widgets_io : page_only index_widgets.
Proof.
  unfold index_widgets, displayGreeting, displayDayWeek, displayHour,
    displayMonth, displayTodayDate.
  eauto 20 with checkin.
Qed.


Lemma index_load_session (st : St) :
  exists st', index_load st = index_session st' /\ io_same st st'.
Proof.
  destruct (index_widgets_io st) as (st' & Hw & Hio).
  exists st'. split; [|exact Hio]. unfold index_load. cbv [mbind M_bind]. now rewrite Hw.
Qed.

(** ** The synchronous checks of [index_load] *)

Section StoredRecord.
Variable st : St.
Variable s : string.
Variable userData : val.
Hypothesis Hstored : st_store st !! user_data_key = Some s.
Hypothesis Hnonempty : s <> "".
Hypothesis Hparse : parse s = inl userData.

Lemma index_session_parsed (st' : St) :
  io_same st st' -> index_session st' = index_check_record userData st'.
Proof.
  intros (Hs & _ & _ & _). unfold index_session.
  cbv [mbind M_bind get_item gets lift]. rewrite Hs, Hstored.
  apply String.eqb_neq in Hnonempty. cbn. rewrite Hnonempty, Hparse. reflexivity.
Qed.

Variable tok : val.
Hypothesis Htok : get_prop userData "token" = inl tok.

(** C2: a stored record whose token is missing or falsy is deleted and
    the page goes to the login; no request is sent. *)
Theorem index_load_no_token :
  truthy tok = false ->
  let '(st', r) := index_load st in
  r = inl tt /\ st_store st' = delete user_data_key (st_store st) /\
  st_trace st' = (st_trace st ++ [EffNavigate login_path])%list /\
  st_tasks st' = st_tasks st.
Proof.
  intros Hf. destruct (index_load_session st) as (st1 & -> & Hio).
  rewrite (index_session_parsed st1 Hio). unfold index_check_record.
  destruct Hio as (Hs & Hk & Htr & He). destruct st1; simpl in *; subst.
  run_m. rewrite Htok, Hf. simpl. auto.
Qed.

Variable today : string.
Hypothesis Htoday : today_str (env_now (st_env st)) = inl today.
Variable sd : val.
Hypothesis Hsd : get_prop userData "saved_date" = inl sd.

(** C1: a record saved on another UTC day than today's (its
    [saved_date] is not the string [today]) is deleted and the page goes
    to the login; no request is sent. *)
Theorem index_load_stale :
  truthy tok = true -> strict_eq_str sd today = false ->
  let '(st', r) := index_load st in
  r = inl tt /\ st_store st' = delete user_data_key (st_store st) /\
  st_trace st' = (st_trace st ++ [EffNavigate login_path])%list /\
  st_tasks st' = st_tasks st.
Proof.
  intros Ht Hd. destruct (index_load_session st) as (st1 & -> & Hio).
  rewrite (index_session_parsed st1 Hio). unfold index_check_record.
  destruct Hio as (Hs & Hk & Htr & He). destruct st1; simpl in *; subst.
  run_m. rewrite Htok, Ht. simpl. rewrite Htoday, Hsd, Hd. simpl. auto.
Qed.

(** C3: a record with a token and today's date is kept as it is, and
    exactly one token-status request goes out, carrying the token as
    text, with the continuation waiting for its answer. *)
Theorem index_load_fresh :
  truthy tok = true -> strict_eq_str sd today = true ->
  let '(st', r) := index_load st in
  r = inl tt /\ st_store st' = st_store st /\
  st_trace st' = (st_trace st ++ [EffFetch (token_status_url (to_str tok))])%list /\
  st_tasks st' = (st_tasks st ++ [TIndexFetch userData])%list.
Proof.
  intros Ht Hd. destruct (index_load_session st) as (st1 & -> & Hio).
  rewrite (index_session_parsed st1 Hio). unfold index_check_record.
  destruct Hio as (Hs & Hk & Htr & He). destruct st1; simpl in *; subst.
  run_m. rewrite Htok, Ht. simpl. rewrite Htoday, Hsd, Hd. simpl. auto.
Qed.
(** ** The outcome of the checks, as handlers run on the page *)

(** The handler after the widgets, when the token is falsy. *)
Lemma index_load_no_token_eq :
  truthy tok = false ->
  exists st1, io_same st st1 /\
    index_load st = (remove_item user_data_key ;; navigate login_path) st1.
Proof.
  intros Hf. destruct (index_load_session st) as (st1 & -> & Hio).
  exists st1. split; [exact Hio|]. rewrite (index_session_parsed st1 Hio).
  unfold index_check_record. cbv [mbind M_bind lift]. now rewrite Htok, Hf.
Qed.

(** The checks once the token is truthy: the outcome depends on the date. *)
Lemma index_load_checked (k : M unit) :
  truthy tok = true ->
  (forall st1, io_same st st1 ->
     (if negb (strict_eq_str sd today) then remove_item user_data_key ;; navigate login_path
      else tok' ← lift (get_prop userData "token") ;
           fetch (token_status_url (to_str tok')) (TIndexFetch userData)) st1 = k st1) ->
  exists st1, io_same st st1 /\ index_load st = k st1.
Proof.
  intros Ht Hk. destruct (index_load_session st) as (st1 & -> & Hio).
  exists st1. split; [exact Hio|]. rewrite (index_session_parsed st1 Hio), <- (Hk st1 Hio).
  destruct Hio as (_ & _ & _ & He). unfold index_check_record.
  cbv [mbind M_bind lift now_ms gets]. rewrite Htok. cbv beta iota.
  rewrite Ht. cbv [negb]. rewrite He, Htoday. cbv beta iota. now rewrite Hsd.
Qed.

Lemma index_load_stale_eq :
  truthy tok = true -> strict_eq_str sd today = false ->
  exists st1, io_same st st1 /\
    index_load st = (remove_item user_data_key ;; navigate login_path) st1.
Proof. intros Ht Hd. apply index_load_checked; [exact Ht|]. now rewrite Hd. Qed.

Lemma index_load_fresh_eq :
  truthy tok = true -> strict_eq_str sd today = true ->
  exists st1, io_same st st1 /\
    index_load st = fetch (token_status_url (to_str tok)) (TIndexFetch userData) st1.
Proof.
  intros Ht Hd. apply index_load_checked; [exact Ht|].
  intros st1 _. rewrite Hd. cbv [mbind M_bind lift]. now rewrite Htok.
Qed.

End StoredRecord.

(** C13: a stored record that is not JSON, or whose token cannot be
    read (the JSON text [null]), makes the handler throw before any
    check: the exception escapes, the record stays in storage, and the
    page does not go to the login. *)
Theorem index_load_malformed (st : St) (s : string) (e : exn) :
  st_store st !! user_data_key = Some s -> s <> "" ->
  (parse s = inr e \/ exists u, parse s = inl u /\ get_prop u "token" = inr e) ->
  exists st', index_load st = (st', inr e) /\
    st_store st' = st_store st /\ st_trace st' = st_trace st /\ st_tasks st' = st_tasks st.
Proof.
  intros Hs Hne Hp. destruct (index_load_session st) as (st1 & -> & (Hs1 & Hk & Htr & He)).
  apply String.eqb_neq in Hne. unfold index_session, index_check_record.
  cbv [mbind M_bind get_item gets lift truthy negb]. rewrite Hs1, Hs, Hne.
  destruct Hp as [Hp | (u & Hp & Ht)]; rewrite Hp; [|rewrite Ht];
    (eexists; split; [reflexivity | auto]).
Qed.

(** ** The answer to the token-status request *)

Lemma render_status_page_only (ps : list (string * val)) : page_only (render_status (VObj ps)).
Proof.
  unfold render_status. apply page_only_read_obj. intros ci.
  destruct (negb (truthy ci)); [eauto 20 with checkin|].
  apply page_only_read_obj. intros co.
  destruct (negb (truthy co)); eauto 20 with checkin.
Qed.

(** The rendering after the write-back, on an answer whose [full_name]
    is a string: it leaves storage, requests and navigation alone and
    installs the submit listener. *)
Lemma index_render_run (ps : list (string * val)) (name : string) (st : St) :
  field ps "full_name" = VStr name ->
  exists st', index_render (VObj ps) st = (st', inl tt) /\
    st_store st' = st_store st /\ st_trace st' = st_trace st /\ st_tasks st' = st_tasks st /\
    LSubmitCard (VObj ps) ∈ st_listeners st'.
Proof.
  intros Hname. destruct st. unfold index_render. run_m. rewrite !get_prop_obj, Hname. simp_m.
  match goal with
  | |- context [render_status (VObj ?l) ?s0] =>
      destruct (render_status_page_only l s0) as (st3 & H3 & (Hs3 & Hk3 & Htr3 & He3));
      rewrite H3
  end.
  destruct st3; simp_m; subst. eexists; split; [reflexivity|]. repeat split; auto. set_solver.
Qed.

Section Answer.
Variable st : St.
Variable userData : val.

(** C6: when the request fails or its body is not JSON, the [.catch]
    logs and sends the page to the login; the stored record is left
    as it is. *)
Theorem index_fetch_done_error (r : response) :
  (r = RNetError \/ exists b e, r = RBody b /\ parse b = inr e) ->
  let '(st', res) := index_fetch_done userData r st in
  res = inl tt /\ st_store st' = st_store st /\ st_tasks st' = st_tasks st /\
  st_trace st' = (st_trace st ++ [EffConsole "Error fetching token status:";
                                  EffNavigate login_path])%list.
Proof.
  intros [-> | (b & e & -> & Hp)]; destruct st; unfold index_fetch_done, response_json,
    index_catch; run_m; [|rewrite Hp]; simp_m; rewrite <- app_assoc; auto.
Qed.

Variable b : string.
Variable fresh : val.
Hypothesis Hbody : parse b = inl fresh.
Variable valid : val.
Hypothesis Hvalid : get_prop fresh "valid" = inl valid.

(** C5: when the server answers that the token is not valid, nothing
    happens at all: the stale record stays in storage and the page
    stays where it is, with no redirect. *)
Theorem index_fetch_done_invalid :
  truthy valid = false -> index_fetch_done userData (RBody b) st = (st, inl tt).
Proof.
  intros Hf. destruct st. unfold index_fetch_done, response_json, index_then.
  run_m. rewrite Hbody. simp_m. rewrite Hvalid, Hf. reflexivity.
Qed.

Variable ps : list (string * val).
Hypothesis Hobj : fresh = VObj ps.
Variables tok sd : val.
Hypothesis Htok : get_prop userData "token" = inl tok.
Hypothesis Hsd : get_prop userData "saved_date" = inl sd.

Variable name : string.
Hypothesis Hname : field ps "full_name" = VStr name.

(** C4: when the server confirms the token, the record is written
    back as the answer carrying the stored token and [saved_date], no
    navigation happens, and the check-in form gets its submit
    listener. *)
Theorem index_fetch_done_valid :
  truthy valid = true ->
  let '(st', res) := index_fetch_done userData (RBody b) st in
  res = inl tt /\
  st_store st' = <[user_data_key := stringify_text (refreshed ps tok sd)]> (st_store st) /\
  st_trace st' = st_trace st /\ st_tasks st' = st_tasks st /\
  LSubmitCard (refreshed ps tok sd) ∈ st_listeners st'.
Proof.
  intros Ht. subst fresh. destruct st. unfold index_fetch_done, response_json, index_then.
  run_m. rewrite Hbody. simp_m. rewrite Hvalid, Ht, Htok. simp_m. rewrite Hsd.
  simp_m. rewrite !set_prop_obj. simp_m.
  match goal with
  | |- context [index_render (VObj ?l) ?s0] =>
      destruct (index_render_run l name s0) as (st3 & H3 & Hs3 & Htr3 & Hk3 & Hl3);
      [ rewrite (field_set_ne _ "saved_date" "full_name"),
          (field_set_ne _ "token" "full_name") by discriminate; exact Hname
      | rewrite H3 ]
  end.
  unfold refreshed, user_data_key in *. simp_m. rewrite Hs3, Htr3, Hk3. auto.
Qed.
End Answer.

(** A confirmation whose [full_name] is a string, as one step: the
    record is written back with the stored token and date, nothing else
    leaves the page. *)
Lemma index_fetch_done_confirmed (st : St) (userData : val) (b : string)
    (ps : list (string * val)) (tok sd : val) (name : string) :
  parse b = inl (VObj ps) -> truthy (field ps "valid") = true ->
  get_prop userData "token" = inl tok -> get_prop userData "saved_date" = inl sd ->
  field ps "full_name" = VStr name ->
  exists st', index_fetch_done userData (RBody b) st = (st', inl tt) /\
    st_store st' = <[user_data_key := stringify_text (refreshed ps tok sd)]> (st_store st) /\
    st_trace st' = st_trace st /\ st_tasks st' = st_tasks st.
Proof.
  intros Hb Hv Htok Hsd Hname. destruct st.
  unfold index_fetch_done, response_json, index_then.
  run_m. rewrite Hb. simp_m. rewrite get_prop_obj, Hv, Htok. simp_m. rewrite Hsd.
  simp_m. rewrite !set_prop_obj. simp_m.
  match goal with
  | |- context [index_render (VObj ?l) ?s0] =>
      destruct (index_render_run l name s0) as (st3 & H3 & Hs3 & Htr3 & Hk3 & _);
      [ rewrite (field_set_ne _ "saved_date" "full_name"),
          (field_set_ne _ "token" "full_name") by discriminate; exact Hname
      | rewrite H3 ]
  end.
  eexists; split; [reflexivity|]. unfold refreshed, user_data_key. simp_m.
  rewrite Hs3, Htr3, Hk3. auto.
Qed.

(** C32: when the server confirms the token but its answer carries no
    string [full_name], the record is written back first, then
    [freshData.full_name.split(' ')] throws a TypeError and the [.catch]
    sends the page to the login: the dashboard stores a refreshed record
    and leaves it in the same step. *)
Theorem index_fetch_done_no_name (st : St) (userData : val) (b : string)
    (ps : list (string * val)) (tok sd : val) :
  parse b = inl (VObj ps) -> truthy (field ps "valid") = true ->
  get_prop userData "token" = inl tok -> get_prop userData "saved_date" = inl sd ->
  (forall name, field ps "full_name" <> VStr name) ->
  let '(st', res) := index_fetch_done userData (RBody b) st in
  res = inl tt /\
  st_store st' = <[user_data_key := stringify_text (refreshed ps tok sd)]> (st_store st) /\
  st_tasks st' = st_tasks st /\
  st_trace st' = (st_trace st ++ [EffConsole "Error fetching token status:";
                                  EffNavigate login_path])%list.
Proof.
  intros Hb Hv Htok Hsd Hn. destruct st.
  unfold index_fetch_done, response_json, index_then, index_render, index_catch.
  run_m. rewrite Hb. simp_m. rewrite get_prop_obj, Hv, Htok. simp_m. rewrite Hsd.
  simp_m. rewrite !set_prop_obj. simp_m. rewrite !get_prop_obj.
  rewrite (field_set_ne _ "saved_date" "full_name"),
    (field_set_ne _ "token" "full_name") by discriminate.
  destruct (field ps "full_name") eqn:E; try (exfalso; eapply Hn; reflexivity);
    simp_m; rewrite <- app_assoc; auto.
Qed.

(** ** What the dashboard writes back *)

Lemma refreshed_wf (ps : list (string * val)) (tok sd : val) :
  wf (VObj ps) = true -> wf tok = true -> wf sd = true -> wf (refreshed ps tok sd) = true.
Proof. intros Hw Ht Hs. apply wf_assoc_set; [apply wf_assoc_set|]; auto. Qed.

(** The written-back record carries the stored token and date. *)
Lemma refreshed_fields (ps : list (string * val)) (tok sd : val) :
  get_prop (refreshed ps tok sd) "token" = inl tok /\
  get_prop (refreshed ps tok sd) "saved_date" = inl sd.
Proof.
  unfold refreshed. rewrite !get_prop_obj, field_set_eq, field_set_ne, field_set_eq
    by discriminate. auto.
Qed.

(** ** The shift-status widgets *)

(** C7: [render_status] shows the button label, shift label and
    activity label of the status decided by [status_of] from the two
    flags; the dot is active exactly when checked in; the logout handler
    is installed exactly when checked out.  In particular the
    combination [has_checked_in] false, [has_checked_out] true renders as
    not checked in, silently. *)
Theorem render_status_spec (ps : list (string * val)) (st : St) :
  let s := status_of (field ps "has_checked_in") (field ps "has_checked_out") in
  exists st', render_status (VObj ps) st = (st', inl tt) /\
  dom_get (st_dom st') sel_button "textContent" = Some (button_label s) /\
  dom_get (st_dom st') ".shift-label" "textContent" = Some (shift_label s) /\
  dom_get (st_dom st') ".label-active" "textContent" = Some (active_label s) /\
  ((".dot", "active") ∈ st_classes st' <-> s = CheckedIn) /\
  (LLogoutClick ∈ st_listeners st' <-> s = CheckedOut \/ LLogoutClick ∈ st_listeners st).
Proof.
  unfold render_status, status_of. cbv [mbind M_bind lift]. rewrite !get_prop_obj.
  destruct (truthy (field ps "has_checked_in")); cbv [negb];
    [destruct (truthy (field ps "has_checked_out")); cbv [negb]|].
  all: eexists; split; [reflexivity|].
  all: repeat split; first [reflexivity | set_solver].
Qed.

(** ** The check-in form *)

(** A submission shows the banner (or nothing, once checked out), fires
    the confetti and arms the 1200 ms timer. *)
Lemma banner_timeout_run (st : St) :
  banner_timeout st =
  (with_trace (st_trace st ++ [EffFormSubmit])
     (with_classes (st_classes st ∖ {[(".show-banner", "show")]}) st), inl tt).
Proof. reflexivity. Qed.

(** C36: the submit listener has no guard for the checked-out state: a
    submission of the check-in form in that state still fires the
    confetti and arms the timer, which posts the form; no banner is shown
    and the record is not touched.  With the markup's single submit
    button a user rarely gets there: its click (and the Enter key, which
    clicks the default button) runs the Logout handler, which cancels the
    submission; the theorem is about what the listener does once a
    submission reaches it. *)
Theorem submit_checked_out_posts (ps : list (string * val)) (st : St) :
  truthy (field ps "has_checked_in") = true -> truthy (field ps "has_checked_out") = true ->
  exists st1, submit_card (VObj ps) st = (st1, inl tt) /\
    st_dom st1 = st_dom st /\ st_classes st1 = st_classes st /\ st_store st1 = st_store st /\
    st_tasks st1 = (st_tasks st ++ [TBannerTimeout])%list /\
    st_trace (fst (banner_timeout st1)) = (st_trace st ++ [EffConfetti; EffFormSubmit])%list.
Proof.
  intros Hci Hco. unfold submit_card. rewrite !get_prop_obj, bind_lift_inl. cbv beta.
  rewrite Hci. cbv [negb mbind M_bind lift]. rewrite Hco.
  eexists; split; [reflexivity|]. rewrite banner_timeout_run. destruct st. cbn.
  rewrite <- app_assoc. auto.
Qed.

Lemma submit_card_run (ps : list (string * val)) (st : St) :
  exists d c, submit_card (VObj ps) st =
    (with_tasks (st_tasks st ++ [TBannerTimeout])
       (with_trace (st_trace st ++ [EffConfetti]) (with_classes c (with_dom d st))), inl tt).
Proof.
  unfold submit_card. rewrite !get_prop_obj, bind_lift_inl. cbv beta.
  destruct (negb (truthy (field ps "has_checked_in"))).
  - eexists _, _. reflexivity.
  - cbv [mbind M_bind lift].
    destruct (negb (truthy (field ps "has_checked_out"))); eexists _, _; reflexivity.
Qed.

(** ** Witnesses *)

Lemma index_load_stale_witness :
  let st := w_stored (w_record "2024-03-04") in
  let '(st', r) := index_load st in
  r = inl tt /\ st_store st' = delete user_data_key (st_store st) /\
  st_trace st' = (st_trace st ++ [EffNavigate login_path])%list /\
  st_tasks st' = st_tasks st.
Proof.
  eapply index_load_stale with (s := stringify_text (w_record "2024-03-04"))
    (userData := w_record "2024-03-04") (tok := VStr "abc") (today := "2024-03-05")
    (sd := VStr "2024-03-04"); discharge.
Defined.

Lemma index_load_no_token_witness :
  let st := w_stored (VObj [("saved_date", VStr "2024-03-05")]) in
  let '(st', r) := index_load st in
  r = inl tt /\ st_store st' = delete user_data_key (st_store st) /\
  st_trace st' = (st_trace st ++ [EffNavigate login_path])%list /\
  st_tasks st' = st_tasks st.
Proof.
  eapply index_load_no_token with (s := stringify_text (VObj [("saved_date", VStr "2024-03-05")]))
    (userData := VObj [("saved_date", VStr "2024-03-05")]) (tok := VUndef); discharge.
Defined.

Lemma index_load_fresh_witness :
  let st := w_stored (w_record "2024-03-05") in
  let '(st', r) := index_load st in
  r = inl tt /\ st_store st' = st_store st /\
  st_trace st' = (st_trace st ++ [EffFetch (token_status_url "abc")])%list /\
  st_tasks st' = (st_tasks st ++ [TIndexFetch (w_record "2024-03-05")])%list.
Proof.
  eapply index_load_fresh with (s := stringify_text (w_record "2024-03-05"))
    (userData := w_record "2024-03-05") (tok := VStr "abc") (today := "2024-03-05")
    (sd := VStr "2024-03-05"); discharge.
Defined.

Lemma index_load_malformed_witness :
  let st := w_state {[user_data_key := "null"]} in
  exists st', index_load st = (st', inr (TypeError "Cannot read properties of null (reading 'token')")) /\
    st_store st' = st_store st /\ st_trace st' = st_trace st /\ st_tasks st' = st_tasks st.
Proof.
  apply index_load_malformed with (s := "null"); [reflexivity | discriminate |].
  right. exists VNull. split; reflexivity.
Defined.

Lemma index_fetch_done_error_witness :
  let st := w_stored (w_record "2024-03-05") in
  let '(st', res) := index_fetch_done (w_record "2024-03-05") (RBody "<html>") st in
  res = inl tt /\ st_store st' = st_store st /\ st_tasks st' = st_tasks st /\
  st_trace st' = (st_trace st ++ [EffConsole "Error fetching token status:";
                                  EffNavigate login_path])%list.
Proof.
  apply index_fetch_done_error. right. do 2 eexists. split; [reflexivity|].
  vm_compute. reflexivity.
Defined.

Lemma index_fetch_done_invalid_witness :
  let st := w_stored (w_record "2024-03-05") in
  index_fetch_done (w_record "2024-03-05") (RBody (stringify_text (w_answer false))) st = (st, inl tt).
Proof.
  eapply index_fetch_done_invalid with (fresh := w_answer false) (valid := VBool false);
    discharge.
Defined.

Lemma index_fetch_done_valid_witness :
  let st := w_stored (w_record "2024-03-05") in
  let ps := [("valid", VBool true); ("full_name", VStr "Ada Lovelace"); ("vdash", VStr "V-7");
             ("has_checked_in", VBool true); ("has_checked_out", VBool false);
             ("checkin_time", VStr "08:58")] in
  let '(st', res) := index_fetch_done (w_record "2024-03-05") (RBody (stringify_text (w_answer true))) st in
  res = inl tt /\
  st_store st' = <[user_data_key := stringify_text (refreshed ps (VStr "abc") (VStr "2024-03-05"))]> (st_store st) /\
  st_trace st' = st_trace st /\ st_tasks st' = st_tasks st /\
  LSubmitCard (refreshed ps (VStr "abc") (VStr "2024-03-05")) ∈ st_listeners st'.
Proof.
  eapply index_fetch_done_valid with (fresh := w_answer true) (valid := VBool true)
    (name := "Ada Lovelace"); discharge.
Defined.

(** A confirmation without [full_name]. *)
Lemma index_fetch_done_no_name_witness :
  let st := w_stored (w_record "2024-03-05") in
  let ps := [("valid", VBool true); ("vdash", VStr "V-7")] in
  let '(st', res) := index_fetch_done (w_record "2024-03-05") (RBody (stringify_text (VObj ps))) st in
  res = inl tt /\
  st_store st' = <[user_data_key := stringify_text (refreshed ps (VStr "abc") (VStr "2024-03-05"))]> (st_store st) /\
  st_tasks st' = st_tasks st /\
  st_trace st' = (st_trace st ++ [EffConsole "Error fetching token status:";
                                  EffNavigate login_path])%list.
Proof.
  apply index_fetch_done_no_name; [vm_compute; reflexivity | reflexivity..|].
  intros name. vm_compute. discriminate.
Defined.

(** A dashboard answered with a checked-out shift. *)
Lemma submit_checked_out_posts_witness :
  let ps := [("has_checked_in", VBool true); ("has_checked_out", VBool true)] in
  let st := w_stored (w_record "2024-03-05") in
  exists st1, submit_card (VObj ps) st = (st1, inl tt) /\
    st_dom st1 = st_dom st /\ st_classes st1 = st_classes st /\ st_store st1 = st_store st /\
    st_tasks st1 = (st_tasks st ++ [TBannerTimeout])%list /\
    st_trace (fst (banner_timeout st1)) = (st_trace st ++ [EffConfetti; EffFormSubmit])%list.
Proof. apply submit_checked_out_posts; reflexivity. Defined.
