(* ===== verification/Login.v ===== *)
(** * The login page (src/static/script/loginScript.js)

    - [toggle_click] is the click listener of each [.toggle-password]
      icon (lines 8-15): it flips the token field between [password] and
      [text] and toggles [is-active] on every icon.
    - [login_submit] is the submit listener of [.login-form] (lines
      20-31 and the [fetch] of line 33): it trims the field, alerts on an
      empty token, otherwise sends the token-status request.
    - [login_fetch_done] is the promise chain once the request settles
      (lines 33-49): [response.json()], the [.then(data => ...)] body
      [login_then] and the [.catch]. *)

From stdpp Require Import base gmap strings list.
From Stdlib Require Import ZArith Ascii String.
From S2P Require Import Prelude JsValue Json Clock Browser.

Local Open Scope string_scope.

(** The [i]-th element of [document.querySelectorAll('.toggle-password')]. *)
Definition toggle_sel (i : nat) : string := ".toggle-password#" ++ show_N (N.of_nat i).

(** [toggles.forEach(svg => svg.classList.toggle('is-active'))] over
    the [n] icons of the page. *)
Fixpoint toggle_all (i n : nat) : M unit :=
  match n with
  | O => mret tt
  | S n' => class_toggle (toggle_sel i) "is-active" ;; toggle_all (S i) n'
  end.

(** Lines 8-15, for a page with [n] toggle icons. *)
Definition toggle_click (n : nat) : M unit :=
  ty ← dom_read ".token-field" "type" ;
  let isPassword := String.eqb ty "password" in
  dom_set ".token-field" "type" (if isPassword then "text" else "password") ;;
  toggle_all 0 n.

Definition home_path : string := "/".

(** Lines 22-33. *)
Definition login_submit : M unit :=
  raw ← dom_read ".token-field" "value" ;
  let token := trim raw in
  if negb (truthy (VStr token)) then alert "Please enter your personal token!"
  else fetch (token_status_url token) (TLoginFetch token).

(** Lines 35-45: the [.then(data => ...)] body. *)
Definition login_then (token : string) (data : val) : M unit :=
  console data ;;
  valid ← lift (get_prop data "valid") ;
  if truthy valid then
    data1 ← lift (set_prop data "token" (VStr token)) ;
    t ← now_ms ;
    today ← lift (today_str t) ;
    data2 ← lift (set_prop data1 "saved_date" (VStr today)) ;
    set_item user_data_key (stringify_text data2) ;;
    navigate home_path
  else alert "Bad token! Try again.".

(** Lines 46-49. *)
Definition login_catch : M unit :=
  emit (EffConsole "Error fetching token status:") ;;
  alert "An error occurred. Please try again later.".

(** Lines 33-49 once the request settles. *)
Definition login_fetch_done (token : string) (r : response) : M unit :=
  try_catch (data ← response_json r ; login_then token data) (fun _ => login_catch).

(** The record the login writes: the server's answer [ps] with the
    typed token and today's date. *)
Definition login_record (ps : list (string * val)) (token today : string) : val :=
  VObj (assoc_set "saved_date" (VStr today) (assoc_set "token" (VStr token) ps)).

(** Lines 7-8: one click listener per [.toggle-password] icon. *)
Fixpoint add_toggles (n : nat) : M unit :=
  match n with
  | O => mret tt
  | S n' => add_listener LToggle ;; add_toggles n'
  end.

(** Lines 1-20: the DOMContentLoaded handler of the login page, for a
    page with [n] toggle icons. *)
Definition login_load (n : nat) : M unit :=
  add_toggles n ;; add_listener LLoginSubmit.

(** The [is-active] classes of the icons [i], ..., [i + n - 1]. *)
Definition icon_classes (i n : nat) : gset (string * string) :=
  list_to_set ((fun j => (toggle_sel j, "is-active")) <$> seq i n).

(** [classList.toggle] on each element of [Y]: the symmetric difference. *)
Definition flip (X Y : gset (string * string)) : gset (string * string) := (X ∖ Y) ∪ (Y ∖ X).

(** ** Sample pages for the witnesses

    The login page at 2024-03-05T12:00Z with the token field holding
    [value]. *)

Definition w_login (value : string) : St :=
  mkSt ∅ [(".token-field", "value", value); (".token-field", "type", "password")] ∅ [] [] []
       (mkEnv 1709640000000 0 [] []).

Definition w_login_answer (valid : bool) : list (string * val) :=
  [("valid", VBool valid); ("full_name", VStr "Ada Lovelace")].

(** ** Loading the page *)

Lemma add_toggles_run (n : nat) (st : St) :
  add_toggles n st = (with_listeners (st_listeners st ++ repeat LToggle n) st, inl tt).
Proof.
  revert st. induction n as [|n IH]; intros st; simpl.
  - rewrite app_nil_r. now destruct st.
  - cbv [mbind M_bind add_listener modify]. rewrite IH. cbn.
    now rewrite <- app_assoc.
Qed.

Lemma login_load_run (n : nat) (st : St) :
  login_load n st =
  (with_listeners (st_listeners st ++ repeat LToggle n ++ [LLoginSubmit]) st, inl tt).
Proof.
  unfold login_load. cbv [mbind M_bind]. rewrite add_toggles_run.
  cbv [add_listener modify]. cbn. now rewrite <- app_assoc.
Qed.

(** ** The password toggle *)

Lemma toggle_sel_inj (i j : nat) : toggle_sel i = toggle_sel j -> i = j.
Proof. unfold toggle_sel. intros H. apply str_app_inv_l, show_N_inj in H. lia. Qed.

Lemma flip_empty (X : gset (string * string)) : flip X ∅ = X.
Proof. apply leibniz_equiv. unfold flip. set_solver. Qed.

Lemma flip_remove (X Y : gset (string * string)) (e : string * string) :
  e ∉ Y -> e ∈ X -> flip (X ∖ {[e]}) Y = flip X ({[e]} ∪ Y).
Proof. intros. apply leibniz_equiv. unfold flip. set_solver. Qed.

Lemma flip_add (X Y : gset (string * string)) (e : string * string) :
  e ∉ Y -> e ∉ X -> flip ({[e]} ∪ X) Y = flip X ({[e]} ∪ Y).
Proof. intros. apply leibniz_equiv. unfold flip. set_solver. Qed.

Lemma flip_flip (X Y : gset (string * string)) : flip (flip X Y) Y = X.
Proof.
  apply leibniz_equiv. intros x. unfold flip. set_unfold.
  destruct (decide (x ∈ X)), (decide (x ∈ Y)); tauto.
Qed.

Lemma icon_classes_S (i n : nat) :
  icon_classes i (S n) = {[(toggle_sel i, "is-active")]} ∪ icon_classes (S i) n.
Proof. reflexivity. Qed.

Lemma icon_classes_notin (i n : nat) : (toggle_sel i, "is-active") ∉ icon_classes (S i) n.
Proof.
  unfold icon_classes. rewrite elem_of_list_to_set, list_elem_of_fmap.
  intros (j & Hj & Hin). assert (Hij : toggle_sel i = toggle_sel j) by congruence.
  apply toggle_sel_inj in Hij.
  apply elem_of_seq in Hin. lia.
Qed.

Lemma toggle_all_run (i n : nat) (st : St) :
  toggle_all i n st = (with_classes (flip (st_classes st) (icon_classes i n)) st, inl tt).
Proof.
  revert i st. induction n as [|n IH]; intros i st.
  - unfold icon_classes. cbn. rewrite flip_empty. now destruct st.
  - cbn [toggle_all]. cbv [mbind M_bind class_toggle gets]. pose proof (icon_classes_notin i n) as Hn.
    rewrite icon_classes_S.
    destruct (decide _) as [Hin|Hout]; cbv [class_remove class_add modify]; rewrite IH;
      destruct st as [s1 s2 s3 s4 s5 s6 s7]; unfold with_classes; cbn [st_classes];
      [rewrite flip_remove | rewrite flip_add]; auto.
Qed.

Lemma toggle_click_run (n : nat) (st : St) (ty : string) :
  dom_get (st_dom st) ".token-field" "type" = Some ty ->
  toggle_click n st =
  (with_classes (flip (st_classes st) (icon_classes 0 n))
     (with_dom ((".token-field", "type", if String.eqb ty "password" then "text" else "password")
                :: st_dom st) st), inl tt).
Proof.
  intros Hty. unfold toggle_click, dom_read. cbv [mbind M_bind gets dom_set modify].
  rewrite Hty, toggle_all_run. reflexivity.
Qed.

(** C22: a click on a toggle icon flips the token field between
    [password] and [text] and toggles [is-active] on every icon; a second
    click restores both the field type and the class lists. *)
Theorem toggle_click_twice (n : nat) (st : St) (ty : string) :
  dom_get (st_dom st) ".token-field" "type" = Some ty -> ty = "password" \/ ty = "text" ->
  exists st1 st2, toggle_click n st = (st1, inl tt) /\ toggle_click n st1 = (st2, inl tt) /\
    dom_get (st_dom st1) ".token-field" "type" =
      Some (if String.eqb ty "password" then "text" else "password") /\
    st_classes st1 = flip (st_classes st) (icon_classes 0 n) /\
    dom_get (st_dom st2) ".token-field" "type" = Some ty /\
    st_classes st2 = st_classes st /\ st_store st2 = st_store st /\ st_trace st2 = st_trace st.
Proof.
  intros Hty Hpt. rewrite (toggle_click_run n st ty Hty).
  eexists _, _. split; [reflexivity|].
  rewrite (toggle_click_run n _ (if String.eqb ty "password" then "text" else "password"))
    by reflexivity.
  split; [reflexivity|]. cbn. rewrite flip_flip.
  destruct Hpt as [-> | ->]; cbn; auto 7.
Qed.

(** ** Submitting the form *)

Section Submit.
Variable st : St.
Variable raw : string.
Hypothesis Hraw : dom_get (st_dom st) ".token-field" "value" = Some raw.

(** A blank token: the handler is the alert. *)
Lemma login_submit_blank_eq :
  all_space raw = true -> login_submit st = alert "Please enter your personal token!" st.
Proof.
  intros Hb. apply trim_empty_iff in Hb.
  unfold login_submit, dom_read. cbv [mbind M_bind gets]. now rewrite Hraw, Hb.
Qed.

(** A non-blank token: the handler is the request. *)
Lemma login_submit_eq :
  all_space raw = false ->
  login_submit st = fetch (token_status_url (trim raw)) (TLoginFetch (trim raw)) st.
Proof.
  intros Hb. assert (Hne : trim raw <> "") by (rewrite trim_empty_iff; congruence).
  apply String.eqb_neq in Hne.
  unfold login_submit, dom_read. cbv [mbind M_bind gets truthy negb]. now rewrite Hraw, Hne.
Qed.

(** C8: an empty or all-blank token (["   "]) is refused on the spot
    with an alert: no request goes out and storage is untouched. *)
Theorem login_submit_blank :
  all_space raw = true ->
  exists st', login_submit st = (st', inl tt) /\
    st_store st' = st_store st /\ st_tasks st' = st_tasks st /\
    st_trace st' = (st_trace st ++ [EffAlert "Please enter your personal token!"])%list.
Proof.
  intros Hb. apply trim_empty_iff in Hb.
  unfold login_submit, dom_read. cbv [mbind M_bind gets]. rewrite Hraw, Hb.
  eexists; split; [reflexivity | repeat split].
Qed.

(** C9: a token with a non-blank character is sent trimmed to the
    token-status endpoint, and only there; storage is untouched. *)
Theorem login_submit_sends :
  all_space raw = false ->
  exists st', login_submit st = (st', inl tt) /\
    st_store st' = st_store st /\
    st_tasks st' = (st_tasks st ++ [TLoginFetch (trim raw)])%list /\
    st_trace st' = (st_trace st ++ [EffFetch (token_status_url (trim raw))])%list.
Proof.
  intros Hb. rewrite (login_submit_eq Hb).
  eexists; split; [reflexivity | repeat split].
Qed.
End Submit.

(** ** The answer *)

Section Answer.
Variable st : St.
Variable token : string.

(** C12: when the request fails or the body is not JSON, the user
    gets the retry alert and storage is untouched. *)
Theorem login_fetch_done_error (r : response) :
  (r = RNetError \/ exists b e, r = RBody b /\ parse b = inr e) ->
  exists st', login_fetch_done token r st = (st', inl tt) /\
    st_store st' = st_store st /\ st_tasks st' = st_tasks st /\
    st_trace st' = (st_trace st ++ [EffConsole "Error fetching token status:";
                                   EffAlert "An error occurred. Please try again later."])%list.
Proof.
  intros [-> | (b & e & -> & Hp)]; unfold login_fetch_done, response_json, login_catch;
    cbv [mbind M_bind try_catch lift throw]; [|rewrite Hp];
    (eexists; split; [reflexivity | repeat split]); cbn; now rewrite <- app_assoc.
Qed.

Variable b : string.
Variable data : val.
Hypothesis Hbody : parse b = inl data.
Variable valid : val.
Hypothesis Hvalid : get_prop data "valid" = inl valid.

(** C11: an answer whose [valid] is falsy leaves storage untouched,
    stays on the page and alerts the rejection. *)
Theorem login_fetch_done_invalid :
  truthy valid = false ->
  exists st', login_fetch_done token (RBody b) st = (st', inl tt) /\
    st_store st' = st_store st /\ st_tasks st' = st_tasks st /\
    st_trace st' = (st_trace st ++ [EffConsole (to_str data); EffAlert "Bad token! Try again."])%list.
Proof.
  intros Hf. unfold login_fetch_done, response_json, login_then.
  cbv [mbind M_bind try_catch lift]. rewrite Hbody. cbv [console emit modify].
  rewrite Hvalid, Hf. eexists; split; [reflexivity | repeat split].
  cbn. now rewrite <- app_assoc.
Qed.

Variable ps : list (string * val).
Hypothesis Hobj : data = VObj ps.
Variable today : string.
Hypothesis Htoday : today_str (env_now (st_env st)) = inl today.

(** A confirming answer: the handler logs, stores the record and navigates. *)
Lemma login_fetch_done_valid_eq :
  truthy valid = true ->
  login_fetch_done token (RBody b) st =
  (console data ;; set_item user_data_key (stringify_text (login_record ps token today)) ;;
   navigate home_path) st.
Proof.
  intros Ht. unfold login_fetch_done, response_json, login_then.
  cbv [mbind M_bind try_catch lift]. rewrite Hbody. cbv [console emit modify].
  rewrite Hvalid, Ht. subst data. rewrite set_prop_obj.
  cbv [now_ms gets with_trace]. cbn [st_env]. now rewrite Htoday, set_prop_obj.
Qed.

(** C10: an answer confirming the token is stored as the session
    record, carrying the token and today's UTC date, and the browser
    goes to the protected page [/]. *)
Theorem login_fetch_done_valid :
  truthy valid = true ->
  exists st', login_fetch_done token (RBody b) st = (st', inl tt) /\
    st_store st' = <[user_data_key := stringify_text (login_record ps token today)]> (st_store st) /\
    st_tasks st' = st_tasks st /\
    st_trace st' = (st_trace st ++ [EffConsole (to_str data); EffNavigate home_path])%list.
Proof.
  intros Ht. rewrite (login_fetch_done_valid_eq Ht).
  eexists; split; [reflexivity | repeat split].
  cbn. now rewrite <- app_assoc.
Qed.
End Answer.

(** ** Witnesses *)

Lemma toggle_click_twice_witness :
  exists st1 st2, toggle_click 2 (w_login "abc") = (st1, inl tt) /\
    toggle_click 2 st1 = (st2, inl tt) /\
    dom_get (st_dom st1) ".token-field" "type" = Some "text" /\
    st_classes st1 = flip (st_classes (w_login "abc")) (icon_classes 0 2) /\
    dom_get (st_dom st2) ".token-field" "type" = Some "password" /\
    st_classes st2 = st_classes (w_login "abc") /\
    st_store st2 = st_store (w_login "abc") /\ st_trace st2 = st_trace (w_login "abc").
Proof. apply (toggle_click_twice 2 (w_login "abc") "password"); [reflexivity | now left]. Defined.

Lemma login_submit_blank_witness :
  exists st', login_submit (w_login "   ") = (st', inl tt) /\
    st_store st' = st_store (w_login "   ") /\ st_tasks st' = st_tasks (w_login "   ") /\
    st_trace st' = (st_trace (w_login "   ") ++ [EffAlert "Please enter your personal token!"])%list.
Proof. eapply login_submit_blank with (raw := "   "); discharge. Defined.

Lemma login_submit_sends_witness :
  exists st', login_submit (w_login " abc ") = (st', inl tt) /\
    st_store st' = st_store (w_login " abc ") /\
    st_tasks st' = (st_tasks (w_login " abc ") ++ [TLoginFetch (trim " abc ")])%list /\
    st_trace st' = (st_trace (w_login " abc ") ++ [EffFetch (token_status_url (trim " abc "))])%list.
Proof. eapply login_submit_sends with (raw := " abc "); discharge. Defined.

Lemma login_fetch_done_error_witness :
  exists st', login_fetch_done "abc" RNetError (w_login "abc") = (st', inl tt) /\
    st_store st' = st_store (w_login "abc") /\ st_tasks st' = st_tasks (w_login "abc") /\
    st_trace st' = (st_trace (w_login "abc") ++ [EffConsole "Error fetching token status:";
                                      EffAlert "An error occurred. Please try again later."])%list.
Proof. apply login_fetch_done_error. now left. Defined.

Lemma login_fetch_done_invalid_witness :
  exists st', login_fetch_done "abc" (RBody (stringify_text (VObj (w_login_answer false)))) (w_login "abc")
    = (st', inl tt) /\
    st_store st' = st_store (w_login "abc") /\ st_tasks st' = st_tasks (w_login "abc") /\
    st_trace st' = (st_trace (w_login "abc") ++
                    [EffConsole (to_str (VObj (w_login_answer false))); EffAlert "Bad token! Try again."])%list.
Proof.
  eapply login_fetch_done_invalid with (valid := VBool false); discharge.
Defined.

Lemma login_fetch_done_valid_witness :
  exists st', login_fetch_done "abc" (RBody (stringify_text (VObj (w_login_answer true)))) (w_login "abc")
    = (st', inl tt) /\
    st_store st' = <[user_data_key := stringify_text (login_record (w_login_answer true) "abc" "2024-03-05")]>
                     (st_store (w_login "abc")) /\
    st_tasks st' = st_tasks (w_login "abc") /\
    st_trace st' = (st_trace (w_login "abc") ++
                    [EffConsole (to_str (VObj (w_login_answer true))); EffNavigate home_path])%list.
Proof.
  eapply login_fetch_done_valid with (valid := VBool true); discharge.
Defined.

(** ** The record the login writes *)

Lemma login_record_wf (ps : list (string * val)) (token today : string) :
  wf (VObj ps) = true -> wf (login_record ps token today) = true.
Proof. intros Hw. apply wf_assoc_set; [apply wf_assoc_set|]; auto. Qed.

Lemma login_record_token (ps : list (string * val)) (token today : string) :
  get_prop (login_record ps token today) "token" = inl (VStr token).
Proof. unfold login_record. rewrite get_prop_obj, field_set_ne, field_set_eq by discriminate. reflexivity. Qed.

Lemma login_record_saved_date (ps : list (string * val)) (token today : string) :
  get_prop (login_record ps token today) "saved_date" = inl (VStr today).
Proof. unfold login_record. now rewrite get_prop_obj, field_set_eq. Qed.

Lemma stringify_text_obj_nonempty (ps : list (string * val)) : stringify_text (VObj ps) <> "".
Proof. unfold stringify_text. simpl. discriminate. Qed.

Lemma login_record_text_nonempty (ps : list (string * val)) (token today : string) :
  stringify_text (login_record ps token today) <> "".
Proof. apply stringify_text_obj_nonempty. Qed.
