(* ===== verification/DatePicker.v ===== *)
(** * The date picker (src/app/static/script/dashboardScript.js)

    The change listener of [#datePicker] reads the input's value (the
    browser gives [YYYY-MM-DD], or the empty string when cleared) and
    sends the page to [/dashboard?date_str=<value>]. *)

From stdpp Require Import base list.
From Stdlib Require Import String.
From S2P Require Import Prelude JsValue Browser.

Local Open Scope string_scope.

Definition dashboard_url (date : string) : string := "/dashboard?date_str=" ++ date.

(** Lines 4-9. *)
Definition date_change : M unit :=
  selectedDate ← dom_read "#datePicker" "value" ;
  navigate (dashboard_url selectedDate).

(** Lines 1-4: the DOMContentLoaded handler installs the change listener. *)
Definition picker_load : M unit := add_listener LDateChange.

(** C14: a change of the picker to [value] navigates to the dashboard
    with [value] as its [date_str] parameter, and does nothing else. *)
Theorem date_change_navigates (st : St) (value : string) :
  dom_get (st_dom st) "#datePicker" "value" = Some value ->
  exists st', date_change st = (st', inl tt) /\
    st_store st' = st_store st /\ st_tasks st' = st_tasks st /\ st_dom st' = st_dom st /\
    st_trace st' = (st_trace st ++ [EffNavigate ("/dashboard?date_str=" ++ value)])%list.
Proof.
  intros Hv. unfold date_change, dom_read. cbv [mbind M_bind gets]. rewrite Hv.
  eexists; split; [reflexivity | repeat split].
Qed.

Lemma date_change_navigates_witness :
  let st := mkSt ∅ [("#datePicker", "value", "2024-03-05")] ∅ [] [] []
                 (mkEnv 1709640000000 0 [] []) in
  exists st', date_change st = (st', inl tt) /\
    st_store st' = st_store st /\ st_tasks st' = st_tasks st /\ st_dom st' = st_dom st /\
    st_trace st' = (st_trace st ++ [EffNavigate "/dashboard?date_str=2024-03-05"])%list.
Proof. apply date_change_navigates. reflexivity. Defined.
