(* ===== verification/System.v ===== *)
(** * The browser session: pages, events and their order

    The three scripts never call each other: they meet in the browser,
    which loads a page, runs its [DOMContentLoaded] handler, delivers user
    events to the listeners a script installed, settles pending requests
    and timers in whatever order the network and the clock give, and
    keeps [localStorage] across page loads.  This file is that browser.

    A [world] is the page on display and the state [St] of Browser.v.
    An [event] is one thing the outside world does:
    - [EvOpen p markup cls]: the browser loads page [p] (after a
      navigation or a typed URL).  The new document has the properties
      and classes of its markup and no listeners or pending tasks;
      storage, the effect log and the environment carry over; then the
      page's [DOMContentLoaded] handler runs.
    - [EvInput sel prop v]: the user edits a field ([.token-field] of the
      login page, [#datePicker]).
    - [EvFire i]: the user triggers the [i]-th installed listener (a
      click, a form submission, a change), or the interval timer ticks.
    - [EvSettle i r]: the [i]-th pending task completes: a [fetch]
      settles with the response [r], or a [setTimeout] delay elapses.

    Each event comes with the time at which it happens.  [step] runs one
    event and [run] a sequence; [reachable] is the reflexive-transitive
    closure of [step] from an initial world.  An exception that escapes a
    handler ends that handler only, as in the browser; the effects it
    performed before the throw stay.

    The sessions across pages: a login followed by the dashboard on the
    same or another UTC day; the dashboard's request settling and the
    dashboard opened again (after a confirmation the session continues
    with the written-back record, after a failure the record survives the
    redirect to the login); two submissions of the check-in form. *)

From stdpp Require Import base gmap strings list.
From Stdlib Require Import ZArith Ascii String Lia.
From S2P Require Import Prelude JsValue Json Clock Browser Widgets Index Login DatePicker.

Local Open Scope string_scope.

Inductive page : Type :=
| PLogin (icons : nat)   (** [/login], with its number of toggle icons *)
| PDashboard             (** [/], the page of indexScript.js *)
| PPicker.               (** the page of dashboardScript.js *)

Record world : Type := mkWorld { w_page : page; w_st : St }.

Inductive event : Type :=
| EvOpen (p : page) (markup : list (string * string * string)) (cls : gset (string * string))
| EvInput (sel prop v : string)
| EvFire (i : nat)
| EvSettle (i : nat) (r : response).

(** The [DOMContentLoaded] handler of each page. *)
Definition load_handler (p : page) : M unit :=
  match p with
  | PLogin n => login_load n
  | PDashboard => index_load
  | PPicker => picker_load
  end.

(** The code each kind of listener runs. *)
Definition listener_handler (p : page) (l : listener) : M unit :=
  match l with
  | LSubmitCard fresh => submit_card fresh
  | LLogoutClick => logout_click
  | LHourTick => displayHour
  | LToggle => toggle_click (match p with PLogin n => n | _ => 0 end)
  | LLoginSubmit => login_submit
  | LDateChange => date_change
  end.

(** The continuation a pending task runs once it settles. *)
Definition task_handler (k : task) (r : response) : M unit :=
  match k with
  | TIndexFetch userData => index_fetch_done userData r
  | TLoginFetch token => login_fetch_done token r
  | TBannerTimeout => banner_timeout
  end.

Definition set_now (t : Z) (st : St) : St :=
  mkSt (st_store st) (st_dom st) (st_classes st) (st_listeners st) (st_tasks st) (st_trace st)
       (mkEnv t (env_tzoff (st_env st)) (env_weekdays (st_env st)) (env_months (st_env st))).

(** A newly loaded document. *)
Definition fresh_page (markup : list (string * string * string)) (cls : gset (string * string))
    (st : St) : St :=
  mkSt (st_store st) markup cls [] [] (st_trace st) (st_env st).

(** The state after a handler, whether it returned or threw. *)
Definition exec (m : M unit) (st : St) : St := fst (m st).

Definition step (w : world) (te : Z * event) : world :=
  let st := set_now te.1 (w_st w) in
  match te.2 with
  | EvOpen p markup cls => mkWorld p (exec (load_handler p) (fresh_page markup cls st))
  | EvInput sel prop v => mkWorld (w_page w) (with_dom ((sel, prop, v) :: st_dom st) st)
  | EvFire i =>
      match st_listeners st !! i with
      | Some l => mkWorld (w_page w) (exec (listener_handler (w_page w) l) st)
      | None => mkWorld (w_page w) st
      end
  | EvSettle i r =>
      match st_tasks st !! i with
      | Some k => mkWorld (w_page w) (exec (task_handler k r) (with_tasks (delete i (st_tasks st)) st))
      | None => mkWorld (w_page w) st
      end
  end.

Definition run (w : world) (evs : list (Z * event)) : world := fold_left step evs w.

Inductive reachable (w0 : world) : world -> Prop :=
| reach_init : reachable w0 w0
| reach_step (w : world) (te : Z * event) : reachable w0 w -> reachable w0 (step w te).

(** ** Sessions

    A login: the login page opens at [t0], the user types [raw] into the
    token field and submits the form (the listener after the [n] toggle
    listeners), and the token-status request settles at [t1] with the
    body [b]. *)
Definition login_events (t0 t1 : Z) (n : nat) (markup : list (string * string * string))
    (cls : gset (string * string)) (raw b : string) : list (Z * event) :=
  [(t0, EvOpen (PLogin n) markup cls); (t0, EvInput ".token-field" "value" raw);
   (t0, EvFire n); (t1, EvSettle 0 (RBody b))].

Ltac norm_w :=
  cbn [fst snd w_st w_page st_store st_dom st_classes st_listeners st_tasks st_trace st_env
       env_now env_tzoff env_weekdays env_months with_store with_dom with_classes
       with_listeners with_tasks with_trace set_now fresh_page app lookup list_lookup
       delete list_delete load_handler listener_handler task_handler] in *.

(** ** Running sequences *)

Lemma run_app (w : world) (evs1 evs2 : list (Z * event)) :
  run w (evs1 ++ evs2) = run (run w evs1) evs2.
Proof. unfold run. apply fold_left_app. Qed.

Lemma run_reachable (w : world) (evs : list (Z * event)) : reachable w (run w evs).
Proof.
  unfold run. rewrite <- (rev_involutive evs). induction (rev evs) as [|te l IH]; simpl.
  - constructor.
  - rewrite fold_left_app. simpl. now constructor.
Qed.

(** ** A login, event by event *)

Lemma login_events_run (w : world) (t0 t1 : Z) (n : nat) markup cls (raw b : string)
    (ps : list (string * val)) :
  all_space raw = false -> parse b = inl (VObj ps) -> truthy (field ps "valid") = true ->
  (Z.abs t1 <= max_time)%Z ->
  exists st', run w (login_events t0 t1 n markup cls raw b) = mkWorld (PLogin n) st' /\
    st_store st' = <[user_data_key := stringify_text
       (login_record ps (trim raw) (date_str (civil_from_days (t1 / ms_per_day))))]>
       (st_store (w_st w)) /\
    st_tasks st' = [] /\
    st_trace st' = (st_trace (w_st w) ++ [EffFetch (token_status_url (trim raw));
                     EffConsole (to_str (VObj ps)); EffNavigate home_path])%list.
Proof.
  intros Hraw Hb Hv Ht1. unfold run, login_events. cbn [fold_left].
  unfold step at 4. norm_w. unfold exec at 1. rewrite login_load_run.
  unfold step at 3. unfold step at 2. norm_w.
  rewrite lookup_app_r by (rewrite repeat_length; lia). rewrite repeat_length, Nat.sub_diag.
  norm_w. unfold exec at 1.
  rewrite (login_submit_eq _ raw) by (try assumption; reflexivity).
  cbv [fetch modify]. unfold step. norm_w. unfold exec.
  rewrite (login_fetch_done_valid_eq _ _ b (VObj ps) Hb _ (get_prop_obj ps "valid") ps eq_refl
            (date_str (civil_from_days (t1 / ms_per_day))));
    [|cbn; now apply today_str_date | exact Hv].
  eexists; split; [reflexivity|].
  cbv [mbind M_bind console emit modify set_item navigate]. norm_w.
  split; [reflexivity|]. split; [reflexivity|]. now rewrite <- !app_assoc.
Qed.

(** ** Opening the dashboard on a stored record *)

Section OpenDashboard.
Variable w : world.
Variable t : Z.
Variable markup : list (string * string * string).
Variable cls : gset (string * string).
Variable u : val.
Hypothesis Hwf : wf u = true.
Hypothesis Hobj : stringify_text u <> "".
Hypothesis Hstored : st_store (w_st w) !! user_data_key = Some (stringify_text u).
Variable tok : string.
Hypothesis Htok : get_prop u "token" = inl (VStr tok).
Hypothesis Htok_ne : tok <> "".
Variable d : string.
Hypothesis Hsd : get_prop u "saved_date" = inl (VStr d).
Variable today : string.
Hypothesis Htoday : today_str t = inl today.

Lemma open_dashboard_gen (k : M unit) :
  (String.eqb d today = true ->
   forall st1, k st1 = fetch (token_status_url tok) (TIndexFetch u) st1) ->
  (String.eqb d today = false ->
   forall st1, k st1 = (remove_item user_data_key ;; navigate login_path) st1) ->
  exists st1, io_same (fresh_page markup cls (set_now t (w_st w))) st1 /\
    step w (t, EvOpen PDashboard markup cls) = mkWorld PDashboard (exec k st1).
Proof.
  intros Hf Hs. assert (Ht : truthy (VStr tok) = true).
  { destruct (truthy (VStr tok)) eqn:E; [reflexivity|]. now apply truthy_str in E. }
  unfold step. norm_w.
  destruct (String.eqb d today) eqn:Hd.
  - destruct (index_load_fresh_eq (fresh_page markup cls (set_now t (w_st w)))
      (stringify_text u) u Hstored Hobj (parse_stringify_text u Hwf) (VStr tok) Htok
      today Htoday (VStr d) Hsd Ht Hd) as (st1 & Hio & E).
    exists st1. split; [exact Hio|]. unfold exec. now rewrite E, (Hf eq_refl).
  - destruct (index_load_stale_eq (fresh_page markup cls (set_now t (w_st w)))
      (stringify_text u) u Hstored Hobj (parse_stringify_text u Hwf) (VStr tok) Htok
      today Htoday (VStr d) Hsd Ht Hd) as (st1 & Hio & E).
    exists st1. split; [exact Hio|]. unfold exec. now rewrite E, (Hs eq_refl).
Qed.
End OpenDashboard.

(** ** A login followed by the dashboard *)

Section LoginThenDashboard.
Variable w : world.
Variables t0 t1 t2 : Z.
Variable n : nat.
Variables markup1 markup2 : list (string * string * string).
Variables cls1 cls2 : gset (string * string).
Variables raw b : string.
Variable ps : list (string * val).
Hypothesis Hraw : all_space raw = false.
Hypothesis Hb : parse b = inl (VObj ps).
Hypothesis Hv : truthy (field ps "valid") = true.
Hypothesis Ht1 : (Z.abs t1 <= max_time)%Z.
Hypothesis Ht2 : (Z.abs t2 <= max_time)%Z.

(** The record of the login at [t1]. *)
Let rec := login_record ps (trim raw) (date_str (civil_from_days (t1 / ms_per_day))).

Lemma login_then_open (k : M unit) :
  (String.eqb (date_str (civil_from_days (t1 / ms_per_day)))
              (date_str (civil_from_days (t2 / ms_per_day))) = true ->
   forall st1, k st1 = fetch (token_status_url (trim raw)) (TIndexFetch rec) st1) ->
  (String.eqb (date_str (civil_from_days (t1 / ms_per_day)))
              (date_str (civil_from_days (t2 / ms_per_day))) = false ->
   forall st1, k st1 = (remove_item user_data_key ;; navigate login_path) st1) ->
  exists st1 st2,
    run w (login_events t0 t1 n markup1 cls1 raw b ++ [(t2, EvOpen PDashboard markup2 cls2)]) =
      mkWorld PDashboard (exec k st2) /\
    st_store st2 = <[user_data_key := stringify_text rec]> (st_store (w_st w)) /\
    st_tasks st2 = [] /\
    st_trace st2 = (st_trace (w_st w) ++ [EffFetch (token_status_url (trim raw));
                     EffConsole (to_str (VObj ps)); EffNavigate home_path])%list /\
    st_trace st1 = st_trace st2.
Proof.
  intros Hf Hs. rewrite run_app.
  destruct (login_events_run w t0 t1 n markup1 cls1 raw b ps Hraw Hb Hv Ht1)
    as (st1 & -> & Hs1 & Hk1 & Htr1).
  assert (Hne : trim raw <> "") by (rewrite trim_empty_iff; congruence).
  destruct (open_dashboard_gen (mkWorld (PLogin n) st1) t2 markup2 cls2 rec
    (login_record_wf _ _ _ (parse_wf _ _ Hb)) (login_record_text_nonempty _ _ _)
    ltac:(cbn; rewrite Hs1; apply lookup_insert_eq) (trim raw) (login_record_token _ _ _) Hne
    _ (login_record_saved_date _ _ _) _ (today_str_date t2 Ht2) k Hf Hs)
    as (st2 & (Hs2 & Hk2 & Htr2 & _) & E).
  exists st1, st2. cbn [run fold_left]. rewrite E. norm_w.
  rewrite Hs2, Hk2, Htr2, Hs1, Htr1. auto.
Qed.

(** C19: a login whose token the server confirms at [t1], followed by
    the dashboard opened at [t2] of the same UTC day, leaves the record
    (server answer, typed token, UTC date of [t1]) in storage, and the
    dashboard sends exactly one token-status request with the token: the
    session survives the page change. *)
Theorem login_then_dashboard_same_day :
  (t1 / ms_per_day = t2 / ms_per_day)%Z ->
  exists st',
    run w (login_events t0 t1 n markup1 cls1 raw b ++ [(t2, EvOpen PDashboard markup2 cls2)]) =
      mkWorld PDashboard st' /\
    st_store st' = <[user_data_key := stringify_text rec]> (st_store (w_st w)) /\
    st_tasks st' = [TIndexFetch rec] /\
    st_trace st' = (st_trace (w_st w) ++ [EffFetch (token_status_url (trim raw));
                     EffConsole (to_str (VObj ps)); EffNavigate home_path;
                     EffFetch (token_status_url (trim raw))])%list.
Proof.
  intros Hd. destruct (login_then_open (fetch (token_status_url (trim raw)) (TIndexFetch rec)))
    as (st1 & st2 & -> & Hs & Hk & Htr & _);
    [reflexivity | intros H; rewrite Hd, String.eqb_refl in H; discriminate |].
  eexists; split; [reflexivity|]. unfold exec. cbv [fetch modify]. norm_w.
  rewrite Hs, Hk, Htr, <- app_assoc. auto.
Qed.

(** C20: when the dashboard is opened on another UTC day than the login,
    the record is deleted and the page goes back to the login, whatever
    the local calendar says. *)
Theorem login_then_dashboard_next_day :
  (t1 / ms_per_day <> t2 / ms_per_day)%Z ->
  exists st',
    run w (login_events t0 t1 n markup1 cls1 raw b ++ [(t2, EvOpen PDashboard markup2 cls2)]) =
      mkWorld PDashboard st' /\
    st_store st' = delete user_data_key (st_store (w_st w)) /\
    st_tasks st' = [] /\
    st_trace st' = (st_trace (w_st w) ++ [EffFetch (token_status_url (trim raw));
                     EffConsole (to_str (VObj ps)); EffNavigate home_path;
                     EffNavigate login_path])%list.
Proof.
  intros Hd. destruct (login_then_open (remove_item user_data_key ;; navigate login_path))
    as (st1 & st2 & -> & Hs & Hk & Htr & _);
    [intros H; apply String.eqb_eq, date_str_civil_inj in H; contradiction | reflexivity |].
  eexists; split; [reflexivity|]. unfold exec.
  cbv [mbind M_bind remove_item navigate emit modify]. norm_w.
  rewrite Hs, Hk, Htr, <- app_assoc, delete_insert_eq. auto.
Qed.
End LoginThenDashboard.

(** ** The dashboard's request settles, then the dashboard is opened again

    A dashboard whose validation request for the record [u] (token
    [tok], date [d]) is pending at index [i]; the request settles at
    [t1] and the dashboard is opened again at [t2], on the UTC day [d]. *)

Section Reopen.
Variable w : world.
Variable i : nat.
Variable u : val.
Hypothesis Hi : st_tasks (w_st w) !! i = Some (TIndexFetch u).
Variables tok d : string.
Hypothesis Htok : get_prop u "token" = inl (VStr tok).
Hypothesis Htok_ne : tok <> "".
Hypothesis Hsd : get_prop u "saved_date" = inl (VStr d).
Variables t1 t2 : Z.
Hypothesis Ht2 : today_str t2 = inl d.
Variable markup : list (string * string * string).
Variable cls : gset (string * string).

(** The state after the answer [r]. *)
Let settled (r : response) : St :=
  exec (index_fetch_done u r) (with_tasks (delete i (st_tasks (w_st w))) (set_now t1 (w_st w))).

(** When the answer leaves a record [rec] of the same token and date in
    storage, the next load sends exactly one request for it. *)
Lemma settle_then_open (r : response) (rec : val) :
  wf rec = true -> stringify_text rec <> "" ->
  st_store (settled r) !! user_data_key = Some (stringify_text rec) ->
  get_prop rec "token" = inl (VStr tok) -> get_prop rec "saved_date" = inl (VStr d) ->
  exists st', run w [(t1, EvSettle i r); (t2, EvOpen PDashboard markup cls)] = mkWorld PDashboard st' /\
    st_store st' = st_store (settled r) /\ st_tasks st' = [TIndexFetch rec] /\
    st_trace st' = (st_trace (settled r) ++ [EffFetch (token_status_url tok)])%list.
Proof.
  intros Hwf Hobj Hs Htok' Hsd'. unfold run. cbn [fold_left].
  assert (E : step w (t1, EvSettle i r) = mkWorld (w_page w) (settled r))
    by (unfold step; norm_w; rewrite Hi; reflexivity).
  rewrite E.
  destruct (open_dashboard_gen (mkWorld (w_page w) (settled r)) t2 markup cls rec Hwf Hobj Hs
    tok Htok' Htok_ne d Hsd' d Ht2 (fetch (token_status_url tok) (TIndexFetch rec))
    (fun _ _ => eq_refl) (fun H => ltac:(rewrite String.eqb_refl in H; discriminate)))
    as (st2 & (Hs2 & Hk2 & Htr2 & _) & ->).
  eexists; split; [reflexivity|]. unfold exec. cbv [fetch modify]. norm_w.
  rewrite Hs2, Hk2, Htr2. auto.
Qed.

(** C16: after the server confirms the token, the record the dashboard
    writes back keeps the session for the rest of the UTC day: opening
    the dashboard again on the day of the stored [saved_date] finds the
    refreshed record with the same token and date, keeps it, and sends
    exactly one token-status request with the same token. *)
Theorem dashboard_reload_same_day (b : string) (ps : list (string * val)) (name : string) :
  parse b = inl (VObj ps) -> truthy (field ps "valid") = true -> field ps "full_name" = VStr name ->
  let rec := refreshed ps (VStr tok) (VStr d) in
  exists st', run w [(t1, EvSettle i (RBody b)); (t2, EvOpen PDashboard markup cls)] =
      mkWorld PDashboard st' /\
    st_store st' = <[user_data_key := stringify_text rec]> (st_store (w_st w)) /\
    st_tasks st' = [TIndexFetch rec] /\
    st_trace st' = (st_trace (w_st w) ++ [EffFetch (token_status_url tok)])%list.
Proof.
  intros Hb Hv Hn rec.
  destruct (index_fetch_done_confirmed (with_tasks (delete i (st_tasks (w_st w))) (set_now t1 (w_st w)))
    u b ps _ _ name Hb Hv Htok Hsd Hn) as (st1 & E1 & Hs1 & Htr1 & _).
  assert (Hst : settled (RBody b) = st1) by (unfold settled, exec; now rewrite E1).
  destruct (refreshed_fields ps (VStr tok) (VStr d)) as [Ht' Hd'].
  destruct (settle_then_open (RBody b) rec) as (st' & E & Hs' & Hk' & Htr');
    [apply refreshed_wf; [exact (parse_wf _ _ Hb) | reflexivity | reflexivity]
    | apply stringify_text_obj_nonempty
    | rewrite Hst, Hs1; apply lookup_insert_eq | exact Ht' | exact Hd' |].
  exists st'. rewrite Hs', Hk', Htr', Hst, Hs1, Htr1. auto.
Qed.

(** C15: a failed validation (no answer, or an answer that is not JSON)
    sends the page to the login but leaves the session record in
    storage, so opening the dashboard again on the same UTC day resumes
    the session without a login: it sends the stored token again.  The
    design's lifecycle says the record is destroyed on any validation
    failure (fail-closed); the code only redirects. *)
Theorem dashboard_error_keeps_session (r : response) :
  (r = RNetError \/ exists b e, r = RBody b /\ parse b = inr e) ->
  wf u = true -> (exists ps, u = VObj ps) ->
  st_store (w_st w) !! user_data_key = Some (stringify_text u) ->
  exists st', run w [(t1, EvSettle i r); (t2, EvOpen PDashboard markup cls)] =
      mkWorld PDashboard st' /\
    st_store st' = st_store (w_st w) /\ st_tasks st' = [TIndexFetch u] /\
    st_trace st' = (st_trace (w_st w) ++ [EffConsole "Error fetching token status:";
                     EffNavigate login_path; EffFetch (token_status_url tok)])%list.
Proof.
  intros Hr Hwf [ps Hu] Hs.
  assert (Hst : st_store (settled r) = st_store (w_st w) /\
    st_trace (settled r) = (st_trace (w_st w) ++ [EffConsole "Error fetching token status:";
                                                  EffNavigate login_path])%list).
  { unfold settled, exec. destruct Hr as [-> | (b & e & -> & Hp)];
      cbv [index_fetch_done response_json try_catch throw lift mbind M_bind index_catch
           navigate emit modify]; [|rewrite Hp]; norm_w; rewrite <- app_assoc; auto. }
  destruct Hst as [Hs1 Htr1].
  destruct (settle_then_open r u) as (st' & E & Hs' & Hk' & Htr');
    [exact Hwf | subst u; apply stringify_text_obj_nonempty | now rewrite Hs1
    | exact Htok | exact Hsd |].
  exists st'. rewrite Hs', Hk', Htr', Hs1, Htr1, <- app_assoc. auto.
Qed.
End Reopen.

(** ** Witnesses

    A browser in the time zone UTC+1 ([getTimezoneOffset() = -60]) with
    empty storage; the login page has two toggle icons and the server
    confirms the token. *)

Definition w_world : world :=
  mkWorld PPicker (mkSt ∅ [] ∅ [] [] [] (mkEnv 0 (-60) [] [])).

Definition w_body : string := stringify_text (VObj (w_login_answer true)).

Definition w_rec (day : string) : val := login_record (w_login_answer true) "abc" day.

(** At 2024-03-05T09:00Z the login, at 11:46Z the dashboard. *)
Lemma login_then_dashboard_same_day_witness :
  exists st',
    run w_world (login_events 1709629200000 1709629200000 2 [] ∅ " abc " w_body ++
                 [(1709639160000%Z, EvOpen PDashboard [] ∅)]) = mkWorld PDashboard st' /\
    st_store st' = <[user_data_key := stringify_text (w_rec "2024-03-05")]> ∅ /\
    st_tasks st' = [TIndexFetch (w_rec "2024-03-05")] /\
    st_trace st' = [EffFetch (token_status_url "abc");
                    EffConsole (to_str (VObj (w_login_answer true))); EffNavigate home_path;
                    EffFetch (token_status_url "abc")].
Proof.
  apply (login_then_dashboard_same_day w_world 1709629200000 1709629200000 1709639160000 2
    [] [] ∅ ∅ " abc " w_body (w_login_answer true)); vm_compute; try reflexivity; discriminate.
Defined.

(** The login at 00:30 local time (2024-03-04T23:30Z) and the dashboard
    at 01:30 local time (2024-03-05T00:30Z) fall on the same local date,
    5 March, yet the session is dropped. *)
Lemma login_then_dashboard_next_day_witness :
  get_date 1709595000000 (-60) = get_date 1709598600000 (-60) /\
  exists st',
    run w_world (login_events 1709595000000 1709595000000 2 [] ∅ " abc " w_body ++
                 [(1709598600000%Z, EvOpen PDashboard [] ∅)]) = mkWorld PDashboard st' /\
    st_store st' = delete user_data_key ∅ /\
    st_tasks st' = [] /\
    st_trace st' = [EffFetch (token_status_url "abc");
                    EffConsole (to_str (VObj (w_login_answer true))); EffNavigate home_path;
                    EffNavigate login_path].
Proof.
  split; [vm_compute; reflexivity|].
  apply (login_then_dashboard_next_day w_world 1709595000000 1709595000000 1709598600000 2
    [] [] ∅ ∅ " abc " w_body (w_login_answer true)); vm_compute; try reflexivity; discriminate.
Defined.

(** ** Submitting the check-in form twice *)

(** C26: two submissions of the check-in form before the first 1200 ms
    timer fires arm two timers, and when they fire the form is posted
    twice: nothing in the listener guards against a repeated
    submission. *)
Theorem submit_twice_posts_twice (w : world) (i : nat) (ps : list (string * val))
    (t1 t2 t3 t4 : Z) :
  st_listeners (w_st w) !! i = Some (LSubmitCard (VObj ps)) -> st_tasks (w_st w) = [] ->
  exists st',
    run w [(t1, EvFire i); (t2, EvFire i); (t3, EvSettle 0 RNetError);
           (t4, EvSettle 0 RNetError)] = mkWorld (w_page w) st' /\
    st_trace st' = (st_trace (w_st w) ++
                    [EffConfetti; EffConfetti; EffFormSubmit; EffFormSubmit])%list /\
    st_store st' = st_store (w_st w) /\ st_tasks st' = [].
Proof.
  intros Hl Hk. unfold run. cbn [fold_left].
  unfold step at 4. norm_w. rewrite Hl. norm_w. unfold exec at 1.
  destruct (submit_card_run ps (set_now t1 (w_st w))) as (d1 & c1 & ->).
  unfold step at 3. norm_w. rewrite Hl. norm_w. unfold exec at 1.
  match goal with |- context [submit_card (VObj ps) ?s] =>
    destruct (submit_card_run ps s) as (d2 & c2 & ->) end.
  unfold step at 2. norm_w. rewrite Hk. norm_w. unfold exec at 1. rewrite banner_timeout_run.
  unfold step. norm_w. unfold exec. rewrite banner_timeout_run.
  eexists; split; [reflexivity|]. norm_w. rewrite <- !app_assoc. auto.
Qed.

(** A dashboard in the not-checked-in state, submitted twice within a second. *)
Lemma submit_twice_posts_twice_witness :
  let w := mkWorld PDashboard
             (mkSt ∅ [] ∅ [LHourTick; LSubmitCard (VObj [("has_checked_in", VBool false)])]
                   [] [] (mkEnv 1709640000000 0 [] [])) in
  exists st',
    run w [(1709640000000%Z, EvFire 1); (1709640000500%Z, EvFire 1);
           (1709640001200%Z, EvSettle 0 RNetError); (1709640001700%Z, EvSettle 0 RNetError)] =
      mkWorld (w_page w) st' /\
    st_trace st' = (st_trace (w_st w) ++
                    [EffConfetti; EffConfetti; EffFormSubmit; EffFormSubmit])%list /\
    st_store st' = st_store (w_st w) /\ st_tasks st' = [].
Proof.
  apply (submit_twice_posts_twice _ 1 [("has_checked_in", VBool false)]); reflexivity.
Defined.

(** ** Reopening the dashboard: witnesses

    A dashboard opened at 2024-03-05T12:00Z on the record of the day,
    whose request is pending; it settles a second later and the
    dashboard is opened again at 14:46Z. *)

Definition w_reload : world :=
  mkWorld PDashboard (mkSt {[user_data_key := stringify_text (w_record "2024-03-05")]} [] ∅ []
                           [TIndexFetch (w_record "2024-03-05")] [] w_env).

Definition w_answer_fields : list (string * val) :=
  [("valid", VBool true); ("full_name", VStr "Ada Lovelace"); ("vdash", VStr "V-7");
   ("has_checked_in", VBool true); ("has_checked_out", VBool false);
   ("checkin_time", VStr "08:58")].

Lemma dashboard_reload_same_day_witness :
  let rec := refreshed w_answer_fields (VStr "abc") (VStr "2024-03-05") in
  exists st', run w_reload [(1709640001000%Z, EvSettle 0 (RBody (stringify_text (w_answer true))));
                            (1709650000000%Z, EvOpen PDashboard [] ∅)] = mkWorld PDashboard st' /\
    st_store st' = <[user_data_key := stringify_text rec]> (st_store (w_st w_reload)) /\
    st_tasks st' = [TIndexFetch rec] /\
    st_trace st' = (st_trace (w_st w_reload) ++ [EffFetch (token_status_url "abc")])%list.
Proof.
  eapply dashboard_reload_same_day with (w := w_reload) (i := 0%nat) (u := w_record "2024-03-05")
    (name := "Ada Lovelace"); vm_compute; try reflexivity; discriminate.
Defined.

(** The request fails: the page goes to the login, and at 14:46Z the
    dashboard resumes the session. *)
Lemma dashboard_error_keeps_session_witness :
  exists st', run w_reload [(1709640001000%Z, EvSettle 0 RNetError);
                            (1709650000000%Z, EvOpen PDashboard [] ∅)] = mkWorld PDashboard st' /\
    st_store st' = st_store (w_st w_reload) /\ st_tasks st' = [TIndexFetch (w_record "2024-03-05")] /\
    st_trace st' = (st_trace (w_st w_reload) ++ [EffConsole "Error fetching token status:";
                     EffNavigate login_path; EffFetch (token_status_url "abc")])%list.
Proof.
  eapply dashboard_error_keeps_session with (w := w_reload) (i := 0%nat) (u := w_record "2024-03-05")
    (r := RNetError);
    first [ left; reflexivity | eexists; reflexivity | discriminate | vm_compute; reflexivity ].
Defined.
