(* ===== verification/Ordering.v ===== *)
(** * Outstanding requests

    Section 5 of the design: "one outstanding network request at a time
    per page load"; "storage is read synchronously before the async
    validation call is issued, so no two validation calls race against
    the same stale read within one page load".

    The handlers only ever append to the queue of pending tasks ([fetch]
    and [setTimeout] are the only primitives that touch it; a task leaves
    the queue when it settles, in [step]).  [adds P m] says that running
    [m] appends a list of tasks satisfying [P], whether [m] returns or
    throws.  It is [keeps (grows P) m] for the preorder [grows P] of
    Keeps.v; the Section [Growth] proves it for the primitives of
    Browser.v, for any [P] that holds of the empty list and is closed
    under concatenation.

    - [reachable_one_validation]: no handler other than the dashboard's
      load sends a validation request of the dashboard ([TIndexFetch]),
      and that load sends at most one on a page whose queue it has just
      emptied; so in every reachable world at most one dashboard
      validation request is pending: the dashboard keeps the design's
      guarantee.
    - [login_submit_twice]: the login form has no such guard: two
      submissions before the first answer leave two validation requests
      in flight, each of which may later store a record and navigate. *)

From stdpp Require Import base gmap strings list.
From Stdlib Require Import ZArith Ascii String Lia.
From S2P Require Import Prelude JsValue Json Clock Browser Keeps Widgets Index Login DatePicker System.

Local Open Scope string_scope.

(** A pending validation request of the dashboard. *)
Definition is_validation (k : task) : bool :=
  match k with TIndexFetch _ => true | _ => false end.

Definition validations (ks : list task) : nat := List.length (List.filter is_validation ks).

(** [st'] has the pending tasks of [st] and then a list satisfying [P]. *)
Definition grows (P : list task -> Prop) (st st' : St) : Prop :=
  exists new, st_tasks st' = (st_tasks st ++ new)%list /\ P new.

(** [m] appends to the pending tasks a list satisfying [P]. *)
Definition adds {A} (P : list task -> Prop) (m : M A) : Prop := keeps (grows P) m.

(** At most one dashboard validation request among the new tasks. *)
Definition at_most_one (new : list task) : Prop := validations new <= 1.

(** No dashboard validation request among the new tasks. *)
Definition quiet (new : list task) : Prop := validations new = 0.

(** ** Counting *)

Lemma validations_app (l1 l2 : list task) :
  validations (l1 ++ l2) = validations l1 + validations l2.
Proof. unfold validations. now rewrite List.filter_app, length_app. Qed.

Lemma validations_delete (i : nat) (l : list task) : validations (delete i l) <= validations l.
Proof.
  unfold validations. revert i.
  induction l as [|k l IH]; intros [|i]; simpl; [lia | lia | |].
  - destruct (is_validation k); simpl; lia.
  - specialize (IH i). destruct (is_validation k); simpl; lia.
Qed.

Lemma quiet_nil : quiet [].
Proof. reflexivity. Qed.

Lemma quiet_app (a b : list task) : quiet a -> quiet b -> quiet (a ++ b).
Proof. unfold quiet. rewrite validations_app. lia. Qed.

(** ** Growth of the queue, for any property of the new tasks *)

Section Growth.
Variable P : list task -> Prop.
Hypothesis P_nil : P [].
Hypothesis P_app : forall a b, P a -> P b -> P (a ++ b).

#[local] Instance grows_preorder : PreOrder (grows P).
Proof.
  split.
  - intros st. exists []. now rewrite app_nil_r.
  - intros a b c (n1 & E1 & P1) (n2 & E2 & P2). exists (n1 ++ n2)%list.
    rewrite E2, E1, app_assoc. auto.
Qed.

Lemma adds_keep {A} (m : M A) : (forall st, st_tasks (fst (m st)) = st_tasks st) -> adds P m.
Proof. intros H st. exists []. now rewrite H, app_nil_r. Qed.

Lemma adds_bind {A B} (m : M A) (k : A -> M B) :
  adds P m -> (forall x, adds P (k x)) -> adds P (m ≫= k).
Proof. apply keeps_bind, _. Qed.

Lemma adds_try_catch {A} (m : M A) (h : exn -> M A) :
  adds P m -> (forall e, adds P (h e)) -> adds P (try_catch m h).
Proof. apply keeps_try_catch, _. Qed.

Lemma adds_if {A} (b : bool) (m1 m2 : M A) : adds P m1 -> adds P m2 -> adds P (if b then m1 else m2).
Proof. apply keeps_if. Qed.

Lemma adds_ret {A} (x : A) : adds P (mret x).
Proof. now apply adds_keep. Qed.

Lemma adds_gets {A} (f : St -> A) : adds P (gets f).
Proof. now apply adds_keep. Qed.

Lemma adds_lift {A} (r : A + exn) : adds P (lift r).
Proof. apply adds_keep. now destruct r. Qed.

Lemma adds_throw {A} (e : exn) : adds P (throw (A := A) e).
Proof. now apply adds_keep. Qed.

Lemma adds_page_only (m : M unit) : page_only m -> adds P m.
Proof.
  intros Hm. apply adds_keep. intros st. destruct (Hm st) as (st' & -> & (_ & E & _)). exact E.
Qed.

Lemma adds_fetch (url : string) (k : task) : P [k] -> adds P (fetch url k).
Proof. intros Hk st. exists [k]. auto. Qed.

Lemma adds_set_timeout (k : task) : P [k] -> adds P (set_timeout k).
Proof. intros Hk st. exists [k]. auto. Qed.

Lemma adds_emit (e : effect) : adds P (emit e).
Proof. now apply adds_keep. Qed.

Lemma adds_navigate (url : string) : adds P (navigate url).
Proof. now apply adds_keep. Qed.

Lemma adds_alert (msg : string) : adds P (alert msg).
Proof. now apply adds_keep. Qed.

Lemma adds_console (v : val) : adds P (console v).
Proof. now apply adds_keep. Qed.

Lemma adds_set_item (k v : string) : adds P (set_item k v).
Proof. now apply adds_keep. Qed.

Lemma adds_remove_item (k : string) : adds P (remove_item k).
Proof. now apply adds_keep. Qed.

Lemma adds_dom_set (sel prop s : string) : adds P (dom_set sel prop s).
Proof. now apply adds_keep. Qed.

Lemma adds_set_text (sel : string) (v : val) : adds P (set_text sel v).
Proof. now apply adds_keep. Qed.

Lemma adds_class_add (sel cls : string) : adds P (class_add sel cls).
Proof. now apply adds_keep. Qed.

Lemma adds_class_remove (sel cls : string) : adds P (class_remove sel cls).
Proof. now apply adds_keep. Qed.

Lemma adds_class_toggle (sel cls : string) : adds P (class_toggle sel cls).
Proof.
  apply adds_keep. intros st. unfold class_toggle. cbv [mbind M_bind gets].
  now destruct (decide _).
Qed.

Lemma adds_add_listener (l : listener) : adds P (add_listener l).
Proof. now apply adds_keep. Qed.

End Growth.


Lemma adds_get_item (P : list task -> Prop) (k : string) : P [] -> adds P (get_item k).
Proof. intros. now apply adds_keep. Qed.

Lemma adds_now_ms (P : list task -> Prop) : P [] -> adds P now_ms.
Proof. intros. now apply adds_keep. Qed.

Lemma adds_tz_offset (P : list task -> Prop) : P [] -> adds P tz_offset.
Proof. intros. now apply adds_keep. Qed.

Lemma adds_locale_names (P : list task -> Prop) : P [] -> adds P locale_names.
Proof. intros. now apply adds_keep. Qed.

Lemma adds_dom_read (P : list task -> Prop) (sel prop : string) : P [] -> adds P (dom_read sel prop).
Proof. intros. now apply adds_keep. Qed.

Lemma adds_response_json (P : list task -> Prop) (r : response) : P [] -> adds P (response_json r).
Proof.
  intros. apply adds_keep; [exact H|]. intros st.
  destruct r as [|b]; [reflexivity|]. cbn. now destruct (parse b).
Qed.

(** A first step that leaves the queue as it is. *)
Lemma adds_bind_keep {A B} (P : list task -> Prop) (m : M A) (k : A -> M B) :
  P [] -> adds (fun n => n = []) m -> (forall x, adds P (k x)) -> adds P (m ≫= k).
Proof.
  intros P0 Hm Hk st. destruct (Hm st) as (n1 & E1 & ->). cbv [mbind M_bind].
  destruct (m st) as [st1 [x|e]]; cbn [fst] in *.
  - destruct (Hk x st1) as (n2 & E2 & P2). exists n2. rewrite E2, E1, app_nil_r. auto.
  - exists []. auto.
Qed.

(** ** Proof search along the structure of a handler *)

(** A primitive that leaves the queue as it is; [P []] is closed by
    computation. *)
Ltac adds_leaf :=
  first [ apply adds_ret | apply adds_gets | apply adds_lift | apply adds_throw
        | apply adds_emit | apply adds_navigate | apply adds_alert | apply adds_console
        | apply adds_set_item | apply adds_remove_item | apply adds_dom_set
        | apply adds_set_text | apply adds_class_add | apply adds_class_remove
        | apply adds_class_toggle | apply adds_add_listener | apply adds_get_item
        | apply adds_now_ms | apply adds_tz_offset | apply adds_locale_names
        | apply adds_dom_read | apply adds_response_json ];
  first [reflexivity | unfold at_most_one, validations; simpl; lia].

Ltac quiet_solve :=
  repeat (repeat match goal with |- forall _, adds _ _ => intro end; cbv beta zeta; first
    [ adds_leaf
    | apply adds_fetch; reflexivity
    | apply adds_set_timeout; reflexivity
    | apply (adds_bind quiet quiet_nil quiet_app)
    | apply (adds_try_catch quiet quiet_nil quiet_app)
    | apply adds_if
    | match goal with H : forall _, adds _ _ |- _ => apply H end
    | match goal with H : adds _ _ |- _ => apply H end ]).

(** ** No handler but the dashboard's load sends a validation request *)

Lemma quiet_toggle_all (i n : nat) : adds quiet (toggle_all i n).
Proof. revert i. induction n; intros i; simpl; quiet_solve. Qed.

Lemma quiet_add_toggles (n : nat) : adds quiet (add_toggles n).
Proof. induction n; simpl; quiet_solve. Qed.

Lemma quiet_listener_handler (p : page) (l : listener) : adds quiet (listener_handler p l).
Proof.
  pose proof (quiet_toggle_all 0) as Hq.
  destruct l; simpl;
    unfold submit_card, logout_click, displayHour, toggle_click, login_submit, date_change;
    quiet_solve.
Qed.

Lemma quiet_task_handler (k : task) (r : response) : adds quiet (task_handler k r).
Proof.
  destruct k; simpl;
    unfold index_fetch_done, index_then, render_status, index_catch, login_fetch_done,
      login_then, login_catch, banner_timeout;
    quiet_solve.
Qed.

(** ** The dashboard's load sends at most one *)

Ltac one_solve :=
  repeat (repeat match goal with |- forall _, adds _ _ => intro end; cbv beta zeta; first
    [ adds_leaf
    | apply adds_fetch; unfold at_most_one, validations; simpl; lia
    | apply adds_bind_keep; [unfold at_most_one, validations; simpl; lia | adds_leaf | ]
    | apply adds_if
    | match goal with |- adds _ (match ?x with _ => _ end) => destruct x end ]).

Lemma one_index_load : adds at_most_one index_load.
Proof.
  unfold index_load. apply adds_bind_keep; [unfold at_most_one, validations; simpl; lia| |].
  - apply adds_page_only; [reflexivity | apply index_widgets_io].
  - unfold index_session, index_check_record. one_solve.
Qed.

Lemma quiet_load_handler_other (p : page) : p <> PDashboard -> adds quiet (load_handler p).
Proof.
  intros Hp. destruct p as [n| |]; simpl; [|contradiction|].
  - unfold login_load. pose proof (quiet_add_toggles n) as Hq. quiet_solve.
  - unfold picker_load. quiet_solve.
Qed.

(** Running a handler adds at most [c] validation requests when every
    list it may append has at most [c]. *)
Lemma adds_count (P : list task -> Prop) (c : nat) (m : M unit) (st : St) :
  adds P m -> (forall new, P new -> validations new <= c) ->
  validations (st_tasks (fst (m st))) <= validations (st_tasks st) + c.
Proof.
  intros Hm Hc. destruct (Hm st) as (new & -> & Hn). rewrite validations_app.
  specialize (Hc new Hn). lia.
Qed.

Lemma quiet_count (new : list task) : quiet new -> validations new <= 0.
Proof. unfold quiet. lia. Qed.

Lemma one_count (new : list task) : at_most_one new -> validations new <= 1.
Proof. unfold at_most_one. lia. Qed.

(** One step of the browser keeps at most one validation request pending. *)
Lemma step_one_validation (w : world) (te : Z * event) :
  validations (st_tasks (w_st w)) <= 1 -> validations (st_tasks (w_st (step w te))) <= 1.
Proof.
  destruct te as [t ev]. intros H. unfold step, exec. cbn [fst snd].
  destruct ev as [p markup cls | sel prop v | i | i r]; cbn [w_st].
  - assert (Hp : p = PDashboard \/ p <> PDashboard) by (destruct p; auto; right; discriminate).
    destruct Hp as [->|Hp].
    + pose proof (adds_count _ 1 _ (fresh_page markup cls (set_now t (w_st w)))
        one_index_load one_count). simpl in *. lia.
    + pose proof (adds_count _ 0 _ (fresh_page markup cls (set_now t (w_st w)))
        (quiet_load_handler_other p Hp) quiet_count). simpl in *. lia.
  - exact H.
  - destruct (st_listeners (set_now t (w_st w)) !! i) as [l|]; [|exact H]. cbn [w_st].
    pose proof (adds_count _ 0 _ (set_now t (w_st w)) (quiet_listener_handler (w_page w) l)
      quiet_count). simpl in *. lia.
  - destruct (st_tasks (set_now t (w_st w)) !! i) as [k|]; [|exact H]. cbn [w_st].
    pose proof (adds_count _ 0 _ (with_tasks (delete i (st_tasks (set_now t (w_st w))))
      (set_now t (w_st w))) (quiet_task_handler k r) quiet_count).
    pose proof (validations_delete i (st_tasks (w_st w))). simpl in *. lia.
Qed.

(** ** The two pages *)

(** C17: in every world reached from one with at most one pending
    dashboard validation request, by any interleaving of page loads, user
    actions, request answers and timers, at most one dashboard validation
    request is pending: the dashboard keeps section 5's "one outstanding
    validation request per page load", since its load reads storage and
    sends its single request on a page whose queue it has just emptied,
    and no listener or continuation sends another. *)
Theorem reachable_one_validation (w0 w : world) :
  validations (st_tasks (w_st w0)) <= 1 -> reachable w0 w -> validations (st_tasks (w_st w)) <= 1.
Proof. intros H0 Hr. induction Hr; [exact H0 | now apply step_one_validation]. Qed.

(** A submission of a non-blank token: one more request in flight. *)
Lemma fire_login_submit (w : world) (i : nat) (raw : string) (t : Z) :
  st_listeners (w_st w) !! i = Some LLoginSubmit ->
  dom_get (st_dom (w_st w)) ".token-field" "value" = Some raw -> all_space raw = false ->
  step w (t, EvFire i) =
  mkWorld (w_page w) (with_tasks (st_tasks (w_st w) ++ [TLoginFetch (trim raw)])
                        (with_trace (st_trace (w_st w) ++ [EffFetch (token_status_url (trim raw))])
                           (set_now t (w_st w)))).
Proof.
  intros Hl Hd Hb. unfold step. norm_w. rewrite Hl. norm_w. unfold exec.
  now rewrite (login_submit_eq (set_now t (w_st w)) raw Hd Hb).
Qed.

(** C35: the login page has no such guard: submitting the form twice
    before the first answer arrives sends the token-status request twice
    and leaves two requests in flight, each of which will store a record
    and navigate if the token is valid. *)
Theorem login_submit_twice (w : world) (i : nat) (raw : string) (t1 t2 : Z) :
  st_listeners (w_st w) !! i = Some LLoginSubmit ->
  dom_get (st_dom (w_st w)) ".token-field" "value" = Some raw -> all_space raw = false ->
  let w' := run w [(t1, EvFire i); (t2, EvFire i)] in
  st_tasks (w_st w') = (st_tasks (w_st w) ++ [TLoginFetch (trim raw); TLoginFetch (trim raw)])%list /\
  st_trace (w_st w') = (st_trace (w_st w) ++ [EffFetch (token_status_url (trim raw));
                                              EffFetch (token_status_url (trim raw))])%list.
Proof.
  intros Hl Hd Hb. cbv zeta. unfold run. cbn [fold_left].
  rewrite (fire_login_submit w i raw t1 Hl Hd Hb), (fire_login_submit _ i raw t2) by (norm_w; assumption).
  norm_w. rewrite <- !app_assoc. auto.
Qed.

(** A login, then the dashboard whose request is still pending, then
    a check-in and its timer. *)
Lemma reachable_one_validation_witness :
  validations (st_tasks (w_st w_world)) <= 1 /\
  validations (st_tasks (w_st (run w_world
    (login_events 1709629200000 1709629200000 2 [] ∅ " abc " w_body ++
     [(1709639160000%Z, EvOpen PDashboard [] ∅); (1709639162000%Z, EvFire 1)])))) <= 1.
Proof.
  split; [vm_compute; lia|].
  apply (reachable_one_validation w_world); [vm_compute; lia | apply run_reachable].
Defined.

(** The login page of [w_world] with the token typed, submitted twice. *)
Lemma login_submit_twice_witness :
  let w := mkWorld (PLogin 2) (mkSt ∅ [(".token-field", "value", " abc ")] ∅
                                    [LToggle; LToggle; LLoginSubmit] [] []
                                    (mkEnv 1709640000000 0 [] [])) in
  let w' := run w [(1709640000000%Z, EvFire 2); (1709640000300%Z, EvFire 2)] in
  st_tasks (w_st w') = (st_tasks (w_st w) ++ [TLoginFetch "abc"; TLoginFetch "abc"])%list /\
  st_trace (w_st w') = (st_trace (w_st w) ++ [EffFetch (token_status_url "abc");
                                              EffFetch (token_status_url "abc")])%list.
Proof. apply (login_submit_twice _ 2 " abc "); reflexivity. Defined.
