(* ===== verification/Footprint.v ===== *)
(** * What the scripts touch outside the page

    The three scripts share the browser with whatever else the site
    stores and with the server.  [footprint st st'] relates a state to a
    later one when
    - every [localStorage] key other than [user_data] has kept its value
      (the scripts call [getItem], [setItem] and [removeItem] with the
      literal ['user_data'] only, and never [clear]);
    - the effects added since are allowed ones ([app_effect]): every
      request goes to [/api/token-status?token=...], and every navigation
      to [/login], [/] or [/dashboard?date_str=...]; console lines,
      alerts, confetti and form submissions are allowed as they are.

    [footprint] is a preorder, so Keeps.v's composition rules apply:
    [keeps footprint m] is proved for every handler of the three scripts
    along its structure ([fp_solve]), and [reachable_footprint] lifts it
    to every world the browser reaches by any interleaving of events. *)

From stdpp Require Import base gmap strings list.
From Stdlib Require Import ZArith Ascii String.
From S2P Require Import Prelude JsValue Json Clock Browser Keeps Widgets Index Login DatePicker System.

Local Open Scope string_scope.

(** The effects the scripts may have outside the page. *)
Definition app_effect (e : effect) : Prop :=
  match e with
  | EffFetch url => exists tok, url = token_status_url tok
  | EffNavigate url => url = login_path \/ url = home_path \/ exists d, url = dashboard_url d
  | EffAlert _ | EffConsole _ | EffConfetti | EffFormSubmit => True
  end.

Definition footprint (st st' : St) : Prop :=
  (forall k, k <> user_data_key -> st_store st' !! k = st_store st !! k) /\
  exists new, st_trace st' = (st_trace st ++ new)%list /\ Forall app_effect new.

(** ** The preorder and the primitives *)

#[export] Instance footprint_preorder : PreOrder footprint.
Proof.
  split.
  - intros st. split; [reflexivity|]. exists []. now rewrite app_nil_r.
  - intros a b c [Hs1 (n1 & E1 & F1)] [Hs2 (n2 & E2 & F2)]. split.
    + intros k Hk. now rewrite Hs2, Hs1.
    + exists (n1 ++ n2)%list. rewrite E2, E1, app_assoc. split; [reflexivity|].
      now apply Forall_app.
Qed.

(** Storage and effects as they were. *)
Lemma footprint_io (st st' : St) :
  st_store st' = st_store st -> st_trace st' = st_trace st -> footprint st st'.
Proof. intros Hs Ht. split; [intros k _; now rewrite Hs|]. exists []. now rewrite Ht, app_nil_r. Qed.

Lemma fp_modify (f : St -> St) :
  (forall st, st_store (f st) = st_store st /\ st_trace (f st) = st_trace st) ->
  keeps footprint (modify f).
Proof. intros Hf st. destruct (Hf st). now apply footprint_io. Qed.

Lemma fp_page_only (m : M unit) : page_only m -> keeps footprint m.
Proof.
  intros Hm st. destruct (Hm st) as (st' & -> & (Hs & _ & Ht & _)). now apply footprint_io.
Qed.

Lemma fp_emit (e : effect) : app_effect e -> keeps footprint (emit e).
Proof. intros He st. split; [reflexivity|]. exists [e]. split; [reflexivity | now constructor]. Qed.

Lemma fp_fetch (tok : string) (k : task) : keeps footprint (fetch (token_status_url tok) k).
Proof.
  intros st. split; [reflexivity|]. exists [EffFetch (token_status_url tok)].
  split; [reflexivity | constructor; [eexists; reflexivity | constructor]].
Qed.

Lemma fp_set_item (v : string) : keeps footprint (set_item user_data_key v).
Proof.
  intros st. split; [intros k Hk; cbn; now rewrite lookup_insert_ne by congruence|].
  exists []. now rewrite app_nil_r.
Qed.

Lemma fp_remove_item : keeps footprint (remove_item user_data_key).
Proof.
  intros st. split; [intros k Hk; cbn; now rewrite lookup_delete_ne by congruence|].
  exists []. now rewrite app_nil_r.
Qed.

Lemma fp_class_toggle (sel cls : string) : keeps footprint (class_toggle sel cls).
Proof.
  unfold class_toggle. apply (keeps_bind footprint); [keeps_pure|]. intros x.
  destruct (decide _); apply fp_modify; now intros [].
Qed.

(** An allowed effect, by its shape. *)
Ltac fp_effect :=
  cbn [app_effect];
  first [ exact I | left; reflexivity | right; left; reflexivity
        | right; right; eexists; reflexivity | eexists; reflexivity ].

(** Proof search along the structure of a handler. *)
Ltac fp_solve :=
  repeat (repeat match goal with |- forall _, keeps _ _ => intro end; cbv beta zeta; first
    [ keeps_pure
    | apply (keeps_bind footprint)
    | apply (keeps_try_catch footprint)
    | apply keeps_if
    | apply fp_fetch | apply fp_set_item | apply fp_remove_item | apply fp_class_toggle
    | apply fp_emit; fp_effect
    | apply fp_modify; now intros []
    | match goal with |- keeps _ (match ?x with _ => _ end) => destruct x end
    | match goal with H : forall _, keeps _ _ |- _ => apply H end
    | match goal with H : keeps _ _ |- _ => apply H end ]).

(** ** The handlers *)

Lemma fp_toggle_all (i n : nat) : keeps footprint (toggle_all i n).
Proof. revert i. induction n; intros i; simpl; fp_solve. Qed.

Lemma fp_add_toggles (n : nat) : keeps footprint (add_toggles n).
Proof. induction n; simpl; fp_solve. Qed.

Lemma fp_listener_handler (p : page) (l : listener) : keeps footprint (listener_handler p l).
Proof.
  pose proof (fp_toggle_all 0) as Ht.
  destruct l; simpl;
    unfold submit_card, logout_click, displayHour, set_text, dom_set, add_listener, set_timeout,
      toggle_click, login_submit, date_change, dom_read, alert, navigate;
    fp_solve.
Qed.

Lemma fp_task_handler (k : task) (r : response) : keeps footprint (task_handler k r).
Proof.
  destruct k; simpl;
    unfold index_fetch_done, index_then, index_render, render_status,
      index_catch, login_fetch_done, login_then, login_catch, banner_timeout, response_json,
      set_text, dom_set, add_listener, class_add, class_remove, console, alert, navigate, now_ms;
    fp_solve.
Qed.

Lemma fp_load_handler (p : page) : keeps footprint (load_handler p).
Proof.
  destruct p as [n| |]; simpl.
  - unfold login_load. pose proof (fp_add_toggles n). fp_solve.
  - unfold index_load. apply (keeps_bind footprint); [now apply fp_page_only, index_widgets_io|].
    intros _. unfold index_session, index_check_record, get_item, now_ms, navigate.
    fp_solve.
  - unfold picker_load, add_listener. fp_solve.
Qed.

(** One step of the browser. *)
Lemma step_footprint (w : world) (te : Z * event) : footprint (w_st w) (w_st (step w te)).
Proof.
  destruct te as [t ev]. unfold step, exec. cbn [fst snd].
  assert (Hn : footprint (w_st w) (set_now t (w_st w))) by now apply footprint_io.
  destruct ev as [p markup cls | sel prop v | i | i r]; cbn [w_st].
  - etransitivity; [|apply fp_load_handler]. now apply footprint_io.
  - now apply footprint_io.
  - destruct (st_listeners (set_now t (w_st w)) !! i) as [l|]; [|exact Hn].
    etransitivity; [exact Hn | apply fp_listener_handler].
  - destruct (st_tasks (set_now t (w_st w)) !! i) as [k|]; [|exact Hn].
    etransitivity; [|apply fp_task_handler]. now apply footprint_io.
Qed.

(** C29: in every world reachable from [w0], by any interleaving of page
    loads, user actions, request answers and timers, every
    [localStorage] key other than [user_data] holds what it held in [w0],
    and every effect added since is a request to the token-status
    endpoint, a navigation to [/login], [/] or [/dashboard?date_str=...],
    or an effect on the page and the console: the scripts touch nothing
    else of the site's storage and contact no other URL. *)
Theorem reachable_footprint (w0 w : world) :
  reachable w0 w ->
  (forall k, k <> user_data_key -> st_store (w_st w) !! k = st_store (w_st w0) !! k) /\
  exists new, st_trace (w_st w) = (st_trace (w_st w0) ++ new)%list /\ Forall app_effect new.
Proof.
  intros Hr. change (footprint (w_st w0) (w_st w)).
  induction Hr as [|w te _ IH]; [reflexivity|]. etransitivity; [exact IH | apply step_footprint].
Qed.

(** A browser that also stores a ["theme"] key: a login, the dashboard
    and a check-in leave it alone. *)
Lemma reachable_footprint_witness :
  let w0 := mkWorld PPicker (mkSt {[ "theme" := "dark" ]} [] ∅ [] [] [] (mkEnv 0 (-60) [] [])) in
  let w := run w0 (login_events 1709629200000 1709629200000 2 [] ∅ " abc " w_body ++
                   [(1709639160000%Z, EvOpen PDashboard [] ∅); (1709639162000%Z, EvFire 1)]) in
  st_store (w_st w) !! "theme" = Some "dark" /\
  exists new, st_trace (w_st w) = (st_trace (w_st w0) ++ new)%list /\ Forall app_effect new.
Proof.
  cbv zeta.
  match goal with
  | |- context [run ?w0 ?evs] =>
      destruct (reachable_footprint w0 (run w0 evs) (run_reachable w0 evs)) as [Hs Ht]
  end.
  split; [rewrite Hs by discriminate; vm_compute; reflexivity | exact Ht].
Defined.
