(* ===== verification/Invariant.v ===== *)
(** * The session record stays well formed

    The scripts are the only writers of the [user_data] slot.  The login
    (loginScript.js line 40) writes the server's answer with the typed,
    non-blank token and today's date; the dashboard (indexScript.js line
    64) writes the fresh answer with the token and date of the record it
    read.  [inv] states what every state the browser reaches from a state
    satisfying it satisfies:
    - [store_ok]: the slot, when present, holds [JSON.stringify(u)] of
      a session record [u] ([record_ok]): an object without [undefined]
      or duplicate keys, with a non-empty string [token] and a
      [saved_date] that is the text of a valid date of the time range
      ([date_text], EcmaDate.v);
    - every pending [TIndexFetch u] carries such a record and every
      pending [TLoginFetch token] a non-empty token.

    [preserves m] says that running [m] on a state satisfying [inv] gives
    a state satisfying it, whether [m] returns or throws: it is
    [keeps inv_kept m] for the preorder [inv_kept] ("[inv] before implies
    [inv] after"), so the composition rules of Keeps.v apply; it is proved
    for the primitives of Browser.v and so for every handler of the three
    scripts.
    The theorems: [inv] holds
    in every reachable world, and in such a world loading the dashboard
    never throws, so the exception path of [index_load_malformed] is
    reached only through a record the scripts did not write. *)

From stdpp Require Import base gmap strings list.
From Stdlib Require Import ZArith Ascii String Lia.
From S2P Require Import Prelude JsValue Json Clock EcmaDate Browser Keeps Widgets Index Login DatePicker System.

Local Open Scope string_scope.
Local Open Scope checkin_scope.

Definition record_ok (u : val) : Prop :=
  wf u = true /\ (exists ps, u = VObj ps) /\
  (exists tok, get_prop u "token" = inl (VStr tok) /\ tok <> "") /\
  (exists d, get_prop u "saved_date" = inl (VStr d) /\ date_text d).

Definition store_ok (m : gmap string string) : Prop :=
  forall s, m !! user_data_key = Some s -> exists u, s = stringify_text u /\ record_ok u.

Definition task_ok (k : task) : Prop :=
  match k with
  | TIndexFetch u => record_ok u
  | TLoginFetch tok => tok <> ""
  | TBannerTimeout => True
  end.

Definition inv (st : St) : Prop := store_ok (st_store st) /\ Forall task_ok (st_tasks st).

(** The state after a step satisfies [inv] when the state before did. *)
Definition inv_kept (st st' : St) : Prop := inv st -> inv st'.

Definition preserves {A} (m : M A) : Prop := keeps inv_kept m.

(** [f] keeps storage and the pending tasks. *)
Definition keeps_io (f : St -> St) : Prop :=
  forall st, st_store (f st) = st_store st /\ st_tasks (f st) = st_tasks st.

Create HintDb inv_db discriminated.

(** ** Composition *)

#[export] Instance inv_kept_preorder : PreOrder inv_kept.
Proof. split; [intros st H; exact H | intros a b c H1 H2 H; auto]. Qed.

Lemma pres_bind {A B} (m : M A) (k : A -> M B) :
  preserves m -> (forall x, preserves (k x)) -> preserves (m ≫= k).
Proof. apply keeps_bind, _. Qed.

Lemma pres_try_catch {A} (m : M A) (h : exn -> M A) :
  preserves m -> (forall e, preserves (h e)) -> preserves (try_catch m h).
Proof. apply keeps_try_catch, _. Qed.

Lemma pres_ret {A} (x : A) : preserves (mret x).
Proof. keeps_pure. Qed.

Lemma pres_gets {A} (f : St -> A) : preserves (gets f).
Proof. keeps_pure. Qed.

Lemma pres_lift {A} (r : A + exn) : preserves (lift r).
Proof. keeps_pure. Qed.

Lemma pres_throw {A} (e : exn) : preserves (throw (A := A) e).
Proof. keeps_pure. Qed.

Lemma pres_modify (f : St -> St) : keeps_io f -> preserves (modify f).
Proof.
  intros Hf st [Hs Hk]. destruct (Hf st) as [E1 E2]. unfold inv. cbv [modify fst].
  rewrite E1, E2. now split.
Qed.

Lemma pres_page_only (m : M unit) : page_only m -> preserves m.
Proof.
  intros Hm st [Hs Hk]. destruct (Hm st) as (st' & E & (E1 & E2 & _)).
  rewrite E. unfold inv. cbn [fst]. rewrite E1, E2. now split.
Qed.

Lemma pres_if {A} (b : bool) (m1 m2 : M A) :
  preserves m1 -> preserves m2 -> preserves (if b then m1 else m2).
Proof. apply keeps_if. Qed.

(** ** Primitives *)

Lemma keeps_with_dom d : keeps_io (with_dom d).
Proof. now intros []. Qed.
Lemma keeps_with_classes c : keeps_io (with_classes c).
Proof. now intros []. Qed.
Lemma keeps_with_listeners l : keeps_io (with_listeners l).
Proof. now intros []. Qed.
Lemma keeps_with_trace tr : keeps_io (with_trace tr).
Proof. now intros []. Qed.

Lemma pres_emit (e : effect) : preserves (emit e).
Proof. apply pres_modify. intros st. apply keeps_with_trace. Qed.

Lemma pres_dom_set (sel prop s : string) : preserves (dom_set sel prop s).
Proof. apply pres_modify. intros st. apply keeps_with_dom. Qed.

Lemma pres_class_toggle (sel cls : string) : preserves (class_toggle sel cls).
Proof.
  unfold class_toggle. apply pres_bind; [apply pres_gets|]. intros x.
  destruct (decide _); apply pres_modify; intros st; apply keeps_with_classes.
Qed.

Lemma pres_add_listener (l : listener) : preserves (add_listener l).
Proof. apply pres_modify. intros st. apply keeps_with_listeners. Qed.

Lemma pres_remove_item (k : string) : preserves (remove_item k).
Proof.
  intros st [Hs Hk]. split; [|exact Hk]. intros s. cbn.
  rewrite lookup_delete. case_decide; [discriminate|]. apply Hs.
Qed.

Lemma pres_set_item_record (u : val) :
  record_ok u -> preserves (set_item user_data_key (stringify_text u)).
Proof.
  intros Hu st [Hs Hk]. split; [|exact Hk]. intros s. cbn.
  rewrite lookup_insert_eq. intros [= <-]. eauto.
Qed.

Lemma pres_fetch (url : string) (k : task) : task_ok k -> preserves (fetch url k).
Proof.
  intros Hk st [Hs Hks]. split; [exact Hs|]. cbn.
  apply Forall_app; split; [exact Hks | now constructor].
Qed.

Lemma pres_set_timeout : preserves (set_timeout TBannerTimeout).
Proof.
  intros st [Hs Hks]. split; [exact Hs|]. cbn.
  apply Forall_app; split; [exact Hks | now constructor].
Qed.

#[export] Hint Resolve pres_bind pres_try_catch pres_ret pres_gets pres_lift pres_throw
  pres_if pres_emit pres_dom_set pres_class_toggle pres_add_listener pres_remove_item
  pres_set_timeout : inv_db.

Lemma pres_set_text (sel : string) (v : val) : preserves (set_text sel v).
Proof. apply pres_dom_set. Qed.
Lemma pres_class_add (sel cls : string) : preserves (class_add sel cls).
Proof. apply pres_modify. intros st. apply keeps_with_classes. Qed.
Lemma pres_class_remove (sel cls : string) : preserves (class_remove sel cls).
Proof. apply pres_modify. intros st. apply keeps_with_classes. Qed.
Lemma pres_navigate (url : string) : preserves (navigate url).
Proof. apply pres_emit. Qed.
Lemma pres_alert (msg : string) : preserves (alert msg).
Proof. apply pres_emit. Qed.
Lemma pres_console (v : val) : preserves (console v).
Proof. apply pres_emit. Qed.
Lemma pres_now_ms : preserves now_ms.
Proof. apply pres_gets. Qed.
Lemma pres_tz_offset : preserves tz_offset.
Proof. apply pres_gets. Qed.
Lemma pres_locale_names : preserves locale_names.
Proof. apply pres_gets. Qed.
Lemma pres_dom_read (sel prop : string) : preserves (dom_read sel prop).
Proof. apply pres_gets. Qed.

#[export] Hint Resolve pres_set_text pres_class_add pres_class_remove pres_navigate
  pres_alert pres_console pres_now_ms pres_tz_offset pres_locale_names pres_dom_read : inv_db.

Lemma pres_apply {A} (m : M A) (st : St) : preserves m -> inv st -> inv (fst (m st)).
Proof. intros Hm Hi. exact (Hm st Hi). Qed.

(** ** The handlers of the three scripts *)

Lemma pres_index_widgets : preserves index_widgets.
Proof. apply pres_page_only, index_widgets_io. Qed.

Lemma pres_render_status (ps : list (string * val)) : preserves (render_status (VObj ps)).
Proof. apply pres_page_only, render_status_page_only. Qed.

Lemma pres_displayHour : preserves displayHour.
Proof. unfold displayHour. eauto with inv_db. Qed.

Lemma pres_submit_card (fresh : val) : preserves (submit_card fresh).
Proof. unfold submit_card. eauto 10 with inv_db. Qed.

Lemma pres_banner_timeout : preserves banner_timeout.
Proof. unfold banner_timeout. eauto with inv_db. Qed.

Lemma pres_logout_click : preserves logout_click.
Proof. unfold logout_click. eauto with inv_db. Qed.

Lemma pres_date_change : preserves date_change.
Proof. unfold date_change. eauto with inv_db. Qed.

Lemma pres_picker_load : preserves picker_load.
Proof. unfold picker_load. eauto with inv_db. Qed.

Lemma pres_toggle_all (i n : nat) : preserves (toggle_all i n).
Proof. revert i. induction n; intros i; simpl; eauto with inv_db. Qed.

Lemma pres_toggle_click (n : nat) : preserves (toggle_click n).
Proof. unfold toggle_click. eauto using pres_toggle_all with inv_db. Qed.

Lemma pres_add_toggles (n : nat) : preserves (add_toggles n).
Proof. induction n; simpl; eauto with inv_db. Qed.

Lemma pres_login_load (n : nat) : preserves (login_load n).
Proof. unfold login_load. eauto using pres_add_toggles with inv_db. Qed.

Lemma pres_login_submit : preserves login_submit.
Proof.
  unfold login_submit. apply pres_bind; [auto with inv_db|]. intros raw.
  destruct (truthy (VStr (trim raw))) eqn:E; simpl; [|apply pres_alert].
  apply pres_fetch. cbn. intros He. rewrite He in E. discriminate.
Qed.

Lemma record_ok_refreshed (ps : list (string * val)) (tok d : string) :
  wf (VObj ps) = true -> tok <> "" -> date_text d -> record_ok (refreshed ps (VStr tok) (VStr d)).
Proof.
  intros Hw Hne Hd. split; [now apply refreshed_wf|]. split; [eexists; reflexivity|].
  unfold refreshed. rewrite !get_prop_obj.
  split; [exists tok; rewrite field_set_ne, field_set_eq by discriminate; auto|].
  exists d. rewrite field_set_eq. auto.
Qed.

Lemma record_ok_login (ps : list (string * val)) (tok d : string) :
  wf (VObj ps) = true -> tok <> "" -> date_text d -> record_ok (login_record ps tok d).
Proof. apply record_ok_refreshed. Qed.

Lemma pres_index_render (ps : list (string * val)) : preserves (index_render (VObj ps)).
Proof. unfold index_render. rewrite !get_prop_obj. eauto 10 using pres_render_status with inv_db. Qed.

Lemma pres_index_then (u : val) (ps : list (string * val)) :
  record_ok u -> wf (VObj ps) = true -> preserves (index_then u (VObj ps)).
Proof.
  intros (_ & _ & (tok & Htok & Hne) & (d & Hd & Hdt)) Hw st Hi. unfold index_then.
  rewrite get_prop_obj, bind_lift_inl. cbv beta.
  destruct (truthy (field ps "valid")); [|exact Hi].
  rewrite Htok, bind_lift_inl, set_prop_obj, bind_lift_inl, Hd, bind_lift_inl, set_prop_obj,
    bind_lift_inl.
  apply pres_apply; [|exact Hi]. apply pres_bind.
  - apply (pres_set_item_record (refreshed ps (VStr tok) (VStr d))), record_ok_refreshed; auto.
  - intros _. apply pres_index_render.
Qed.

Lemma pres_index_fetch_done (u : val) (r : response) :
  record_ok u -> preserves (index_fetch_done u r).
Proof.
  intros Hu. unfold index_fetch_done.
  apply pres_try_catch; [|intros _; unfold index_catch; eauto with inv_db].
  intros st Hi. destruct r as [|b]; [exact Hi|]. unfold response_json.
  destruct (parse b) as [v|e] eqn:Hp; [|exact Hi]. rewrite bind_lift_inl.
  destruct (get_prop v "valid") as [x|e] eqn:Hv.
  - destruct (truthy x) eqn:Ht.
    + destruct (valid_obj v x Hv Ht) as [ps ->].
      apply pres_index_then; [exact Hu | exact (parse_wf _ _ Hp) | exact Hi].
    + unfold index_then. cbv [mbind M_bind lift]. now rewrite Hv, Ht.
  - unfold index_then. cbv [mbind M_bind lift]. now rewrite Hv.
Qed.

Lemma pres_login_fetch_done (tok : string) (r : response) :
  tok <> "" -> preserves (login_fetch_done tok r).
Proof.
  intros Hne. unfold login_fetch_done.
  apply pres_try_catch; [|intros _; unfold login_catch; eauto with inv_db].
  intros st Hi. destruct r as [|b]; [exact Hi|]. unfold response_json.
  destruct (parse b) as [v|e] eqn:Hp; [|exact Hi]. rewrite bind_lift_inl.
  unfold login_then. apply pres_apply; [|exact Hi]. apply pres_bind; [auto with inv_db|].
  intros _. intros st1 Hi1. destruct (get_prop v "valid") as [x|e] eqn:Hv; [|exact Hi1].
  rewrite bind_lift_inl. cbv beta. destruct (truthy x) eqn:Ht; [|now apply pres_alert].
  destruct (valid_obj v x Hv Ht) as [ps ->]. rewrite set_prop_obj, bind_lift_inl.
  unfold now_ms. rewrite bind_gets. cbv beta.
  destruct (today_str _) as [d|e] eqn:Et; [|exact Hi1].
  rewrite bind_lift_inl, set_prop_obj, bind_lift_inl.
  apply pres_apply; [|exact Hi1]. apply pres_bind; [|eauto with inv_db].
  apply (pres_set_item_record (login_record ps tok d)), record_ok_login; auto.
  - exact (parse_wf _ _ Hp).
  - exact (proj2 (today_str_date_text _ _ Et)).
Qed.

Lemma pres_index_check_record (u : val) : record_ok u -> preserves (index_check_record u).
Proof.
  intros Hu. unfold index_check_record. apply pres_bind; [auto with inv_db|]. intros tok.
  apply pres_if; [eauto with inv_db|].
  apply pres_bind; [auto with inv_db|]. intros t.
  apply pres_bind; [auto with inv_db|]. intros today.
  apply pres_bind; [auto with inv_db|]. intros sd.
  apply pres_if; [eauto with inv_db|].
  apply pres_bind; [auto with inv_db|]. intros tok'. now apply pres_fetch.
Qed.

Lemma pres_index_session : preserves index_session.
Proof.
  intros st Hi. pose proof Hi as [Hs _]. unfold index_session.
  cbv [mbind M_bind get_item gets]. destruct (st_store st !! user_data_key) as [s|] eqn:E;
    [|now apply pres_navigate].
  destruct (Hs s E) as (u & -> & Hu).
  destruct (truthy _); [|now apply pres_navigate].
  rewrite (parse_stringify_text u (proj1 Hu)). cbn [lift].
  now apply pres_index_check_record.
Qed.

Lemma pres_index_load : preserves index_load.
Proof. unfold index_load. eauto using pres_index_widgets, pres_index_session with inv_db. Qed.

Lemma pres_load_handler (p : page) : preserves (load_handler p).
Proof. destruct p; simpl; auto using pres_login_load, pres_index_load, pres_picker_load. Qed.

Lemma pres_listener_handler (p : page) (l : listener) : preserves (listener_handler p l).
Proof.
  destruct l; simpl; auto using pres_submit_card, pres_logout_click, pres_displayHour,
    pres_toggle_click, pres_login_submit, pres_date_change.
Qed.

Lemma pres_task_handler (k : task) (r : response) : task_ok k -> preserves (task_handler k r).
Proof.
  destruct k; simpl; auto using pres_index_fetch_done, pres_login_fetch_done, pres_banner_timeout.
Qed.

(** ** The browser keeps the invariant *)

Lemma inv_set_now (t : Z) (st : St) : inv st -> inv (set_now t st).
Proof. now intros. Qed.

Lemma inv_step (w : world) (te : Z * event) : inv (w_st w) -> inv (w_st (step w te)).
Proof.
  destruct te as [t ev]. intros Hi. apply (inv_set_now t) in Hi.
  unfold step. cbn [fst snd]. destruct Hi as [Hs Hk].
  destruct ev as [p markup cls | sel prop v | i | i r]; cbn [w_st].
  - apply pres_load_handler. split; [exact Hs | constructor].
  - split; assumption.
  - destruct (st_listeners (set_now t (w_st w)) !! i); [|split; assumption].
    apply pres_listener_handler. split; assumption.
  - destruct (st_tasks (set_now t (w_st w)) !! i) as [k|] eqn:E; [|split; assumption].
    apply pres_task_handler; [exact (Forall_lookup_1 _ _ _ _ Hk E)|].
    split; [exact Hs | now apply Forall_delete].
Qed.

(** C23: from a state whose storage holds no session record or a
    well-formed one, every world the browser reaches by any sequence of
    page loads, user actions and request completions, in any order and
    at any times, holds in [user_data] only [JSON.stringify] of an object
    with a non-empty string [token] and a [saved_date] that is the
    [YYYY-MM-DD] text of a valid date, and every pending dashboard request
    carries such a record. *)
Theorem reachable_inv (w0 w : world) : inv (w_st w0) -> reachable w0 w -> inv (w_st w).
Proof. intros H0 Hr. induction Hr; [exact H0 | now apply inv_step]. Qed.

(** C24: on a state satisfying the invariant, with a clock inside the
    ECMAScript time range, the dashboard's DOMContentLoaded handler
    returns normally: the records the scripts write never make
    [JSON.parse] or the property reads throw. *)
Theorem index_load_no_throw (st : St) :
  inv st -> (Z.abs (env_now (st_env st)) <= max_time)%Z ->
  exists st', index_load @ st ⇓ st'.
Proof.
  intros [Hs _] Ht. destruct (index_load_session st) as (st1 & -> & (Hs1 & _ & _ & He)).
  unfold index_session, get_item. rewrite bind_gets. cbv beta. rewrite Hs1.
  destruct (st_store st !! user_data_key) as [s|] eqn:E; [|eexists; reflexivity].
  destruct (Hs s E) as (u & -> & Hw & _ & (tok & Htok & Hne) & (d & Hd & _)).
  destruct (truthy _); [|eexists; reflexivity].
  rewrite (parse_stringify_text u Hw), bind_lift_inl. unfold index_check_record.
  rewrite Htok, bind_lift_inl. cbv beta.
  replace (truthy (VStr tok)) with true by (symmetry; destruct (truthy (VStr tok)) eqn:T;
    [reflexivity | now apply truthy_str in T]).
  cbn [negb]. unfold now_ms. rewrite bind_gets, He, (today_str_date _ Ht), bind_lift_inl, Hd,
    bind_lift_inl. cbv beta.
  destruct (negb _); [eexists; reflexivity|]. rewrite bind_lift_inl. eexists; reflexivity.
Qed.

(** ** Witnesses *)

Lemma inv_empty (st : St) : st_store st = ∅ -> st_tasks st = [] -> inv st.
Proof.
  intros Hs Hk. split; [|rewrite Hk; constructor].
  intros s. rewrite Hs, lookup_empty. discriminate.
Qed.

(** A login, the dashboard, its request answered, a check-in, the timer. *)
Lemma reachable_inv_witness :
  inv (w_st (run w_world (login_events 1709629200000 1709629200000 2 [] ∅ " abc " w_body ++
         [(1709639160000%Z, EvOpen PDashboard [] ∅);
          (1709639161000%Z, EvSettle 0 (RBody w_body));
          (1709639162000%Z, EvFire 1);
          (1709639163000%Z, EvSettle 0 RNetError)]))).
Proof.
  apply (reachable_inv w_world); [apply inv_empty; reflexivity | apply run_reachable].
Defined.

Lemma index_load_no_throw_witness :
  exists st', index_load @ w_stored (w_record "2024-03-05") ⇓ st'.
Proof.
  apply index_load_no_throw; [|vm_compute; discriminate]. split; [|constructor].
  intros s. cbn. rewrite lookup_insert_eq. intros [= <-].
  exists (w_record "2024-03-05"). split; [reflexivity|].
  split; [reflexivity|]. split; [eexists; reflexivity|].
  split; [exists "abc"; split; [reflexivity | discriminate]|].
  exists "2024-03-05". split; [reflexivity|]. exists 2024%Z, 3%Z, 5%Z.
  split; [reflexivity | vm_compute; repeat split; discriminate].
Defined.

