(* ===== verification/Controller.v ===== *)
(** * The session cache controller of the design, and its refinement

    The design describes one component, the session cache controller,
    whose [bootstrap()] runs at each load of the protected page:
    1. no record in the store: redirect to the login;
    2. [token] missing or empty: delete the record, redirect;
    3. [savedDate] not today: delete the record, redirect;
    4. otherwise send the validation request with the token.

    [bootstrap] is that decision on an abstract [session] (the token when
    present and non-empty, the saved date when it is a string), and
    [spec_slot], [spec_effects], [spec_tasks] are what each outcome does
    to the slot, the effect log and the pending requests.  [read_slot]
    and [abs_value] say how the stored text denotes an abstract session:
    the text is parsed and the token read with JavaScript's truthiness.

    [index_load_refines] shows that [index_load] (indexScript.js lines
    29-58) implements [bootstrap] on every stored text that parses to a
    value other than [null]: the slot, the other keys of the store, the
    effects and the pending requests after the handler are those the
    abstract outcome prescribes.  The stored texts outside that set are
    the ones [index_load_malformed] is about. *)

From stdpp Require Import base gmap strings list.
From Stdlib Require Import ZArith Ascii String Lia.
From S2P Require Import Prelude JsValue Json Clock Browser Widgets Index.

Local Open Scope string_scope.
Local Open Scope checkin_scope.

Inductive boot_outcome : Type :=
| NoSession
| MalformedSession
| StaleSession
| Validate (token : string).

Record session : Type := mkSession {
  s_token : option string;   (** the token, when present and non-empty *)
  s_saved : option string    (** [savedDate], when it is a string *)
}.

(** Section 4.1, [bootstrap()], steps 1-4. *)
Definition bootstrap (rec : option session) (today : string) : boot_outcome :=
  match rec with
  | None => NoSession
  | Some r =>
      match s_token r with
      | None => MalformedSession
      | Some tok => if decide (s_saved r = Some today) then Validate tok else StaleSession
      end
  end.

(** What each outcome does to the slot of the record. *)
Definition spec_slot (o : boot_outcome) (slot : option string) : option string :=
  match o with
  | MalformedSession | StaleSession => None
  | _ => slot
  end.

Definition spec_effects (o : boot_outcome) : list effect :=
  match o with
  | Validate tok => [EffFetch (token_status_url tok)]
  | _ => [EffNavigate login_path]
  end.

Definition spec_tasks (o : boot_outcome) (rec : option val) : list task :=
  match o, rec with
  | Validate _, Some u => [TIndexFetch u]
  | _, _ => []
  end.

(** ** Abstraction of the stored text *)

(** The stored text as a record: absent, or the empty string, is no record. *)
Definition read_slot (slot : option string) : option val :=
  match slot with
  | Some s => if truthy (VStr s) then match parse s with inl v => Some v | inr _ => None end
              else None
  | None => None
  end.

Definition token_of (v : val) : option string :=
  match get_prop v "token" with
  | inl t => if truthy t then Some (to_str t) else None
  | inr _ => None
  end.

Definition saved_of (v : val) : option string :=
  match get_prop v "saved_date" with
  | inl (VStr d) => Some d
  | _ => None
  end.

Definition abs_value (v : val) : session := mkSession (token_of v) (saved_of v).

(** The stored texts the refinement covers: absent, empty, or JSON of a
    value other than [null]. *)
Definition slot_readable (slot : option string) : Prop :=
  match slot with
  | Some s => s = "" \/ exists v, parse s = inl v /\ v <> VNull
  | None => True
  end.

(** ** Lemmas *)

Lemma get_prop_defined (v : val) (k : string) :
  v <> VNull -> wf v = true -> exists x, get_prop v k = inl x.
Proof. destruct v; cbn; intros Hn Hw; try congruence; eauto. Qed.

Lemma strict_eq_saved (sd : val) (today : string) :
  strict_eq_str sd today = bool_decide (match sd with VStr d => Some d | _ => None end = Some today).
Proof.
  destruct sd; cbn; try reflexivity.
  destruct (String.eqb_spec s today) as [->|Hne]; symmetry;
    [apply bool_decide_eq_true | apply bool_decide_eq_false]; congruence.
Qed.

(** The two ways the synchronous checks end. *)
Lemma navigate_run (url : string) (st : St) :
  navigate url st = (with_trace (st_trace st ++ [EffNavigate url]) st, inl tt).
Proof. reflexivity. Qed.

Lemma remove_navigate_run (k url : string) (st : St) :
  (remove_item k ;; navigate url) st =
  (with_trace (st_trace st ++ [EffNavigate url]) (with_store (delete k (st_store st)) st), inl tt).
Proof. reflexivity. Qed.

(** C25: the dashboard's DOMContentLoaded handler implements the design's
    [bootstrap()]: for every stored text that is absent, empty, or JSON of
    a value other than [null], with the clock in the time range, the
    handler returns, the record's slot and the effect log and the pending
    requests change as the abstract outcome says, and no other key of the
    store changes. *)
Theorem index_load_refines (st : St) :
  slot_readable (st_store st !! user_data_key) ->
  (Z.abs (env_now (st_env st)) <= max_time)%Z ->
  let slot := st_store st !! user_data_key in
  let o := bootstrap (abs_value <$> read_slot slot)
                     (date_str (civil_from_days (env_now (st_env st) / ms_per_day))) in
  exists st', index_load @ st ⇓ st' /\
    st_store st' !! user_data_key = spec_slot o slot /\
    (forall k, k <> user_data_key -> st_store st' !! k = st_store st !! k) /\
    st_trace st' = (st_trace st ++ spec_effects o)%list /\
    st_tasks st' = (st_tasks st ++ spec_tasks o (read_slot slot))%list.
Proof.
  intros Hr Ht. cbv zeta.
  destruct (index_load_session st) as (st1 & -> & (Hs1 & Hk1 & Htr1 & He1)).
  unfold index_session, get_item. rewrite bind_gets. cbv beta. rewrite Hs1.
  unfold read_slot. destruct (st_store st !! user_data_key) as [s|] eqn:E.
  2: { rewrite navigate_run. eexists; split; [reflexivity|]. cbn. rewrite Hs1, Htr1, Hk1, E.
       rewrite app_nil_r. auto. }
  destruct (truthy (VStr s)) eqn:Hts.
  2: { rewrite navigate_run. eexists; split; [reflexivity|]. cbn. rewrite Hs1, Htr1, Hk1, E.
       rewrite app_nil_r. auto. }
  destruct Hr as [-> | (v & Hp & Hnn)]; [discriminate|].
  rewrite Hp, bind_lift_inl. unfold index_check_record. cbn [fmap option_fmap option_map].
  pose proof (parse_wf _ _ Hp) as Hw.
  destruct (get_prop_defined v "token" Hnn Hw) as [t Hgt].
  destruct (get_prop_defined v "saved_date" Hnn Hw) as [sd Hgs].
  unfold abs_value, token_of, saved_of. rewrite Hgt, Hgs, bind_lift_inl. cbv beta.
  destruct (truthy t); cbn [negb bootstrap s_token s_saved].
  - unfold now_ms. rewrite bind_gets, He1, (today_str_date _ Ht), bind_lift_inl, bind_lift_inl.
    cbv beta. rewrite strict_eq_saved.
    case_bool_decide as Hd; case_decide as Hd'; try contradiction; cbn [negb].
    + rewrite bind_lift_inl.
      eexists; split; [reflexivity|]. cbn. rewrite Hs1, Htr1, Hk1, E. auto.
    + rewrite remove_navigate_run.
      eexists; split; [reflexivity|]. cbn. rewrite Hs1, Htr1, Hk1, app_nil_r.
      split; [apply lookup_delete_eq | split; [intros; now apply lookup_delete_ne | auto]].
  - rewrite remove_navigate_run. eexists; split; [reflexivity|]. cbn.
    rewrite Hs1, Htr1, Hk1, app_nil_r.
    split; [apply lookup_delete_eq | split; [intros; now apply lookup_delete_ne | auto]].
Qed.

(** The dashboard opened on 2024-03-05 with a record of the day before:
    the abstract outcome is [StaleSession]. *)
Lemma index_load_refines_witness :
  let st := w_stored (w_record "2024-03-04") in
  let slot := st_store st !! user_data_key in
  let o := bootstrap (abs_value <$> read_slot slot)
                     (date_str (civil_from_days (env_now (st_env st) / ms_per_day))) in
  o = StaleSession /\
  exists st', index_load @ st ⇓ st' /\
    st_store st' !! user_data_key = spec_slot o slot /\
    (forall k, k <> user_data_key -> st_store st' !! k = st_store st !! k) /\
    st_trace st' = (st_trace st ++ spec_effects o)%list /\
    st_tasks st' = (st_tasks st ++ spec_tasks o (read_slot slot))%list.
Proof.
  split; [vm_compute; reflexivity|].
  apply (index_load_refines (w_stored (w_record "2024-03-04"))); [|vm_compute; discriminate].
  right. exists (w_record "2024-03-04"). split; [vm_compute; reflexivity | discriminate].
Defined.
