(* ===== verification/LoginSpec.v ===== *)
(** * The login operation of the design, and its refinement

    The design's [login(tokenInput)] (section 4.1):
    1. reject an empty or blank input locally, with a validation message
       and no network call;
    2. send the validation request with the trimmed token;
    3. on a network or parse failure, a retryable error, storage
       untouched;
    4. on an answer that the token is invalid, a rejection message,
       storage untouched;
    5. on a valid answer, store the record (the token, today's date, the
       answer's fields) and go to the protected page.

    [classify] reads the server's response the way the promise chain of
    loginScript.js lines 33-49 splits it: a failed request, a body that
    is not JSON, or one whose [valid] cannot be read ([null]) all end in
    the [.catch]; a falsy [valid] is a rejection; a truthy [valid] is
    only possible on an object.  [login_spec] is the design's operation
    on that classification, as the visible effects (requests,
    navigations, alerts; console lines are diagnostics) and the record it
    stores.  [login_refines] shows that the login page, driven through
    the browser of System.v (the user types, submits, the request
    settles), does exactly that. *)

From stdpp Require Import base gmap strings list.
From Stdlib Require Import ZArith Ascii String Lia.
From S2P Require Import Prelude JsValue Json Clock Browser Index Login System.

Local Open Scope string_scope.

Inductive answer : Type :=
| ANetworkFailure
| AInvalid
| AValid (payload : list (string * val)).

Definition classify (r : response) : answer :=
  match r with
  | RNetError => ANetworkFailure
  | RBody b =>
      match parse b with
      | inr _ => ANetworkFailure
      | inl v =>
          match get_prop v "valid" with
          | inr _ => ANetworkFailure
          | inl x =>
              if truthy x then match v with VObj ps => AValid ps | _ => AInvalid end
              else AInvalid
          end
      end
  end.

(** The user-facing effects. *)
Definition visible (e : effect) : bool :=
  match e with EffConsole _ => false | _ => true end.

Definition msg_empty : string := "Please enter your personal token!".
Definition msg_invalid : string := "Bad token! Try again.".
Definition msg_retry : string := "An error occurred. Please try again later.".

(** Steps 2-5, once the request is sent with [tok]. *)
Definition answer_spec (tok : string) (a : answer) : option (list (string * val)) * list effect :=
  match a with
  | ANetworkFailure => (None, [EffAlert msg_retry])
  | AInvalid => (None, [EffAlert msg_invalid])
  | AValid ps => (Some ps, [EffNavigate home_path])
  end.

(** Steps 1-5: the payload of the record stored (if any), with the
    trimmed token, and the visible effects. *)
Definition login_spec (input : string) (a : answer)
    : option (string * list (string * val)) * list effect :=
  let tok := trim input in
  if all_space input then (None, [EffAlert msg_empty])
  else let '(rec, effs) := answer_spec tok a in
       (option_map (fun ps => (tok, ps)) rec, EffFetch (token_status_url tok) :: effs).

(** A stored record as step 5 describes it. *)
Definition record_of (rec : val) (tok today : string) (ps : list (string * val)) : Prop :=
  parse (stringify_text rec) = inl rec /\
  get_prop rec "token" = inl (VStr tok) /\
  get_prop rec "saved_date" = inl (VStr today) /\
  (forall k, k <> "token" -> k <> "saved_date" -> get_prop rec k = get_prop (VObj ps) k).

(** The visible effects and the storage after the login page's steps. *)
Definition login_outcome (st st' : St) (today : string)
    (spec : option (string * list (string * val)) * list effect) : Prop :=
  List.filter visible (st_trace st') = (List.filter visible (st_trace st) ++ spec.2)%list /\
  match spec.1 with
  | None => st_store st' = st_store st
  | Some (tok, ps) => exists rec,
      st_store st' = <[user_data_key := stringify_text rec]> (st_store st) /\
      record_of rec tok today ps
  end.

(** ** The answer *)

Lemma filter_visible_app (l l' : list effect) :
  List.filter visible (l ++ l') = (List.filter visible l ++ List.filter visible l')%list.
Proof. apply List.filter_app. Qed.

Ltac close_trace :=
  rewrite ?filter_visible_app; cbn [List.filter visible];
  rewrite <- ?app_assoc; cbn [app]; auto.

Lemma login_fetch_done_answer (tok : string) (r : response) (st : St) :
  (Z.abs (env_now (st_env st)) <= max_time)%Z ->
  exists st', login_fetch_done tok r st = (st', inl tt) /\ st_tasks st' = st_tasks st /\
    login_outcome st st' (date_str (civil_from_days (env_now (st_env st) / ms_per_day)))
      (option_map (fun ps => (tok, ps)) (answer_spec tok (classify r)).1,
       (answer_spec tok (classify r)).2).
Proof.
  intros Ht. unfold login_fetch_done, classify, response_json, login_outcome.
  destruct r as [|b].
  { cbv [try_catch mbind M_bind throw login_catch alert emit modify].
    eexists; split; [reflexivity|]. cbn. close_trace. }
  destruct (parse b) as [v|e] eqn:Hp.
  2: { cbv [try_catch mbind M_bind lift login_catch alert emit modify].
       eexists; split; [reflexivity|]. cbn. close_trace. }
  cbv [try_catch]. rewrite (M_bind_run _ _ st st v) by reflexivity.
  unfold login_then. cbv [mbind M_bind console emit modify lift].
  destruct (get_prop v "valid") as [x|e] eqn:Hv.
  2: { cbv [login_catch alert emit modify]. eexists; split; [reflexivity|]. cbn.
       close_trace. }
  destruct (truthy x) eqn:Hx.
  2: { cbv [alert emit modify]. eexists; split; [reflexivity|]. cbn.
       close_trace. }
  destruct (valid_obj v x Hv Hx) as [ps ->]. rewrite set_prop_obj.
  cbv [now_ms gets]. cbn [st_env with_trace]. rewrite (today_str_date _ Ht), set_prop_obj.
  cbv [set_item navigate emit modify]. eexists; split; [reflexivity|].
  cbn [st_tasks st_trace st_store with_trace with_store option_map answer_spec fst snd].
  split; [reflexivity|]. split; [close_trace|].
  exists (login_record ps tok (date_str (civil_from_days (env_now (st_env st) / ms_per_day)))).
  split; [reflexivity|]. split; [|split; [apply login_record_token|split; [apply login_record_saved_date|]]].
  - apply parse_stringify_text, login_record_wf, (parse_wf _ _ Hp).
  - intros k Hk Hd. unfold login_record. rewrite !get_prop_obj, !field_set_ne by assumption.
    reflexivity.
Qed.

(** ** The login page, event by event *)

(** C30: the login page implements the design's [login()]: whatever the
    user types and whatever the server answers, typing the token,
    submitting the form and letting the request settle produce the
    visible effects and the stored record that [login_spec] prescribes
    for the input and the classified answer, with the record dated by
    the UTC day of the answer. *)
Theorem login_refines (w : world) (i : nat) (raw : string) (r : response) (t0 t1 : Z) :
  st_listeners (w_st w) !! i = Some LLoginSubmit -> st_tasks (w_st w) = [] ->
  (Z.abs t1 <= max_time)%Z ->
  login_outcome (w_st w)
    (w_st (run w [(t0, EvInput ".token-field" "value" raw); (t0, EvFire i);
                  (t1, EvSettle 0 r)]))
    (date_str (civil_from_days (t1 / ms_per_day))) (login_spec raw (classify r)).
Proof.
  intros Hl Hk Ht. unfold run. cbn [fold_left].
  unfold step at 3. unfold step at 2. norm_w. rewrite Hl. norm_w. unfold exec at 1.
  unfold login_spec. destruct (all_space raw) eqn:Hb.
  - rewrite (login_submit_blank_eq _ raw) by (try assumption; reflexivity).
    cbv [alert emit modify]. unfold step. norm_w. rewrite Hk. norm_w.
    unfold login_outcome. norm_w. split; [close_trace | reflexivity].
  - rewrite (login_submit_eq _ raw) by (try assumption; reflexivity).
    cbv [fetch modify]. unfold step. norm_w. rewrite Hk. norm_w.
    match goal with |- context [exec (login_fetch_done ?tok r) ?s] =>
      destruct (login_fetch_done_answer tok r s Ht) as (st' & E & _ & Htr & Hs) end.
    unfold exec. rewrite E. cbn [fst].
    destruct (answer_spec (trim raw) (classify r)) as [rec effs] eqn:Ea.
    cbn [fst snd] in *. unfold login_outcome. cbn [fst snd].
    split.
    + rewrite Htr. norm_w. close_trace.
    + destruct rec as [ps|]; cbn in Hs |- *; exact Hs.
Qed.

(** A login page with two toggle icons; the server confirms the token. *)
Lemma login_refines_witness :
  let w := mkWorld (PLogin 2) (mkSt ∅ [] ∅ [LToggle; LToggle; LLoginSubmit] [] []
                                    (mkEnv 1709640000000 0 [] [])) in
  login_spec " abc " (classify (RBody w_body)) =
    (Some ("abc", w_login_answer true), [EffFetch (token_status_url "abc"); EffNavigate home_path]) /\
  login_outcome (w_st w)
    (w_st (run w [(1709640000000%Z, EvInput ".token-field" "value" " abc "); (1709640000000%Z, EvFire 2);
                  (1709640000800%Z, EvSettle 0 (RBody w_body))]))
    (date_str (civil_from_days (1709640000800 / ms_per_day))) (login_spec " abc " (classify (RBody w_body))).
Proof.
  split; [vm_compute; reflexivity|].
  apply login_refines; [reflexivity | reflexivity | vm_compute; discriminate].
Defined.
