(* ===== verification/DashboardSpec.v ===== *)
(** * The design's [bootstrap()], steps 1-7, and the dashboard page

    Controller.v refines steps 1-4 of [bootstrap()] (the synchronous
    checks); this file adds the answer of the validation request
    (steps 5-7) and relates the whole operation to the browser of
    System.v: the dashboard is opened, and the request it sends (if any)
    settles with a response.

    [dashboard_spec] is the design's operation on the abstract session of
    Controller.v and the classified answer of LoginSpec.v, as the change
    of the session slot ([slot_op]) and the visible effects:
    - steps 1-3: as [bootstrap];
    - step 5, a network or parse failure: the request, then a redirect to
      the login; the step does not ask to delete the record;
    - step 6, an explicit rejection: a redirect to the login;
    - step 7, a confirmation: the request, and the record rewritten as the
      answer with the stored token and date.

    [dashboard_refines] shows that the page does what [dashboard_spec]
    prescribes on every state the scripts can reach (the slot empty or
    holding a record the scripts write, Invariant.v), for every answer
    but two: an explicit rejection, where the page does nothing at all
    (Index.v, C5), and a confirmation without a string [full_name], which
    section 6 of the design excludes and which sends the page to the
    login after the write (C32).

    [logout_ends_session]: the Logout button of a checked-out dashboard
    removes the record, so the next load of the dashboard redirects. *)

From stdpp Require Import base gmap strings list.
From Stdlib Require Import ZArith Ascii String Lia.
From S2P Require Import Prelude JsValue Json Clock Browser Widgets Index Login System Invariant Controller LoginSpec.

Local Open Scope string_scope.
Local Open Scope checkin_scope.

(** What an operation does to the slot of the record. *)
Inductive slot_op : Type :=
| SKeep
| SRemove
| SRefresh (tok : string) (ps : list (string * val)).

(** Steps 5-7, once the request is sent with [tok]. *)
Definition validate_spec (tok : string) (a : answer) : slot_op * list effect :=
  match a with
  | ANetworkFailure => (SKeep, [EffNavigate login_path])
  | AInvalid => (SKeep, [EffNavigate login_path])
  | AValid ps => (SRefresh tok ps, [])
  end.

(** Steps 1-7. *)
Definition dashboard_spec (rec : option session) (today : string) (a : answer)
    : slot_op * list effect :=
  match bootstrap rec today with
  | NoSession => (SKeep, [EffNavigate login_path])
  | MalformedSession | StaleSession => (SRemove, [EffNavigate login_path])
  | Validate tok =>
      let '(op, effs) := validate_spec tok a in (op, EffFetch (token_status_url tok) :: effs)
  end.

(** Section 6 of the design: a confirmation carries a string [full_name]. *)
Definition answer_conforms (a : answer) : Prop :=
  match a with
  | AValid ps => exists name, field ps "full_name" = VStr name
  | _ => True
  end.

(** The slot before and after, as [op] prescribes. *)
Definition slot_spec (op : slot_op) (today : string) (before after : option string) : Prop :=
  match op with
  | SKeep => after = before
  | SRemove => after = None
  | SRefresh tok ps => exists rec, after = Some (stringify_text rec) /\ record_of rec tok today ps
  end.

(** The visible effects and the storage after the steps. *)
Definition dash_outcome (st st' : St) (today : string) (spec : slot_op * list effect) : Prop :=
  List.filter visible (st_trace st') = (List.filter visible (st_trace st) ++ spec.2)%list /\
  (forall k, k <> user_data_key -> st_store st' !! k = st_store st !! k) /\
  slot_spec spec.1 today (st_store st !! user_data_key) (st_store st' !! user_data_key).

(** ** Composing the outcome *)

(** The request sent at the load, then the outcome of its answer. *)
Lemma dash_outcome_fetch (st st1 st2 : St) (today url : string) (op : slot_op)
    (effs : list effect) :
  st_store st1 = st_store st -> st_trace st1 = (st_trace st ++ [EffFetch url])%list ->
  dash_outcome st1 st2 today (op, effs) -> dash_outcome st st2 today (op, EffFetch url :: effs).
Proof.
  intros Hs Ht (Htr & Hk & Hslot). rewrite Hs in Hk, Hslot. split; [|split; assumption].
  rewrite Htr, Ht. close_trace.
Qed.

(** A settle event for no pending request only moves the clock. *)
Lemma settle_idle (w : world) (t : Z) (i : nat) (r : response) :
  st_tasks (w_st w) !! i = None -> step w (t, EvSettle i r) = mkWorld (w_page w) (set_now t (w_st w)).
Proof. intros H. unfold step. norm_w. now rewrite H. Qed.

(** The record written back after a confirmation is the one step 7
    describes. *)
Lemma refreshed_record_of (b : string) (ps : list (string * val)) (tok d : string) :
  parse b = inl (VObj ps) -> record_of (refreshed ps (VStr tok) (VStr d)) tok d ps.
Proof.
  intros Hb. split; [apply parse_stringify_text, refreshed_wf; auto; exact (parse_wf _ _ Hb)|].
  destruct (refreshed_fields ps (VStr tok) (VStr d)) as [Ht Hd]. split; [exact Ht|]. split; [exact Hd|].
  intros k Hk Hk'. unfold refreshed. rewrite !get_prop_obj, !field_set_ne by assumption. reflexivity.
Qed.

(** The catch: a console line and the redirect, storage untouched. *)
Lemma index_catch_outcome (st : St) (today : string) (op : slot_op) :
  slot_spec op today (st_store st !! user_data_key) (st_store st !! user_data_key) ->
  dash_outcome st (fst (index_catch st)) today (op, [EffNavigate login_path]).
Proof.
  intros Hop. unfold index_catch. cbv [mbind M_bind emit navigate modify].
  unfold dash_outcome, with_trace. cbn [fst snd Browser.st_trace Browser.st_store]. split; [close_trace | split; [reflexivity | exact Hop]].
Qed.

(** Steps 5-7 as the [.then]/[.catch] chain runs them, for the answers
    the refinement covers. *)
Lemma index_fetch_done_answer (u : val) (tok d : string) (r : response) (st : St) :
  classify r <> AInvalid -> answer_conforms (classify r) ->
  get_prop u "token" = inl (VStr tok) -> get_prop u "saved_date" = inl (VStr d) ->
  exists st', index_fetch_done u r st = (st', inl tt) /\ st_tasks st' = st_tasks st /\
    dash_outcome st st' d (validate_spec tok (classify r)).
Proof.
  intros Hi Hc Htok Hsd. unfold classify in *.
  destruct r as [|b].
  { cbv [index_fetch_done response_json try_catch throw]. eexists; split; [reflexivity|].
    split; [reflexivity | now apply index_catch_outcome]. }
  destruct (parse b) as [v|e] eqn:Hp; [destruct (get_prop v "valid") as [x|e] eqn:Hv|].
  2,3: cbv [index_fetch_done response_json index_then try_catch lift mbind M_bind];
       rewrite Hp; try rewrite Hv; eexists; split; [reflexivity|];
       split; [reflexivity | now apply index_catch_outcome].
  destruct (truthy x) eqn:Hx; [|contradiction].
  destruct (valid_obj v x Hv Hx) as [ps ->]. destruct Hc as [name Hname].
  rewrite get_prop_obj in Hv. injection Hv as <-.
  destruct (index_fetch_done_confirmed st u b ps _ _ name Hp Hx Htok Hsd Hname)
    as (st' & E & Hs' & Htr' & Hk').
  rewrite E. eexists; split; [reflexivity|]. split; [exact Hk'|].
  unfold dash_outcome. rewrite Hs', Htr'.
  split; [now rewrite app_nil_r|].
  split; [intros k Hk; now rewrite lookup_insert_ne by congruence|].
  exists (refreshed ps (VStr tok) (VStr d)). split; [now rewrite lookup_insert_eq|].
  exact (refreshed_record_of b ps tok d Hp).
Qed.

(** ** The load, on the states the scripts reach *)

(** No record: the load only redirects. *)
Lemma open_dashboard_none (w : world) (t : Z) markup cls :
  st_store (w_st w) !! user_data_key = None ->
  exists st1, io_same (fresh_page markup cls (set_now t (w_st w))) st1 /\
    step w (t, EvOpen PDashboard markup cls) = mkWorld PDashboard (exec (navigate login_path) st1).
Proof.
  intros E. unfold step. norm_w.
  destruct (index_load_session (fresh_page markup cls (set_now t (w_st w)))) as (st1 & H1 & Hio).
  exists st1. split; [exact Hio|]. unfold exec. rewrite H1.
  unfold index_session, get_item. rewrite bind_gets. destruct Hio as (Hs & _).
  rewrite Hs. norm_w. now rewrite E.
Qed.

(** A record the scripts write is read as a session with its token and
    date. *)
Lemma abs_slot_record (u : val) (tok d : string) :
  wf u = true -> stringify_text u <> "" ->
  get_prop u "token" = inl (VStr tok) -> tok <> "" -> get_prop u "saved_date" = inl (VStr d) ->
  abs_value <$> read_slot (Some (stringify_text u)) = Some (mkSession (Some tok) (Some d)).
Proof.
  intros Hw Hne Htok Htne Hd. unfold read_slot.
  replace (truthy (VStr (stringify_text u))) with true
    by (symmetry; destruct (truthy _) eqn:T; [reflexivity | now apply truthy_str in T]).
  rewrite (parse_stringify_text u Hw). cbn [fmap option_fmap option_map].
  unfold abs_value, token_of, saved_of. rewrite Htok, Hd.
  replace (truthy (VStr tok)) with true
    by (symmetry; destruct (truthy _) eqn:T; [reflexivity | now apply truthy_str in T]).
  reflexivity.
Qed.

Lemma bootstrap_record (tok d today : string) :
  bootstrap (Some (mkSession (Some tok) (Some d))) today =
  if String.eqb d today then Validate tok else StaleSession.
Proof.
  unfold bootstrap. cbn [s_token s_saved].
  destruct (String.eqb_spec d today); case_decide; congruence.
Qed.

(** The state after a load that sent no request: the world only moves
    its clock at a settle event. *)
Lemma settle_after_redirect (w : world) (t0 t1 : Z) markup cls (st1 : St) (r : response)
    (m : M unit) :
  io_same (fresh_page markup cls (set_now t0 (w_st w))) st1 ->
  st_tasks (exec m st1) = st_tasks st1 ->
  w_st (step (mkWorld PDashboard (exec m st1)) (t1, EvSettle 0 r)) = set_now t1 (exec m st1).
Proof.
  intros (_ & Hk & _) Hm. rewrite settle_idle; [reflexivity|]. norm_w. now rewrite Hm, Hk.
Qed.

(** ** The refinement *)

(** C31: the dashboard implements the design's [bootstrap()], steps 1-7:
    from any state whose slot is empty or holds a record the scripts
    write, opening the dashboard at [t0] (inside the ECMAScript time
    range) and letting the validation request, if one was sent, settle
    with [r] produce the visible effects and the change of the slot that
    [dashboard_spec] prescribes for the stored session, the UTC date of
    [t0] and the classified answer, and leave every other key of the
    store as it was; for every answer except an explicit rejection
    (C5) and a confirmation without a string [full_name] (C32). *)
Theorem dashboard_refines (w : world) (t0 t1 : Z) markup cls (r : response) :
  store_ok (st_store (w_st w)) -> (Z.abs t0 <= max_time)%Z ->
  classify r <> AInvalid -> answer_conforms (classify r) ->
  let today := date_str (civil_from_days (t0 / ms_per_day)) in
  dash_outcome (w_st w) (w_st (run w [(t0, EvOpen PDashboard markup cls); (t1, EvSettle 0 r)]))
    today (dashboard_spec (abs_value <$> read_slot (st_store (w_st w) !! user_data_key))
                          today (classify r)).
Proof.
  intros Hs Ht Hi Hc today. unfold run. cbn [fold_left].
  assert (Htoday : today_str t0 = inl today) by (apply today_str_date; exact Ht).
  destruct (st_store (w_st w) !! user_data_key) as [s|] eqn:E.
  2: { destruct (open_dashboard_none w t0 markup cls E) as (st1 & Hio & ->).
       rewrite (settle_after_redirect _ _ _ _ _ st1 r _ Hio) by reflexivity.
       destruct Hio as (Hs1 & _ & Htr1 & _). unfold exec. rewrite navigate_run.
       unfold dash_outcome. norm_w. rewrite Hs1, Htr1, E.
       split; [close_trace | split; reflexivity]. }
  destruct (Hs s E) as (u & -> & Hw & [ps0 Hu] & (tok & Htok & Hne) & (d & Hd & _)).
  assert (Hobj : stringify_text u <> "") by (subst u; apply stringify_text_obj_nonempty).
  rewrite (abs_slot_record u tok d Hw Hobj Htok Hne Hd). unfold dashboard_spec.
  rewrite bootstrap_record. destruct (String.eqb d today) eqn:Hdt.
  - destruct (open_dashboard_gen w t0 markup cls u Hw Hobj E tok Htok Hne d Hd today Htoday
      (fetch (token_status_url tok) (TIndexFetch u)) (fun _ _ => eq_refl)
      (fun H => ltac:(congruence))) as (st1 & (Hs1 & Hk1 & Htr1 & _) & ->).
    unfold step, exec. cbv [fetch modify]. norm_w. rewrite Hk1. norm_w.
    match goal with |- context [index_fetch_done u r ?s] =>
      destruct (index_fetch_done_answer u tok d r s Hi Hc Htok Hd) as (st' & -> & _ & Hout) end.
    apply String.eqb_eq in Hdt. subst d. cbn [fst].
    destruct (validate_spec tok (classify r)) as [op effs].
    eapply dash_outcome_fetch; [| |exact Hout]; cbn; rewrite ?Hs1, ?Htr1; reflexivity.
  - destruct (open_dashboard_gen w t0 markup cls u Hw Hobj E tok Htok Hne d Hd today Htoday
      (remove_item user_data_key ;; navigate login_path) (fun H => ltac:(congruence))
      (fun _ _ => eq_refl)) as (st1 & Hio & ->).
    rewrite (settle_after_redirect _ _ _ _ _ st1 r _ Hio) by reflexivity.
    destruct Hio as (Hs1 & _ & Htr1 & _). unfold exec. rewrite remove_navigate_run.
    unfold dash_outcome. norm_w. rewrite Hs1, Htr1. norm_w.
    split; [close_trace|]. split; [|apply lookup_delete_eq].
    intros k Hk. now apply lookup_delete_ne.
Qed.

(** The dashboard opened on 2024-03-05 with the record of the day; the
    server confirms the token one second later: the record is refreshed. *)
Lemma dashboard_refines_witness :
  let w := mkWorld PDashboard (w_stored (w_record "2024-03-05")) in
  let r := RBody (stringify_text (w_answer true)) in
  let today := date_str (civil_from_days (1709640000000 / ms_per_day)) in
  (dashboard_spec (abs_value <$> read_slot (st_store (w_st w) !! user_data_key)) today (classify r)).2
    = [EffFetch (token_status_url "abc")] /\
  dash_outcome (w_st w)
    (w_st (run w [(1709640000000%Z, EvOpen PDashboard [] ∅); (1709640001000%Z, EvSettle 0 r)]))
    today (dashboard_spec (abs_value <$> read_slot (st_store (w_st w) !! user_data_key))
                          today (classify r)).
Proof.
  split; [vm_compute; reflexivity|].
  apply dashboard_refines; [|vm_compute; discriminate | vm_compute; discriminate |
                            vm_compute; eexists; reflexivity].
  intros s. cbn. rewrite lookup_insert_eq. intros [= <-].
  exists (w_record "2024-03-05"). split; [reflexivity|].
  split; [reflexivity|]. split; [eexists; reflexivity|].
  split; [exists "abc"; split; [reflexivity | discriminate]|].
  exists "2024-03-05". split; [reflexivity|]. exists 2024%Z, 3%Z, 5%Z.
  split; [reflexivity | vm_compute; repeat split; discriminate].
Defined.

(** ** Logout *)

(** C37: the logout ends the session: after a click on the Logout
    button of a checked-out dashboard, the record is gone, so the next
    load of the dashboard, at any later time, redirects to the login
    without sending a request; no other key of the store changes. *)
Theorem logout_ends_session (w : world) (i : nat) (t1 t2 : Z) markup cls :
  st_listeners (w_st w) !! i = Some LLogoutClick ->
  let w' := run w [(t1, EvFire i); (t2, EvOpen PDashboard markup cls)] in
  st_store (w_st w') !! user_data_key = None /\
  (forall k, k <> user_data_key -> st_store (w_st w') !! k = st_store (w_st w) !! k) /\
  st_trace (w_st w') = (st_trace (w_st w) ++ [EffNavigate login_path; EffNavigate login_path])%list /\
  st_tasks (w_st w') = [].
Proof.
  intros Hl. cbv zeta. unfold run. cbn [fold_left].
  assert (E1 : step w (t1, EvFire i) =
    mkWorld (w_page w) (with_trace (st_trace (w_st w) ++ [EffNavigate login_path])
                          (with_store (delete user_data_key (st_store (w_st w)))
                             (set_now t1 (w_st w)))))
    by (unfold step; norm_w; now rewrite Hl).
  rewrite E1.
  match goal with |- context [step ?w0 (t2, EvOpen PDashboard markup cls)] =>
    destruct (open_dashboard_none w0 t2 markup cls) as (st1 & (Hs1 & Hk1 & Htr1 & _) & ->) end.
  { norm_w. apply lookup_delete_eq. }
  unfold exec. rewrite navigate_run. norm_w. rewrite Hs1, Htr1, Hk1. norm_w.
  split; [apply lookup_delete_eq|]. split; [intros k Hk; now apply lookup_delete_ne|].
  rewrite <- app_assoc. auto.
Qed.

(** A checked-out dashboard whose Logout button is clicked, then reopened. *)
Lemma logout_ends_session_witness :
  let w := mkWorld PDashboard
             (mkSt {[user_data_key := stringify_text (w_record "2024-03-05")]} [] ∅
                   [LHourTick; LLogoutClick] [] [] (mkEnv 1709640000000 0 [] [])) in
  let w' := run w [(1709640000000%Z, EvFire 1); (1709640005000%Z, EvOpen PDashboard [] ∅)] in
  st_store (w_st w') !! user_data_key = None /\
  (forall k, k <> user_data_key -> st_store (w_st w') !! k = st_store (w_st w) !! k) /\
  st_trace (w_st w') = (st_trace (w_st w) ++ [EffNavigate login_path; EffNavigate login_path])%list /\
  st_tasks (w_st w') = [].
Proof. apply logout_ends_session. reflexivity. Defined.
